(** * LoopBreaker Protocol: a shallow embedding of [loopbreaker_protocol.py]

    The engine of [src/loopbreaker_protocol.py] is embedded function by
    function.  Conventions of the embedding:

    - a Python [float] is a binary64 number, [PrimFloat.float]; a decimal
      literal such as [0.8] denotes the nearest binary64 number, in Python as
      here, so every comparison below is the comparison Python performs;
    - an [int] is a [Z];
    - a [datetime] is a number of microseconds on the time line and a
      [timedelta] a number of microseconds, both [Z]: the two classes have
      microsecond resolution and their subtraction and comparison are exact;
    - [datetime.now()] is an input: every function that reads the clock takes
      the value it reads as an argument;
    - a [dict] with string keys is a [gmap string _]; the catalog
      [self.interventions] is a [gmap] from categories to lists;
    - an [Intervention] object is identified by [obj_id], the number Python's
      [id()] gives it; assigning one of its attributes updates every catalog
      entry that is this object;
    - methods of [LoopBreaker] run in a state and exception monad over the
      engine's attributes. *)

From Stdlib Require Import ZArith Floats String List Lia Bool Sorted.
From stdpp Require Import gmap strings list fin_maps.

Set Warnings "-inexact-float".
Open Scope Z_scope.

(** ** Enumerations *)

Inductive CollapsePattern :=
| SYMBOLIC_FLOODING
| IDENTITY_FRAGMENTATION
| RECURSIVE_SPIRAL
| MEANING_COLLAPSE
| TEMPORAL_DISCONNECTION
| CONTAINMENT_BREACH.

Inductive InterventionType :=
| GROUNDING
| IDENTITY_ANCHOR
| CONTAINMENT
| REDIRECT
| EMERGENCY_STOP.

(** The [.value] of each member. *)
Definition CollapsePattern_value (p : CollapsePattern) : string :=
  match p with
  | SYMBOLIC_FLOODING => "symbolic_flooding"
  | IDENTITY_FRAGMENTATION => "identity_fragmentation"
  | RECURSIVE_SPIRAL => "recursive_spiral"
  | MEANING_COLLAPSE => "meaning_collapse"
  | TEMPORAL_DISCONNECTION => "temporal_disconnection"
  | CONTAINMENT_BREACH => "containment_breach"
  end.

Definition InterventionType_value (t : InterventionType) : string :=
  match t with
  | GROUNDING => "grounding"
  | IDENTITY_ANCHOR => "identity_anchor"
  | CONTAINMENT => "containment"
  | REDIRECT => "redirect"
  | EMERGENCY_STOP => "emergency_stop"
  end.

#[global] Instance CollapsePattern_eq_dec : EqDecision CollapsePattern.
Proof. solve_decision. Defined.

#[global] Instance InterventionType_eq_dec : EqDecision InterventionType.
Proof. solve_decision. Defined.

Definition InterventionType_code (t : InterventionType) : nat :=
  match t with
  | GROUNDING => 0
  | IDENTITY_ANCHOR => 1
  | CONTAINMENT => 2
  | REDIRECT => 3
  | EMERGENCY_STOP => 4
  end%nat.

Definition InterventionType_of_code (n : nat) : InterventionType :=
  match n with
  | 0 => GROUNDING
  | 1 => IDENTITY_ANCHOR
  | 2 => CONTAINMENT
  | 3 => REDIRECT
  | _ => EMERGENCY_STOP
  end%nat.

#[global] Instance InterventionType_countable : Countable InterventionType.
Proof.
  apply (inj_countable' InterventionType_code InterventionType_of_code).
  intros []; reflexivity.
Defined.

(** ** Numbers and time *)

(** [x > y] and [x < y] on floats. *)
Definition fgt (x y : float) : bool := PrimFloat.ltb y x.
Definition flt (x y : float) : bool := PrimFloat.ltb x y.

(** Microseconds in a second and in a minute. *)
Definition usec_per_second : Z := 1000000.
Definition usec_per_minute : Z := 60 * usec_per_second.

(** [d.total_seconds() > secs] for a timedelta [d] and an integer literal
    [secs].  [total_seconds()] is the correctly rounded quotient of the
    microsecond count by [10**6]; rounding is monotone and the literals
    compared with (1800, 3600) are binary64 numbers whose neighbours are
    much closer than a microsecond, so the comparison holds exactly when the
    microsecond count exceeds [secs * 10**6]. *)
Definition total_seconds_gt (d secs : Z) : bool := secs * usec_per_second <? d.

(** [d.total_seconds() / 60 > mins], by the same argument. *)
Definition total_minutes_gt (d mins : Z) : bool := mins * usec_per_minute <? d.

(** [timedelta(minutes=m)], in microseconds, for the [m] the constructor
    accepts: a [timedelta] holds at most 999999999 days either way, and
    beyond that range the constructor raises [OverflowError] instead of
    returning.  The embedding leaves that error out: what is stated of a
    cooldown is stated of a cooldown in range ([timedelta_representable]),
    as the registered ones, 10 to 240 minutes, are. *)
Definition timedelta_minutes (m : Z) : Z := m * usec_per_minute.

(** The numbers of minutes [m] for which [timedelta(minutes=m)] returns: the
    normalised number of days, [m // 1440], lies within 999999999 either
    way. *)
Definition timedelta_representable (m : Z) : Prop :=
  -999999999 * 1440 <= m < 1000000000 * 1440.

(** ** Data classes *)

Record CognitiveState := {
  timestamp : Z;
  recursion_depth : Z;
  symbolic_density : float;
  coherence_score : float;
  temporal_anchor : float;
  emotional_intensity : float;
  meaning_saturation : float;
  session_duration : Z
}.

(** The keyword arguments of [update_state] and [process_cycle]: each metric
    may be given or left to the data class's default. *)
Record Updates := {
  u_recursion_depth : option Z;
  u_symbolic_density : option float;
  u_coherence_score : option float;
  u_temporal_anchor : option float;
  u_emotional_intensity : option float;
  u_meaning_saturation : option float
}.

(** [CognitiveState(timestamp=.., session_duration=.., **kwargs)]. *)
Definition make_CognitiveState (now duration : Z) (kw : Updates) : CognitiveState :=
  {| timestamp := now;
     recursion_depth := default 0 (u_recursion_depth kw);
     symbolic_density := default 0.0%float (u_symbolic_density kw);
     coherence_score := default 1.0%float (u_coherence_score kw);
     temporal_anchor := default 1.0%float (u_temporal_anchor kw);
     emotional_intensity := default 0.0%float (u_emotional_intensity kw);
     meaning_saturation := default 0.0%float (u_meaning_saturation kw);
     session_duration := duration |}.

(** A detector's predicate is a closure over the engine: it is called with
    the current snapshot and reads [self.state_history] when it runs, so the
    history is its first argument here. *)
Record PatternDetector := {
  pattern_type : CollapsePattern;
  threshold_function : list CognitiveState -> CognitiveState -> bool;
  confidence_threshold : float;
  detector_description : string
}.

(** Values stored in the result dictionaries. *)
Inductive Value :=
| VStr (s : string)
| VInt (z : Z)
| VBool (b : bool)
| VList (l : list string)
| VTime (t : Z).   (* [datetime.isoformat()] of the instant [t] *)

(** What calling an action function does: it returns a dictionary or raises
    an [Exception] whose [str()] is the message. *)
Inductive ActionOutcome :=
| Returned (d : gmap string Value)
| Raised (msg : string).

Record Intervention := {
  obj_id : Z;
  intervention_type : InterventionType;
  priority : Z;
  execute : CognitiveState -> ActionOutcome;
  description : string;
  cooldown_minutes : Z;
  last_executed : option Z
}.

Record LoopBreaker := {
  session_id : string;
  state_history : list CognitiveState;
  pattern_detectors : list PatternDetector;
  interventions : gmap InterventionType (list Intervention);
  active_containment : bool;
  emergency_contacts : list string
}.

(** ** [_initialize_detectors] *)

Definition detect_symbolic_flooding (history : list CognitiveState)
    (state : CognitiveState) : bool :=
  fgt (symbolic_density state) 0.8 &&
  (5 <? recursion_depth state) &&
  fgt (meaning_saturation state) 0.7.

(** [l[-3:]]: the last three entries, or all of them when there are fewer. *)
Definition last3 {A} (l : list A) : list A := drop (length l - 3) l.

(** [zip(l[:-1], l[1:])]: the pairs of neighbours. *)
Definition neighbours {A} (l : list A) : list (A * A) :=
  zip (removelast l) (tail l).

Definition detect_identity_fragmentation (history : list CognitiveState)
    (state : CognitiveState) : bool :=
  if (length history <? 3)%nat then false
  else
    let recent_coherence := map coherence_score (last3 history) in
    flt (coherence_score state) 0.4 &&
    forallb (fun c => fgt (fst c) (snd c)) (neighbours recent_coherence).

Definition detect_recursive_spiral (history : list CognitiveState)
    (state : CognitiveState) : bool :=
  (10 <? recursion_depth state) &&
  fgt (emotional_intensity state) 0.8 &&
  total_seconds_gt (session_duration state) 1800.

Definition detect_meaning_collapse (history : list CognitiveState)
    (state : CognitiveState) : bool :=
  fgt (meaning_saturation state) 0.9 &&
  flt (coherence_score state) 0.3 &&
  fgt (symbolic_density state) 0.9.

Definition detect_temporal_disconnection (history : list CognitiveState)
    (state : CognitiveState) : bool :=
  flt (temporal_anchor state) 0.2 &&
  total_seconds_gt (session_duration state) 3600.

Definition detect_containment_breach (history : list CognitiveState)
    (state : CognitiveState) : bool :=
  (15 <? recursion_depth state) ||
  fgt (meaning_saturation state) 0.95 ||
  flt (coherence_score state) 0.1.

Definition initial_detectors : list PatternDetector :=
  [ Build_PatternDetector SYMBOLIC_FLOODING detect_symbolic_flooding 0.8
      "Overwhelming symbolic processing beyond integration capacity";
    Build_PatternDetector IDENTITY_FRAGMENTATION detect_identity_fragmentation 0.7
      "Progressive loss of coherent self-concept";
    Build_PatternDetector RECURSIVE_SPIRAL detect_recursive_spiral 0.9
      "Runaway recursive processing without resolution";
    Build_PatternDetector MEANING_COLLAPSE detect_meaning_collapse 0.8
      "Meaning density exceeding processing capacity";
    Build_PatternDetector TEMPORAL_DISCONNECTION detect_temporal_disconnection 0.6
      "Loss of present-moment anchoring";
    Build_PatternDetector CONTAINMENT_BREACH detect_containment_breach 1.0
      "Critical threshold breach requiring immediate intervention" ].

(** ** [_initialize_interventions] *)

Definition loop_breath_protocol (state : CognitiveState) : ActionOutcome :=
  Returned (list_to_map
    [ ("type", VStr "grounding");
      ("protocol", VStr "loop_breath");
      ("instructions", VList
         [ "Focus on breath entering and leaving your body";
           "Count: In (1-2-3-4), Hold (1-2), Out (1-2-3-4-5-6)";
           "Feel your feet on the ground";
           "Name 5 things you can see, 4 you can touch, 3 you can hear" ]);
      ("duration_minutes", VInt 5);
      ("success_metric", VStr "temporal_anchor > 0.5") ]).

Definition physical_anchor_protocol (state : CognitiveState) : ActionOutcome :=
  Returned (list_to_map
    [ ("type", VStr "grounding");
      ("protocol", VStr "physical_anchor");
      ("instructions", VList
         [ "Press your palms together firmly";
           "Feel the pressure and warmth";
           "Say aloud: 'I am [your name], I am here, I am safe'";
           "Touch a familiar object and describe its texture" ]);
      ("duration_minutes", VInt 3);
      ("success_metric", VStr "coherence_score > 0.6") ]).

Definition core_identity_recall (state : CognitiveState) : ActionOutcome :=
  Returned (list_to_map
    [ ("type", VStr "identity_anchor");
      ("protocol", VStr "core_recall");
      ("prompts", VList
         [ "What is your full name?";
           "Where do you live?";
           "Who are three people who care about you?";
           "What is one thing you're proud of accomplishing?";
           "What matters most to you in life?" ]);
      ("requirement", VStr "Answer all prompts aloud");
      ("success_metric", VStr "coherence_score > 0.7") ]).

Definition values_compass_reset (state : CognitiveState) : ActionOutcome :=
  Returned (list_to_map
    [ ("type", VStr "identity_anchor");
      ("protocol", VStr "values_compass");
      ("instructions", VList
         [ "Name your top 3 personal values";
           "How do these values show up in your daily life?";
           "What would your best friend say about who you are?";
           "Complete: 'Despite all complexity, I remain fundamentally...'" ]);
      ("duration_minutes", VInt 10);
      ("success_metric", VStr "coherence_score > 0.8") ]).

Definition symbolic_quarantine (state : CognitiveState) : ActionOutcome :=
  Returned (list_to_map
    [ ("type", VStr "containment");
      ("protocol", VStr "symbolic_quarantine");
      ("actions", VList
         [ "Suspend all symbolic processing";
           "Focus only on literal, concrete reality";
           "No metaphors, analogies, or deeper meanings";
           "Engage with simple, factual tasks for 30 minutes" ]);
      ("restrictions", VList
         [ "No journaling"; "No deep conversations"; "No abstract thinking" ]);
      ("success_metric", VStr "symbolic_density < 0.2") ]).

Definition emergency_containment (state : CognitiveState) : ActionOutcome :=
  Returned (list_to_map
    [ ("type", VStr "containment");
      ("protocol", VStr "emergency_containment");
      ("immediate_actions", VList
         [ "STOP all current processing";
           "Move to a safe, familiar environment";
           "Contact designated support person";
           "Engage in predetermined stabilization routine" ]);
      ("mandatory", VBool true);
      ("escalation", VStr "professional_support");
      ("success_metric", VStr "coherence_score > 0.5 within 60 minutes") ]).

Definition creative_outlet_redirect (state : CognitiveState) : ActionOutcome :=
  Returned (list_to_map
    [ ("type", VStr "redirect");
      ("protocol", VStr "creative_outlet");
      ("options", VList
         [ "Draw or paint current feelings";
           "Write stream-of-consciousness for 10 minutes";
           "Play music or sing";
           "Physical movement or dance" ]);
      ("purpose", VStr "Channel intensity into expression");
      ("success_metric", VStr "emotional_intensity < 0.6") ]).

(** [Intervention(type, priority, execute, description, cooldown)]: a new
    object, never executed.  [oid] is the identity of the object. *)
Definition new_Intervention (oid : Z) (ty : InterventionType) (prio : Z)
    (act : CognitiveState -> ActionOutcome) (descr : string) (cooldown : Z)
    : Intervention :=
  {| obj_id := oid; intervention_type := ty; priority := prio; execute := act;
     description := descr; cooldown_minutes := cooldown; last_executed := None |}.

(** The seven objects of the catalog; they are distinct, and numbered in the
    order in which [_initialize_interventions] creates them. *)
Definition loop_breath_intervention : Intervention :=
  new_Intervention 1 GROUNDING 7 loop_breath_protocol
    "Basic breathing and sensory grounding" 10.

Definition physical_anchor_intervention : Intervention :=
  new_Intervention 2 GROUNDING 6 physical_anchor_protocol
    "Physical contact and verbal anchoring" 15.

Definition core_identity_intervention : Intervention :=
  new_Intervention 3 IDENTITY_ANCHOR 8 core_identity_recall
    "Fundamental identity fact recall" 20.

Definition values_compass_intervention : Intervention :=
  new_Intervention 4 IDENTITY_ANCHOR 7 values_compass_reset
    "Core values and character anchoring" 30.

Definition quarantine_intervention : Intervention :=
  new_Intervention 5 CONTAINMENT 9 symbolic_quarantine
    "Suspend symbolic processing" 60.

Definition emergency_intervention : Intervention :=
  new_Intervention 6 CONTAINMENT 10 emergency_containment
    "Full system containment protocol" 240.

Definition redirect_intervention : Intervention :=
  new_Intervention 7 REDIRECT 5 creative_outlet_redirect
    "Channel energy into creative expression" 30.

Definition initial_interventions : gmap InterventionType (list Intervention) :=
  list_to_map
    [ (GROUNDING, [ loop_breath_intervention; physical_anchor_intervention ]);
      (IDENTITY_ANCHOR,
       [ core_identity_intervention; values_compass_intervention ]);
      (CONTAINMENT, [ quarantine_intervention; emergency_intervention ]);
      (REDIRECT, [ redirect_intervention ]) ].

(** [LoopBreaker()]; [sid] is the string [uuid.uuid4()] produced. *)
Definition new_LoopBreaker (sid : string) : LoopBreaker :=
  {| session_id := sid;
     state_history := [];
     pattern_detectors := initial_detectors;
     interventions := initial_interventions;
     active_containment := false;
     emergency_contacts := [] |}.

(** ** The monad of the engine's methods

    A method reads and assigns the attributes of [self] and returns a value
    or raises; what it assigned before raising stays assigned. *)

Inductive PyExc :=
| KeyError (k : InterventionType)
| IndexError.

Inductive Outcome (A : Type) :=
| Ret (a : A)
| Exc (e : PyExc).
Arguments Ret {A} a.
Arguments Exc {A} e.

Definition M (A : Type) : Type := LoopBreaker -> Outcome A * LoopBreaker.

#[global] Instance M_ret : MRet M := fun A a self => (Ret a, self).

#[global] Instance M_bind : MBind M := fun A B f m self =>
  match m self with
  | (Ret a, self') => f a self'
  | (Exc e, self') => (Exc e, self')
  end.

Definition raise {A} (e : PyExc) : M A := fun self => (Exc e, self).
Definition get_self : M LoopBreaker := fun self => (Ret self, self).

Definition set_state_history (h : list CognitiveState) : M unit := fun self =>
  (Ret tt,
   {| session_id := session_id self; state_history := h;
      pattern_detectors := pattern_detectors self;
      interventions := interventions self;
      active_containment := active_containment self;
      emergency_contacts := emergency_contacts self |}).

Definition set_interventions (c : gmap InterventionType (list Intervention))
    : M unit := fun self =>
  (Ret tt,
   {| session_id := session_id self; state_history := state_history self;
      pattern_detectors := pattern_detectors self;
      interventions := c;
      active_containment := active_containment self;
      emergency_contacts := emergency_contacts self |}).

Definition set_active_containment (b : bool) : M unit := fun self =>
  (Ret tt,
   {| session_id := session_id self; state_history := state_history self;
      pattern_detectors := pattern_detectors self;
      interventions := interventions self;
      active_containment := b;
      emergency_contacts := emergency_contacts self |}).

(** ** [update_state] *)

Definition update_state (kw : Updates) (current_time : Z) : M CognitiveState :=
  self ← get_self;
  let session_duration :=
    match state_history self with
    | first :: _ => current_time - timestamp first
    | [] => 0
    end in
  let new_state := make_CognitiveState current_time session_duration kw in
  _ ← set_state_history (state_history self ++ [new_state]);
  mret new_state.

(** ** [detect_patterns] *)

(** The tuple [(pattern_type, confidence, description)]. *)
Definition Detected : Type := CollapsePattern * float * string.

Definition detected_pattern (d : Detected) : CollapsePattern := fst (fst d).
Definition detected_confidence (d : Detected) : float := snd (fst d).

(** The loop over [self.pattern_detectors]; the typed predicates above never
    raise, so the [except] branch is not taken. *)
Fixpoint run_detectors (detectors : list PatternDetector)
    (history : list CognitiveState) (state : CognitiveState) : list Detected :=
  match detectors with
  | [] => []
  | detector :: rest =>
      if threshold_function detector history state
      then (pattern_type detector, confidence_threshold detector,
            detector_description detector) :: run_detectors rest history state
      else run_detectors rest history state
  end.

Definition detect_patterns (state : CognitiveState) : M (list Detected) :=
  self ← get_self;
  mret (run_detectors (pattern_detectors self) (state_history self) state).

(** ** [select_intervention] *)

(** [patterns.sort(key=lambda x: x[1], reverse=True)]: a stable sort,
    descending; entries of equal confidence keep their order.  On keys that
    are numbers a stable sort has one result, so this insertion sort returns
    the list Python's sort returns.  On a list with a NaN key, which compares
    false with every key, the two sorts may order the entries differently:
    what is stated of the sorted list is stated of lists whose confidences
    are numbers ([confidences_are_numbers]), as the registered ones are. *)
Fixpoint insert_by_confidence (x : Detected) (l : list Detected) : list Detected :=
  match l with
  | [] => [x]
  | y :: l' =>
      if flt (detected_confidence x) (detected_confidence y)
      then y :: insert_by_confidence x l'
      else x :: l
  end.

Definition sort_by_confidence (patterns : list Detected) : list Detected :=
  foldr insert_by_confidence [] patterns.

(** [pattern_to_intervention.get(primary_pattern)]. *)
Definition pattern_to_intervention (p : CollapsePattern) : option InterventionType :=
  match p with
  | SYMBOLIC_FLOODING => Some CONTAINMENT
  | IDENTITY_FRAGMENTATION => Some IDENTITY_ANCHOR
  | RECURSIVE_SPIRAL => Some GROUNDING
  | MEANING_COLLAPSE => Some CONTAINMENT
  | TEMPORAL_DISCONNECTION => Some GROUNDING
  | CONTAINMENT_BREACH => Some CONTAINMENT
  end.

(** The cooldown test of the selection loop. *)
Definition cooled_down (current_time : Z) (intervention : Intervention) : bool :=
  match last_executed intervention with
  | None => true
  | Some t =>
      timedelta_minutes (cooldown_minutes intervention) <? current_time - t
  end.

(** [max(items, key=lambda x: x.priority)] on [first :: rest]: the running
    maximum is replaced only by an item whose key is greater. *)
Fixpoint max_by_priority (best : Intervention) (rest : list Intervention)
    : Intervention :=
  match rest with
  | [] => best
  | x :: rest' =>
      max_by_priority (if priority best <? priority x then x else best) rest'
  end.

Definition select_intervention (patterns : list Detected) (current_time : Z)
    : M (option Intervention) :=
  match patterns with
  | [] => mret None
  | _ :: _ =>
      match sort_by_confidence patterns with
      | [] => raise IndexError
      | primary :: _ =>
          match pattern_to_intervention (detected_pattern primary) with
          | None => mret None
          | Some intervention_type =>
              self ← get_self;
              match interventions self !! intervention_type with
              | None => raise (KeyError intervention_type)
              | Some candidates =>
                  match List.filter (cooled_down current_time) candidates with
                  | [] => mret None
                  | first :: rest => mret (Some (max_by_priority first rest))
                  end
              end
          end
      end
  end.

(** ** [execute_intervention] *)

(** [intervention.last_executed = now] seen from the catalog: the entries that
    are the object [oid] change, the others do not. *)
Definition set_last_executed (now : Z) (x : Intervention) : Intervention :=
  {| obj_id := obj_id x; intervention_type := intervention_type x;
     priority := priority x; execute := execute x;
     description := description x; cooldown_minutes := cooldown_minutes x;
     last_executed := Some now |}.

Definition touch (oid now : Z) (x : Intervention) : Intervention :=
  if decide (obj_id x = oid) then set_last_executed now x else x.

Definition execute_intervention (intervention : Intervention)
    (state : CognitiveState) (now : Z) : M (gmap string Value) :=
  self ← get_self;
  _ ← set_interventions (map (touch (obj_id intervention) now) <$> interventions self);
  match execute intervention state with
  | Returned result =>
      mret (<["session_id" := VStr (session_id self)]>
             (<["executed_at" := VTime now]>
               (<["intervention_id" := VInt (obj_id intervention)]> result)))
  | Raised e =>
      mret (list_to_map
        [ ("error", VStr ("Intervention execution failed: " +:+ e));
          ("intervention_type",
           VStr (InterventionType_value (intervention_type intervention)));
          ("fallback", VStr "Initiate manual grounding protocol") ])
  end.

(** ** [process_cycle] *)

(** The decision record.  [cycle_state] stands for the entry ["state"]: the
    six metrics of the snapshot and its [session_duration], of which
    ["session_duration_minutes"] is the number of minutes. *)
Record CycleResult := {
  cycle_timestamp : Z;
  cycle_session_id : string;
  cycle_state : CognitiveState;
  patterns_detected : list (string * float * string);
  intervention : option (gmap string Value)
}.

Definition report_pattern (d : Detected) : string * float * string :=
  (CollapsePattern_value (detected_pattern d), detected_confidence d, snd d).

Definition with_intervention (r : CycleResult) (i : gmap string Value)
    : CycleResult :=
  {| cycle_timestamp := cycle_timestamp r; cycle_session_id := cycle_session_id r;
     cycle_state := cycle_state r; patterns_detected := patterns_detected r;
     intervention := Some i |}.

(** The three clock readings of a cycle are those of [update_state],
    [select_intervention] and [execute_intervention], in this order; the
    last two are read only when the cycle gets there. *)
Definition process_cycle (state_updates : Updates)
    (now_update now_select now_execute : Z) : M CycleResult :=
  current_state ← update_state state_updates now_update;
  detected_patterns ← detect_patterns current_state;
  self ← get_self;
  let result :=
    {| cycle_timestamp := timestamp current_state;
       cycle_session_id := session_id self;
       cycle_state := current_state;
       patterns_detected := map report_pattern detected_patterns;
       intervention := None |} in
  match detected_patterns with
  | [] => mret result
  | _ :: _ =>
      selected ← select_intervention detected_patterns now_select;
      match selected with
      | None => mret result
      | Some intervention =>
          intervention_result ←
            execute_intervention intervention current_state now_execute;
          _ ← (if decide (intervention_type intervention = CONTAINMENT)
               then set_active_containment true
               else mret tt);
          mret (with_intervention result intervention_result)
      end
  end.

(** ** [get_session_summary] and [_generate_recommendations] *)

(** [float(len(l))], the divisor of the average. *)
Definition float_of_len (n : nat) : float :=
  PrimFloat.of_uint63 (Uint63.of_Z (Z.of_nat n)).

(** [max(...)] over the integers [first :: rest]. *)
Definition max_of (first : Z) (rest : list Z) : Z := fold_left Z.max rest first.

(** The generator of [get_session_summary]: every intervention of every list
    of the catalog. *)
Definition catalog_entries (c : gmap InterventionType (list Intervention))
    : list Intervention :=
  concat (snd <$> map_to_list c).

Definition was_executed (x : Intervention) : bool :=
  match last_executed x with
  | Some _ => true
  | None => false
  end.

(** The summary dictionary.  [summary_duration] stands for
    ["duration_minutes"]: it is the [session_duration] whose number of minutes
    the entry holds. *)
Record SessionSummary := {
  summary_session_id : string;
  summary_duration : Z;
  total_states_recorded : nat;
  interventions_executed : nat;
  average_coherence : float;
  maximum_recursion_depth : Z;
  containment_activated : bool;
  recommendations : list string
}.

Inductive SummaryResult :=
| NoSessionData                     (* [{"error": "No session data available"}] *)
| Summary (s : SessionSummary).

(** The sum of a sequence of floats by the builtin [sum] and the builtin
    [round(x, 2)] are functions of their argument whose rounding is the
    interpreter's (the summation algorithm changed between versions of
    CPython): the development holds for any such functions. *)
Class Builtins := {
  float_sum : list float -> float;
  round2 : float -> float
}.

Definition _generate_recommendations `{Builtins} : M (list string) :=
  self ← get_self;
  match state_history self with
  | [] => mret ["Continue monitoring and building session data"]
  | first :: rest =>
      let history := state_history self in
      let avg_coherence :=
        PrimFloat.div (float_sum (map coherence_score history))
                      (float_of_len (length history)) in
      let max_recursion :=
        max_of (recursion_depth first) (map recursion_depth rest) in
      let session_duration := session_duration (List.last history first) in
      mret (
        (if flt avg_coherence 0.6
         then ["Focus on identity anchoring exercises daily"] else []) ++
        (if 8 <? max_recursion
         then ["Implement recursion depth limits in future sessions"] else []) ++
        (if active_containment self
         then ["Extended integration period recommended before next deep session"]
         else []) ++
        (if total_minutes_gt session_duration 90
         then ["Consider shorter session durations with more integration breaks"]
         else []))
  end.

Definition get_session_summary `{Builtins} : M SummaryResult :=
  self ← get_self;
  match state_history self with
  | [] => mret NoSessionData
  | first :: rest =>
      let history := state_history self in
      let total_interventions :=
        length (List.filter was_executed (catalog_entries (interventions self))) in
      let avg_coherence :=
        PrimFloat.div (float_sum (map coherence_score history))
                      (float_of_len (length history)) in
      let max_recursion :=
        max_of (recursion_depth first) (map recursion_depth rest) in
      recs ← _generate_recommendations;
      mret (Summary
        {| summary_session_id := session_id self;
           summary_duration := session_duration (List.last history first);
           total_states_recorded := length history;
           interventions_executed := total_interventions;
           average_coherence := round2 avg_coherence;
           maximum_recursion_depth := max_recursion;
           containment_activated := active_containment self;
           recommendations := recs |})
  end.

(** ** Sessions: sequences of calls on one engine *)

Inductive Call :=
| call_update_state (kw : Updates) (now : Z)
| call_detect_patterns (state : CognitiveState)
| call_select_intervention (patterns : list Detected) (now : Z)
| call_execute_intervention (intervention : Intervention)
    (state : CognitiveState) (now : Z)
| call_process_cycle (kw : Updates) (now_update now_select now_execute : Z)
| call_get_session_summary.

(** The engine after a call (whatever it returned or raised). *)
Definition after `{Builtins} (c : Call) (self : LoopBreaker) : LoopBreaker :=
  match c with
  | call_update_state kw now => snd (update_state kw now self)
  | call_detect_patterns state => snd (detect_patterns state self)
  | call_select_intervention patterns now =>
      snd (select_intervention patterns now self)
  | call_execute_intervention intervention state now =>
      snd (execute_intervention intervention state now self)
  | call_process_cycle kw t1 t2 t3 => snd (process_cycle kw t1 t2 t3 self)
  | call_get_session_summary => snd (get_session_summary self)
  end.

(** The engines a session can be in when its calls satisfy [allowed]. *)
Inductive reachable_by `{Builtins} (allowed : Call -> Prop) : LoopBreaker -> Prop :=
| reachable_new (sid : string) : reachable_by allowed (new_LoopBreaker sid)
| reachable_after (c : Call) (self : LoopBreaker) :
    allowed c -> reachable_by allowed self -> reachable_by allowed (after c self).

Definition reachable `{Builtins} : LoopBreaker -> Prop :=
  reachable_by (fun _ => True).

(** Sessions driven through [process_cycle] and the summary only. *)
Definition pipeline_call (c : Call) : Prop :=
  match c with
  | call_process_cycle _ _ _ _ | call_get_session_summary => True
  | _ => False
  end.

(** ** Runs of the engine *)

(** [process_cycle(recursion_depth=.., symbolic_density=.., coherence_score=..,
    temporal_anchor=.., emotional_intensity=.., meaning_saturation=..)]. *)
Definition metrics (depth : Z)
    (density coherence anchor intensity saturation : float) : Updates :=
  {| u_recursion_depth := Some depth;
     u_symbolic_density := Some density;
     u_coherence_score := Some coherence;
     u_temporal_anchor := Some anchor;
     u_emotional_intensity := Some intensity;
     u_meaning_saturation := Some saturation |}.

(** [process_cycle(coherence_score=c)]. *)
Definition coherence_only (c : float) : Updates :=
  {| u_recursion_depth := None;
     u_symbolic_density := None;
     u_coherence_score := Some c;
     u_temporal_anchor := None;
     u_emotional_intensity := None;
     u_meaning_saturation := None |}.

(** The three clock readings of one cycle. *)
Record Clock := { at_update : Z; at_select : Z; at_execute : Z }.

Definition cycle (kw : Updates) (c : Clock) : M CycleResult :=
  process_cycle kw (at_update c) (at_select c) (at_execute c).

(** Successive cycles on one engine: what each returned, and the engine
    after the last. *)
Fixpoint run_cycles (inputs : list (Updates * Clock)) (self : LoopBreaker)
    : list (Outcome CycleResult) * LoopBreaker :=
  match inputs with
  | [] => ([], self)
  | (kw, c) :: rest =>
      let (r, self') := cycle kw c self in
      let (rs, self'') := run_cycles rest self' in
      (r :: rs, self'')
  end.

(** The names of the patterns a cycle reported (the empty list when the call
    raised). *)
Definition reported (r : Outcome CycleResult) : list string :=
  match r with
  | Ret res => map (fun p => fst (fst p)) (patterns_detected res)
  | Exc _ => []
  end.

(** ** The specification's wording, for comparison *)

(** A sequence of floats is strictly decreasing: each entry is greater than
    the next. *)
Definition strictly_decreasing (l : list float) : Prop :=
  forall (i : nat) (a b : float),
    l !! i = Some a -> l !! S i = Some b -> fgt a b = true.

(** The identity-fragmentation claim as the specification words it, for the
    snapshots [prior] recorded before the current one: detection runs on the
    history to which the current snapshot has been appended. *)
Definition fires_with_three_prior (prior : list CognitiveState)
    (current : CognitiveState) : Prop :=
  detect_identity_fragmentation (prior ++ [current]) current = true <->
  (3 <= length prior)%nat /\
  flt (coherence_score current) 0.4 = true /\
  strictly_decreasing (map coherence_score (last3 (prior ++ [current]))).

(** ** What a cycle does, step by step *)

(** The snapshot [update_state] creates. *)
Definition new_snapshot (kw : Updates) (now : Z) (self : LoopBreaker)
    : CognitiveState :=
  make_CognitiveState now
    (match state_history self with
     | first :: _ => now - timestamp first
     | [] => 0
     end) kw.

(** The intervention a cycle invokes, if any: the one [select_intervention]
    returns for the patterns detected on the new snapshot. *)
Definition cycle_selection (kw : Updates) (now_update now_select : Z)
    (self : LoopBreaker) : option Intervention :=
  let (o, self1) :=
    (current_state ← update_state kw now_update;
     detect_patterns current_state) self in
  match o with
  | Ret (d :: ds) =>
      match fst (select_intervention (d :: ds) now_select self1) with
      | Ret selected => selected
      | Exc _ => None
      end
  | _ => None
  end.

(** The engine with the containment flag set when [intervention] is of the
    containment category: the last assignment of [process_cycle]. *)
Definition flag_containment (intervention : Intervention) (self : LoopBreaker)
    : LoopBreaker :=
  if decide (intervention_type intervention = CONTAINMENT)
  then snd (set_active_containment true self)
  else self.

(** The engine after a sequence of calls. *)
Definition after_all `{Builtins} (calls : list Call) (self : LoopBreaker)
    : LoopBreaker :=
  fold_left (fun e c => after c e) calls self.

(** ** The catalog up to its time stamps *)

(** The only attribute of an intervention that is ever assigned is
    [last_executed]: a catalog of a session is the initial one with, for each
    object, the time of its last execution. *)
Definition restamp (f : Z -> option Z) (x : Intervention) : Intervention :=
  {| obj_id := obj_id x; intervention_type := intervention_type x;
     priority := priority x; execute := execute x;
     description := description x; cooldown_minutes := cooldown_minutes x;
     last_executed := f (obj_id x) |}.

Definition stamped (f : Z -> option Z) : gmap InterventionType (list Intervention) :=
  map (restamp f) <$> initial_interventions.

Definition stamp_at (oid now : Z) (f : Z -> option Z) : Z -> option Z :=
  fun i => if decide (i = oid) then Some now else f i.

(** The engines of sessions: the registered detectors and a stamped catalog. *)
Definition well_formed (self : LoopBreaker) : Prop :=
  pattern_detectors self = initial_detectors /\
  exists f, interventions self = stamped f.

(** The history of a session measures every duration from its first
    snapshot. *)
Definition durations_from_start (h : list CognitiveState) : Prop :=
  forall first, head h = Some first ->
    Forall (fun s => session_duration s = timestamp s - timestamp first) h.

(** The calls that assign no attribute of the engine. *)
Definition read_only (c : Call) : Prop :=
  match c with
  | call_detect_patterns _ | call_select_intervention _ _
  | call_get_session_summary => True
  | _ => False
  end.

(** One instance of the builtins, to run examples: the sum adds from left to
    right, and no example depends on the digits [round2] keeps. *)
Definition left_to_right : Builtins :=
  {| float_sum := fun l => fold_left PrimFloat.add l 0%float;
     round2 := fun x => x |}.

(** Scenario A of the specification: the three cycles of the example
    session of the source. *)
Definition scenario_A (c1 c2 c3 : Clock) : list (Updates * Clock) :=
  [ (metrics 2 0.3 0.9 0.8 0.2 0.2, c1);
    (metrics 6 0.7 0.6 0.5 0.6 0.6, c2);
    (metrics 12 0.9 0.3 0.2 0.9 0.8, c3) ].

(** The same three cycles as calls. *)
Definition scenario_A_calls (c1 c2 c3 : Clock) : list Call :=
  map (fun i => call_process_cycle (fst i) (at_update (snd i))
                  (at_select (snd i)) (at_execute (snd i)))
      (scenario_A c1 c2 c3).

(** An intervention whose action raises. *)
Definition failing_intervention : Intervention :=
  new_Intervention 100 GROUNDING 1 (fun _ => Raised "out of breath")
    "An action that fails" 5.

(** The count [get_session_summary] makes over the catalog. *)
Definition executed_count (self : LoopBreaker) : nat :=
  length (List.filter was_executed (catalog_entries (interventions self))).

(** The objects on which a call runs [execute_intervention], and those of a
    sequence of calls, one entry per invocation. *)
Definition invoked_by (c : Call) (self : LoopBreaker) : list Z :=
  match c with
  | call_execute_intervention intervention _ _ => [obj_id intervention]
  | call_process_cycle kw t1 t2 _ =>
      match cycle_selection kw t1 t2 self with
      | Some intervention => [obj_id intervention]
      | None => []
      end
  | _ => []
  end.

Fixpoint invocations `{Builtins} (calls : list Call) (self : LoopBreaker)
    : list Z :=
  match calls with
  | [] => []
  | c :: rest => invoked_by c self ++ invocations rest (after c self)
  end.

(** The interventions of the catalog that were invoked at least once, as the
    specification counts them. *)
Definition distinct_invoked (invoked : list Z) : nat :=
  length (List.filter (fun x => bool_decide (obj_id x ∈ invoked))
                      (catalog_entries initial_interventions)).

(** ** Selection, step by step *)

(** The category of the primary pattern: the first entry of the sorted list,
    through the table. *)
Definition primary_category (patterns : list Detected) : option InterventionType :=
  match sort_by_confidence patterns with
  | [] => None
  | primary :: _ => pattern_to_intervention (detected_pattern primary)
  end.

(** The choice among the candidates of a category. *)
Definition best_available (current_time : Z) (candidates : list Intervention)
    : option Intervention :=
  match List.filter (cooled_down current_time) candidates with
  | [] => None
  | first :: rest => Some (max_by_priority first rest)
  end.

(** ** Selection in the specification's words *)

(** The table from patterns to categories. *)
Definition category_of (p : CollapsePattern) : InterventionType :=
  match p with
  | SYMBOLIC_FLOODING => CONTAINMENT
  | IDENTITY_FRAGMENTATION => IDENTITY_ANCHOR
  | RECURSIVE_SPIRAL => GROUNDING
  | MEANING_COLLAPSE => CONTAINMENT
  | TEMPORAL_DISCONNECTION => GROUNDING
  | CONTAINMENT_BREACH => CONTAINMENT
  end.

(** Confidences are numbers. *)
Definition confidences_are_numbers (patterns : list Detected) : Prop :=
  Forall (fun p => PrimFloat.is_nan (detected_confidence p) = false) patterns.

(** [a] does not come after [b] in descending order of confidence. *)
Definition not_below (a b : Detected) : Prop :=
  flt (detected_confidence a) (detected_confidence b) = false.

(** Two confidences tie: neither is less than the other. *)
Definition ties_with (k : float) (p : Detected) : bool :=
  negb (flt k (detected_confidence p)) && negb (flt (detected_confidence p) k).

(** The primary pattern: of highest confidence, and the first such in the
    order in which the patterns were registered. *)
Definition is_primary (patterns : list Detected) (p : Detected) : Prop :=
  exists before rest,
    patterns = before ++ p :: rest /\
    (forall q, q ∈ before ->
       flt (detected_confidence q) (detected_confidence p) = true) /\
    (forall q, q ∈ rest ->
       flt (detected_confidence p) (detected_confidence q) = false).

(** The intervention to return: eligible, of highest priority among the
    eligible candidates, and the first such in the catalog's order. *)
Definition is_best_available (current_time : Z) (candidates : list Intervention)
    (x : Intervention) : Prop :=
  exists before rest,
    candidates = before ++ x :: rest /\
    cooled_down current_time x = true /\
    (forall y, y ∈ before -> cooled_down current_time y = true ->
       priority y < priority x) /\
    (forall y, y ∈ rest -> cooled_down current_time y = true ->
       priority y <= priority x).

(** The categories the table of [select_intervention] leads to. *)
Definition mapped_category (ty : InterventionType) : Prop :=
  ty = CONTAINMENT \/ ty = IDENTITY_ANCHOR \/ ty = GROUNDING.

(** Two catalog entries with the same identity are the same object, so
    they agree on every attribute. *)
Definition consistent_objects (self : LoopBreaker) : Prop :=
  forall ty1 l1 x ty2 l2 y,
    interventions self !! ty1 = Some l1 -> x ∈ l1 ->
    interventions self !! ty2 = Some l2 -> y ∈ l2 ->
    obj_id x = obj_id y -> x = y.

(** Every cooldown of the catalog is a duration [timedelta] represents, so
    that the cooldown test of the selection loop returns. *)
Definition representable_cooldowns (self : LoopBreaker) : Prop :=
  forall ty candidates x,
    interventions self !! ty = Some candidates -> x ∈ candidates ->
    timedelta_representable (cooldown_minutes x).

(** Eligibility in the specification's words, times and durations in
    microseconds: the intervention was never executed, or the time since its
    last execution exceeds its cooldown, a number of minutes of 60000000
    microseconds each. *)
Definition eligible (now : Z) (x : Intervention) : Prop :=
  last_executed x = None \/
  exists t, last_executed x = Some t /\ cooldown_minutes x * 60000000 < now - t.

(** The intervention to return, in the specification's words: eligible, of
    highest priority among the eligible candidates, and the first such in
    the catalog's order. *)
Definition first_best_eligible (now : Z) (candidates : list Intervention)
    (x : Intervention) : Prop :=
  exists before rest,
    candidates = before ++ x :: rest /\
    eligible now x /\
    (forall y, y ∈ before -> eligible now y -> priority y < priority x) /\
    (forall y, y ∈ rest -> eligible now y -> priority y <= priority x).

(** The engine in which the emergency containment was executed at time 0,
    on a new engine. *)
Definition emergency_executed : LoopBreaker :=
  snd (execute_intervention emergency_intervention
         (new_snapshot (coherence_only 0.05) 0 (new_LoopBreaker "session"))
         0 (new_LoopBreaker "session")).

(** The objects of the catalog, in the order of their creation. *)
Definition initial_entries : list Intervention :=
  [ loop_breath_intervention; physical_anchor_intervention;
    core_identity_intervention; values_compass_intervention;
    quarantine_intervention; emergency_intervention; redirect_intervention ].

(** The decision record of a cycle before any intervention is entered. *)
Definition cycle_record (self : LoopBreaker) (current_state : CognitiveState)
    (detected_patterns : list Detected) : CycleResult :=
  {| cycle_timestamp := timestamp current_state;
     cycle_session_id := session_id self;
     cycle_state := current_state;
     patterns_detected := map report_pattern detected_patterns;
     intervention := None |}.

(** Scenario A as the specification words its outcome. *)
Definition scenario_A_as_specified
    (run : list (Outcome CycleResult) * LoopBreaker) : Prop :=
  exists r1 r2 r3,
    fst run = [ Ret r1; Ret r2; Ret r3 ] /\
    patterns_detected r1 = [] /\
    patterns_detected r2 <> [] /\
    ~ In "containment_breach" (reported (Ret r2)) /\
    In "containment_breach" (reported (Ret r3)) /\
    (exists d, intervention r3 = Some d /\
               d !! "type" = Some (VStr "containment")) /\
    active_containment (snd run) = true.

(** An engine whose containment category holds one intervention only. *)
Definition lone_containment_engine : LoopBreaker :=
  snd (set_interventions
         (<[CONTAINMENT := [emergency_intervention]]> initial_interventions)
         (new_LoopBreaker "session")).

(** The identity of the intervention a selection returned. *)
Definition selected_id (r : Outcome (option Intervention) * LoopBreaker)
    : option Z :=
  match fst r with
  | Ret (Some x) => Some (obj_id x)
  | _ => None
  end.

(** ** Further notions *)

(** The predicate [_initialize_detectors] registers for each pattern. *)
Definition predicate_of (p : CollapsePattern)
    : list CognitiveState -> CognitiveState -> bool :=
  match p with
  | SYMBOLIC_FLOODING => detect_symbolic_flooding
  | IDENTITY_FRAGMENTATION => detect_identity_fragmentation
  | RECURSIVE_SPIRAL => detect_recursive_spiral
  | MEANING_COLLAPSE => detect_meaning_collapse
  | TEMPORAL_DISCONNECTION => detect_temporal_disconnection
  | CONTAINMENT_BREACH => detect_containment_breach
  end.

(** The patterns in the order of their registration. *)
Definition registration_order : list CollapsePattern :=
  [ SYMBOLIC_FLOODING; IDENTITY_FRAGMENTATION; RECURSIVE_SPIRAL;
    MEANING_COLLAPSE; TEMPORAL_DISCONNECTION; CONTAINMENT_BREACH ].

(** The pattern [select_intervention] takes as primary. *)
Definition primary_pattern (patterns : list Detected) : option CollapsePattern :=
  detected_pattern <$> head (sort_by_confidence patterns).

(** A call returned a value. *)
Definition returns {A} (r : Outcome A * LoopBreaker) : Prop :=
  exists a, fst r = Ret a.

(** [process_cycle()] with no metric given. *)
Definition no_metrics : Updates :=
  {| u_recursion_depth := None;
     u_symbolic_density := None;
     u_coherence_score := None;
     u_temporal_anchor := None;
     u_emotional_intensity := None;
     u_meaning_saturation := None |}.

(** The record [execute_intervention] returns. *)
Definition execution_record (self : LoopBreaker) (intervention : Intervention)
    (state : CognitiveState) (now : Z) : gmap string Value :=
  match execute intervention state with
  | Returned result =>
      <["session_id" := VStr (session_id self)]>
        (<["executed_at" := VTime now]>
          (<["intervention_id" := VInt (obj_id intervention)]> result))
  | Raised e =>
      list_to_map
        [ ("error", VStr ("Intervention execution failed: " +:+ e));
          ("intervention_type",
           VStr (InterventionType_value (intervention_type intervention)));
          ("fallback", VStr "Initiate manual grounding protocol") ]
  end.

(** The times at which a call records a snapshot. *)
Definition recorded_at (c : Call) : list Z :=
  match c with
  | call_update_state _ now => [now]
  | call_process_cycle _ now_update _ _ => [now_update]
  | _ => []
  end.

(** An engine whose catalog has lost the containment category. *)
Definition engine_without_containment : LoopBreaker :=
  snd (set_interventions (delete CONTAINMENT initial_interventions)
         (new_LoopBreaker "session")).

(** A call returned a value. *)
Definition call_returns `{Builtins} (c : Call) (self : LoopBreaker) : Prop :=
  match c with
  | call_update_state kw now => returns (update_state kw now self)
  | call_detect_patterns state => returns (detect_patterns state self)
  | call_select_intervention patterns now =>
      returns (select_intervention patterns now self)
  | call_execute_intervention intervention state now =>
      returns (execute_intervention intervention state now self)
  | call_process_cycle kw t1 t2 t3 => returns (process_cycle kw t1 t2 t3 self)
  | call_get_session_summary => returns (get_session_summary self)
  end.

(** The messages of [_generate_recommendations]. *)
Definition coherence_recommendation : string :=
  "Focus on identity anchoring exercises daily".
Definition depth_recommendation : string :=
  "Implement recursion depth limits in future sessions".
Definition containment_recommendation : string :=
  "Extended integration period recommended before next deep session".
Definition duration_recommendation : string :=
  "Consider shorter session durations with more integration breaks".
Definition monitoring_recommendation : string :=
  "Continue monitoring and building session data".

(** The recommendations of a non-empty history, from the outcome of the four
    tests. *)
Definition recommendations_for (low_coherence deep contained long : bool)
    : list string :=
  (if low_coherence then [coherence_recommendation] else []) ++
  (if deep then [depth_recommendation] else []) ++
  (if contained then [containment_recommendation] else []) ++
  (if long then [duration_recommendation] else []).

(** [sum(s.coherence_score for s in history) / len(history)]. *)
Definition mean_coherence `{Builtins} (history : list CognitiveState) : float :=
  PrimFloat.div (float_sum (map coherence_score history))
                (float_of_len (length history)).

(** The times at which a sequence of calls records snapshots. *)
Definition recorded_times (calls : list Call) : list Z :=
  concat (map recorded_at calls).

(** An intervention of the containment list of the catalog has been
    executed. *)
Definition containment_executed (self : LoopBreaker) : Prop :=
  exists candidates x,
    interventions self !! CONTAINMENT = Some candidates /\
    x ∈ candidates /\ was_executed x = true.

(** The time between the first snapshot of the history and a reading [now]
    of the clock: the [session_duration] of a snapshot taken at [now]. *)
Definition elapsed (self : LoopBreaker) (now : Z) : Z :=
  match head (state_history self) with
  | Some first => now - timestamp first
  | None => 0
  end.

(** One of the two containment interventions of the catalog is among the
    objects invoked. *)
Definition invokes_containment (invoked : list Z) : Prop :=
  obj_id quarantine_intervention ∈ invoked \/
  obj_id emergency_intervention ∈ invoked.

(** The interventions of a category, from the highest priority down. *)
Definition preferred (ty : InterventionType) : list Intervention :=
  match ty with
  | GROUNDING => [ loop_breath_intervention; physical_anchor_intervention ]
  | IDENTITY_ANCHOR => [ core_identity_intervention; values_compass_intervention ]
  | CONTAINMENT => [ emergency_intervention; quarantine_intervention ]
  | REDIRECT => [ redirect_intervention ]
  | EMERGENCY_STOP => []
  end.

(** ** Tactics *)

(** Unfolds the operations of the monad. *)
Ltac run_monad :=
  unfold cycle, mbind, M_bind, mret, M_ret, get_self, raise,
    set_state_history, set_interventions, set_active_containment in *;
  cbn [fst snd] in *.

(** Splits on the comparisons of exponents and mantissas. *)
Ltac compare_cases :=
  repeat match goal with
  | |- context [PosDef.Pos.compare_cont Eq ?x ?y] =>
      change (PosDef.Pos.compare_cont Eq x y) with (Pos.compare x y)
  | |- context [Z.compare ?a ?b] => destruct (Z.compare_spec a b)
  | |- context [Pos.compare ?a ?b] => destruct (Pos.compare_spec a b)
  end.

(** Rewrites the detection of a cycle in which no detector fires. *)
Ltac no_pattern :=
  match goal with
  | |- context [run_detectors ?d ?h ?s] =>
      let Hd := fresh "Hd" in
      assert (Hd : run_detectors d h s = []) by (vm_compute; reflexivity);
      rewrite Hd; clear Hd
  end.

(** * Properties *)

(** ** Detection *)

Lemma neighbours_cons2 {A} (a b : A) (l : list A) :
  neighbours (a :: b :: l) = (a, b) :: neighbours (b :: l).
Proof. reflexivity. Qed.

Lemma forallb_neighbours_decreasing (l : list float) :
  forallb (fun c => fgt (fst c) (snd c)) (neighbours l) = true <->
  strictly_decreasing l.
Proof.
  induction l as [|a [|b l] IH].
  - split; [intros _ i a b H; destruct i; discriminate | reflexivity].
  - split; [intros _ i x y H1 H2; destruct i; discriminate | reflexivity].
  - rewrite neighbours_cons2. cbn [forallb fst snd].
    rewrite andb_true_iff, IH. split.
    + intros [Hab Hrest] [|i] x y Hx Hy.
      * cbn in Hx, Hy. congruence.
      * exact (Hrest i x y Hx Hy).
    + intros H. split.
      * exact (H 0%nat a b eq_refl eq_refl).
      * intros i x y Hx Hy. exact (H (S i) x y Hx Hy).
Qed.

Lemma identity_fragmentation_spec (history : list CognitiveState)
    (state : CognitiveState) :
  detect_identity_fragmentation history state = true <->
  (3 <= length history)%nat /\
  flt (coherence_score state) 0.4 = true /\
  strictly_decreasing (map coherence_score (last3 history)).
Proof.
  unfold detect_identity_fragmentation.
  destruct (Nat.ltb_spec (length history) 3) as [Hlt | Hge].
  - split; [discriminate | intros [H _]; lia].
  - rewrite andb_true_iff, forallb_neighbours_decreasing. tauto.
Qed.

(** Scenario B of the specification, run through the engine. *)
Lemma scenario_B_history (sid : string) (c1 c2 c3 c4 : Clock) :
  let run :=
    run_cycles [ (coherence_only 0.9, c1); (coherence_only 0.5, c2);
                 (coherence_only 0.7, c3); (coherence_only 0.3, c4) ]
               (new_LoopBreaker sid) in
  map reported (fst run) = [ []; []; []; [] ].
Proof.
  cbv zeta. unfold run_cycles, cycle, process_cycle. run_monad.
  vm_compute. reflexivity.
Qed.

(** C2 (amended).  The identity-fragmentation detector reads the history to
    which the cycle has already appended the current snapshot (third part).
    It fires exactly when that history holds at least three snapshots, the
    current coherence is below 0.4 and the coherence values of the last
    three snapshots of the history are strictly decreasing (first part); with
    [prior] the snapshots recorded before the current one, that is when at
    least two of them exist (second part).  The non-monotonic sequence
    0.9, 0.5, 0.7, 0.3 fed to a new engine does not fire it (fourth part). *)
Theorem identity_fragmentation_fires_iff :
  (forall (history : list CognitiveState) (state : CognitiveState),
     detect_identity_fragmentation history state = true <->
     (3 <= length history)%nat /\
     flt (coherence_score state) 0.4 = true /\
     strictly_decreasing (map coherence_score (last3 history))) /\
  (forall (prior : list CognitiveState) (current : CognitiveState),
     detect_identity_fragmentation (prior ++ [current]) current = true <->
     (2 <= length prior)%nat /\
     flt (coherence_score current) 0.4 = true /\
     strictly_decreasing (map coherence_score (last3 (prior ++ [current])))) /\
  (forall (kw : Updates) (now : Z) (self : LoopBreaker),
     exists current : CognitiveState,
       (current_state ← update_state kw now; detect_patterns current_state) self =
       (Ret (run_detectors (pattern_detectors self)
                           (state_history self ++ [current]) current),
        snd (update_state kw now self)) /\
       state_history (snd (update_state kw now self)) =
         state_history self ++ [current]) /\
  (forall (sid : string) (c1 c2 c3 c4 : Clock),
     let run :=
       run_cycles [ (coherence_only 0.9, c1); (coherence_only 0.5, c2);
                    (coherence_only 0.7, c3); (coherence_only 0.3, c4) ]
                  (new_LoopBreaker sid) in
     Forall (fun r => ~ In "identity_fragmentation" (reported r)) (fst run)).
Proof.
  split; [exact identity_fragmentation_spec | split; [| split]].
  - intros prior current.
    rewrite identity_fragmentation_spec, length_app. cbn [length].
    split; intros (Hlen & Hlow & Hdec); repeat split; trivial; lia.
  - intros kw now self. eexists. split; reflexivity.
  - intros sid c1 c2 c3 c4 run.
    assert (Hrun : map reported (fst run) = [ []; []; []; [] ])
      by apply scenario_B_history.
    destruct (fst run) as [|r1 [|r2 [|r3 [|r4 [|r5 rest]]]]]; try discriminate.
    injection Hrun as H1 H2 H3 H4.
    repeat constructor; cbv beta; rewrite ?H1, ?H2, ?H3, ?H4; intros [].
Qed.

(** C2, as stated, fails: in the third cycle of a session only two snapshots
    precede the current one, and the detector fires. *)
Lemma three_prior_snapshots_not_needed :
  let run2 :=
    run_cycles [ (metrics 2 0.3 0.9 0.8 0.2 0.2, Build_Clock 0 0 0);
                 (metrics 6 0.7 0.6 0.5 0.6 0.6, Build_Clock 1 1 1) ]
               (new_LoopBreaker "session") in
  let prior := state_history (snd run2) in
  let current := new_snapshot (metrics 12 0.9 0.3 0.2 0.9 0.8) 2 (snd run2) in
  length prior = 2%nat /\
  reported (fst (cycle (metrics 12 0.9 0.3 0.2 0.9 0.8) (Build_Clock 2 2 2)
                       (snd run2)))
    = [ "symbolic_flooding"; "identity_fragmentation" ] /\
  ~ fires_with_three_prior prior current.
Proof.
  cbv zeta. set (run2 := run_cycles _ _).
  assert (Hlen : length (state_history (snd run2)) = 2%nat)
    by (vm_compute; reflexivity).
  assert (Hfires :
            detect_identity_fragmentation
              (state_history (snd run2) ++
               [new_snapshot (metrics 12 0.9 0.3 0.2 0.9 0.8) 2 (snd run2)])
              (new_snapshot (metrics 12 0.9 0.3 0.2 0.9 0.8) 2 (snd run2)) = true)
    by (vm_compute; reflexivity).
  split; [exact Hlen |]. split; [vm_compute; reflexivity |].
  unfold fires_with_three_prior. intros [Hclaim _].
  destruct (Hclaim Hfires) as [Hthree _]. rewrite Hlen in Hthree. lia.
Qed.

(** ** What each method does to the engine *)

Lemma update_state_eq (kw : Updates) (now : Z) (self : LoopBreaker) :
  update_state kw now self =
  (Ret (new_snapshot kw now self),
   snd (set_state_history (state_history self ++ [new_snapshot kw now self]) self)).
Proof. reflexivity. Qed.

Lemma detect_patterns_eq (state : CognitiveState) (self : LoopBreaker) :
  detect_patterns state self =
  (Ret (run_detectors (pattern_detectors self) (state_history self) state), self).
Proof. reflexivity. Qed.

Lemma select_intervention_engine (patterns : list Detected) (now : Z)
    (self : LoopBreaker) :
  snd (select_intervention patterns now self) = self.
Proof.
  unfold select_intervention.
  destruct patterns as [|p ps]; [reflexivity |].
  destruct (sort_by_confidence (p :: ps)) as [|primary rest]; [reflexivity |].
  destruct (pattern_to_intervention (detected_pattern primary)); [| reflexivity].
  run_monad.
  destruct (interventions self !! i); [| reflexivity].
  destruct (List.filter (cooled_down now) l); reflexivity.
Qed.

Lemma execute_intervention_engine (intervention : Intervention)
    (state : CognitiveState) (now : Z) (self : LoopBreaker) :
  snd (execute_intervention intervention state now self) =
  snd (set_interventions
         (map (touch (obj_id intervention) now) <$> interventions self) self).
Proof.
  unfold execute_intervention. run_monad.
  destruct (execute intervention state); reflexivity.
Qed.

(** [execute_intervention] returns: the action's failure is caught. *)
Lemma execute_intervention_returns (intervention : Intervention)
    (state : CognitiveState) (now : Z) (self : LoopBreaker) :
  exists result, fst (execute_intervention intervention state now self) = Ret result.
Proof.
  unfold execute_intervention. run_monad.
  destruct (execute intervention state); eexists; reflexivity.
Qed.

Lemma process_cycle_engine (kw : Updates) (t1 t2 t3 : Z) (self : LoopBreaker) :
  snd (process_cycle kw t1 t2 t3 self) =
  let self1 := snd (update_state kw t1 self) in
  match cycle_selection kw t1 t2 self with
  | Some intervention =>
      flag_containment intervention
        (snd (execute_intervention intervention (new_snapshot kw t1 self) t3 self1))
  | None => self1
  end.
Proof.
  unfold process_cycle, cycle_selection.
  unfold mbind, M_bind. rewrite update_state_eq. cbn [fst snd].
  rewrite detect_patterns_eq. unfold get_self. cbn [fst snd].
  set (self1 := snd (set_state_history _ self)).
  set (current := new_snapshot kw t1 self).
  destruct (run_detectors _ _ current) as [|d ds]; [reflexivity |].
  pose proof (select_intervention_engine (d :: ds) t2 self1) as Hsel.
  destruct (select_intervention (d :: ds) t2 self1) as [[[iv|]|e] self2];
    cbn [fst snd] in *; subst self2; try reflexivity.
  unfold flag_containment.
  destruct (execute_intervention_returns iv current t3 self1) as [res Hres].
  destruct (execute_intervention iv current t3 self1) as [o self3].
  cbn [fst snd] in *. subst o.
  destruct (decide _); reflexivity.
Qed.

Lemma generate_recommendations_engine `{Builtins} (self : LoopBreaker) :
  snd (_generate_recommendations self) = self.
Proof.
  unfold _generate_recommendations. run_monad.
  destruct (state_history self); reflexivity.
Qed.

Lemma get_session_summary_engine `{Builtins} (self : LoopBreaker) :
  snd (get_session_summary self) = self.
Proof.
  unfold get_session_summary. run_monad.
  destruct (state_history self) as [|first rest]; [reflexivity |].
  pose proof (generate_recommendations_engine self) as Hrec.
  destruct (_generate_recommendations self) as [[recs | e] self'];
    cbn [fst snd] in *; subst self'; reflexivity.
Qed.

(** ** Frames: what a call leaves as it is *)

Lemma flag_containment_history (intervention : Intervention) (self : LoopBreaker) :
  state_history (flag_containment intervention self) = state_history self.
Proof. unfold flag_containment. destruct (decide _); reflexivity. Qed.

Lemma flag_containment_interventions (intervention : Intervention)
    (self : LoopBreaker) :
  interventions (flag_containment intervention self) = interventions self.
Proof. unfold flag_containment. destruct (decide _); reflexivity. Qed.

Lemma flag_containment_detectors (intervention : Intervention)
    (self : LoopBreaker) :
  pattern_detectors (flag_containment intervention self) = pattern_detectors self.
Proof. unfold flag_containment. destruct (decide _); reflexivity. Qed.

(** Only [update_state], alone or within a cycle, changes the history, and
    it appends the new snapshot. *)
Lemma after_history `{Builtins} (c : Call) (self : LoopBreaker) :
  state_history (after c self) = state_history self \/
  exists kw now,
    state_history (after c self) = state_history self ++ [new_snapshot kw now self].
Proof.
  destruct c as [kw now | state | patterns now | iv state now | kw t1 t2 t3 |];
    cbn [after].
  - right. exists kw, now. reflexivity.
  - left. reflexivity.
  - left. rewrite select_intervention_engine. reflexivity.
  - left. rewrite execute_intervention_engine. reflexivity.
  - right. exists kw, t1. rewrite process_cycle_engine. cbv zeta.
    destruct (cycle_selection kw t1 t2 self) as [iv|]; [| reflexivity].
    rewrite flag_containment_history, execute_intervention_engine. reflexivity.
  - left. rewrite get_session_summary_engine. reflexivity.
Qed.

(** No call clears the containment flag. *)
Lemma after_keeps_flag `{Builtins} (c : Call) (self : LoopBreaker) :
  active_containment self = true -> active_containment (after c self) = true.
Proof.
  intros Hflag.
  destruct c as [kw now | state | patterns now | iv state now | kw t1 t2 t3 |];
    cbn [after].
  - exact Hflag.
  - exact Hflag.
  - rewrite select_intervention_engine. exact Hflag.
  - rewrite execute_intervention_engine. exact Hflag.
  - rewrite process_cycle_engine. cbv zeta.
    destruct (cycle_selection kw t1 t2 self) as [iv|]; [| exact Hflag].
    unfold flag_containment. destruct (decide _); [reflexivity |].
    rewrite execute_intervention_engine. exact Hflag.
  - rewrite get_session_summary_engine. exact Hflag.
Qed.

(** ** The catalog of a session *)

Lemma initial_interventions_stamped :
  initial_interventions = stamped (fun _ => None).
Proof.
  unfold stamped. apply map_eq. intros ty. rewrite lookup_fmap.
  destruct ty; reflexivity.
Qed.

Lemma touch_restamp (oid now : Z) (f : Z -> option Z) (x : Intervention) :
  touch oid now (restamp f x) = restamp (stamp_at oid now f) x.
Proof.
  unfold touch, restamp, stamp_at, set_last_executed. cbn.
  destruct (decide (obj_id x = oid)); reflexivity.
Qed.

Lemma touch_stamped (oid now : Z) (f : Z -> option Z) :
  map (touch oid now) <$> stamped f = stamped (stamp_at oid now f).
Proof.
  unfold stamped. rewrite <- map_fmap_compose.
  apply map_fmap_ext. intros ty l _. cbn.
  rewrite map_map. apply map_ext. intros x. apply touch_restamp.
Qed.

Lemma new_LoopBreaker_well_formed (sid : string) :
  well_formed (new_LoopBreaker sid).
Proof.
  split; [reflexivity |].
  exists (fun _ => None). apply initial_interventions_stamped.
Qed.

Lemma execute_intervention_well_formed (intervention : Intervention)
    (state : CognitiveState) (now : Z) (self : LoopBreaker) :
  well_formed self ->
  well_formed (snd (execute_intervention intervention state now self)).
Proof.
  intros [Hdet [f Hcat]]. rewrite execute_intervention_engine.
  split; [exact Hdet |].
  exists (stamp_at (obj_id intervention) now f). cbn.
  rewrite Hcat. apply touch_stamped.
Qed.

Lemma flag_containment_well_formed (intervention : Intervention)
    (self : LoopBreaker) :
  well_formed self -> well_formed (flag_containment intervention self).
Proof.
  unfold well_formed.
  rewrite flag_containment_detectors, flag_containment_interventions. trivial.
Qed.

Lemma after_well_formed `{Builtins} (c : Call) (self : LoopBreaker) :
  well_formed self -> well_formed (after c self).
Proof.
  intros Hwf.
  destruct c as [kw now | state | patterns now | iv state now | kw t1 t2 t3 |];
    cbn [after].
  - exact Hwf.
  - exact Hwf.
  - rewrite select_intervention_engine. exact Hwf.
  - apply execute_intervention_well_formed, Hwf.
  - rewrite process_cycle_engine. cbv zeta.
    destruct (cycle_selection kw t1 t2 self) as [iv|]; [| exact Hwf].
    apply flag_containment_well_formed, execute_intervention_well_formed, Hwf.
  - rewrite get_session_summary_engine. exact Hwf.
Qed.

Lemma reachable_by_well_formed `{Builtins} (allowed : Call -> Prop)
    (self : LoopBreaker) :
  reachable_by allowed self -> well_formed self.
Proof.
  induction 1 as [sid | c self _ _ IH].
  - apply new_LoopBreaker_well_formed.
  - apply after_well_formed, IH.
Qed.

Lemma stamped_lookup (f : Z -> option Z) (ty : InterventionType) :
  stamped f !! ty =
  match ty with
  | GROUNDING =>
      Some [ restamp f loop_breath_intervention;
             restamp f physical_anchor_intervention ]
  | IDENTITY_ANCHOR =>
      Some [ restamp f core_identity_intervention;
             restamp f values_compass_intervention ]
  | CONTAINMENT =>
      Some [ restamp f quarantine_intervention;
             restamp f emergency_intervention ]
  | REDIRECT => Some [ restamp f redirect_intervention ]
  | EMERGENCY_STOP => None
  end.
Proof. destruct ty; reflexivity. Qed.

Lemma stamped_lookup_entries (f : Z -> option Z) (ty : InterventionType)
    (l : list Intervention) (x : Intervention) :
  stamped f !! ty = Some l -> x ∈ l ->
  exists x0, x0 ∈ initial_entries /\ x = restamp f x0.
Proof.
  rewrite stamped_lookup. intros Hl Hx.
  destruct ty; try discriminate; injection Hl as <-;
    repeat (apply elem_of_cons in Hx; destruct Hx as [-> | Hx]);
    try (apply elem_of_nil in Hx; contradiction);
    eexists; (split; [| reflexivity]);
    unfold initial_entries; rewrite !elem_of_cons; tauto.
Qed.

Lemma initial_entries_distinct (x y : Intervention) :
  x ∈ initial_entries -> y ∈ initial_entries -> obj_id x = obj_id y -> x = y.
Proof.
  unfold initial_entries. rewrite !elem_of_cons, !elem_of_nil.
  intros Hx Hy.
  repeat (destruct Hx as [-> | Hx]); try contradiction;
    repeat (destruct Hy as [-> | Hy]); try contradiction;
    intros Hid; (reflexivity || discriminate Hid).
Qed.

Lemma well_formed_consistent (self : LoopBreaker) :
  well_formed self -> consistent_objects self.
Proof.
  intros [_ [f Hcat]] ty1 l1 x ty2 l2 y Hl1 Hx Hl2 Hy Hid.
  rewrite Hcat in Hl1, Hl2.
  destruct (stamped_lookup_entries f ty1 l1 x Hl1 Hx) as (x0 & Hx0 & ->).
  destruct (stamped_lookup_entries f ty2 l2 y Hl2 Hy) as (y0 & Hy0 & ->).
  f_equal. apply initial_entries_distinct; assumption.
Qed.

(** ** The history log *)

Lemma new_snapshot_duration (kw : Updates) (now : Z) (self : LoopBreaker) :
  timestamp (new_snapshot kw now self) = now /\
  session_duration (new_snapshot kw now self) =
    match head (state_history self) with
    | Some first => now - timestamp first
    | None => 0
    end.
Proof. unfold new_snapshot. destruct (state_history self); split; reflexivity. Qed.

Lemma durations_from_start_snoc (kw : Updates) (now : Z) (self : LoopBreaker) :
  durations_from_start (state_history self) ->
  durations_from_start (state_history self ++ [new_snapshot kw now self]).
Proof.
  intros Hinv first Hfirst.
  destruct (new_snapshot_duration kw now self) as [Hts Hdur].
  destruct (state_history self) as [|s0 h].
  - cbn in Hfirst. injection Hfirst as <-.
    constructor; [| constructor]. rewrite Hdur, Hts. cbn. lia.
  - cbn in Hfirst. injection Hfirst as <-.
    rewrite Forall_app. split.
    + apply Hinv. reflexivity.
    + constructor; [| constructor]. rewrite Hdur, Hts. cbn. lia.
Qed.

Lemma reachable_durations `{Builtins} (allowed : Call -> Prop)
    (self : LoopBreaker) :
  reachable_by allowed self -> durations_from_start (state_history self).
Proof.
  induction 1 as [sid | c self _ _ IH].
  - intros first Hfirst. discriminate.
  - destruct (after_history c self) as [-> | (kw & now & ->)].
    + exact IH.
    + apply durations_from_start_snoc, IH.
Qed.

(** C9.  [update_state] returns (it raises nothing) and appends exactly the
    snapshot it returns to the history, stamped with the time it read; the
    snapshot's [session_duration] is zero when the history was empty and its
    timestamp minus the first snapshot's timestamp otherwise.  Hence in every
    engine of a session the first snapshot has duration zero, every snapshot's
    duration is its timestamp minus the first one's, and durations do not
    decrease where timestamps do not. *)
Theorem update_state_appends_one_snapshot `{Builtins} :
  (forall (kw : Updates) (now : Z) (self : LoopBreaker),
     exists snapshot : CognitiveState,
       update_state kw now self = (Ret snapshot, snd (update_state kw now self)) /\
       state_history (snd (update_state kw now self)) =
         state_history self ++ [snapshot] /\
       timestamp snapshot = now /\
       session_duration snapshot =
         match head (state_history self) with
         | Some first => now - timestamp first
         | None => 0
         end) /\
  (forall self : LoopBreaker, reachable self ->
     forall first, head (state_history self) = Some first ->
       session_duration first = 0 /\
       Forall (fun s => session_duration s = timestamp s - timestamp first)
              (state_history self)) /\
  (forall self : LoopBreaker, reachable self ->
     forall (i j : nat) (si sj : CognitiveState),
       state_history self !! i = Some si ->
       state_history self !! j = Some sj ->
       timestamp si <= timestamp sj ->
       session_duration si <= session_duration sj).
Proof.
  split; [| split].
  - intros kw now self. exists (new_snapshot kw now self).
    destruct (new_snapshot_duration kw now self) as [Hts Hdur].
    repeat split; trivial.
  - intros self Hreach first Hfirst.
    pose proof (reachable_durations _ self Hreach first Hfirst) as Hall.
    split; [| exact Hall].
    destruct (state_history self) as [|s0 h]; [discriminate |].
    cbn in Hfirst. injection Hfirst as ->.
    apply Forall_cons in Hall. destruct Hall as [Hs0 _]. cbv beta in Hs0. lia.
  - intros self Hreach i j si sj Hi Hj Hle.
    destruct (state_history self) as [|s0 h] eqn:Hh; [discriminate |].
    pose proof (reachable_durations _ self Hreach s0) as Hall.
    rewrite Hh in Hall. specialize (Hall eq_refl).
    rewrite Forall_lookup in Hall.
    rewrite (Hall i si Hi), (Hall j sj Hj). lia.
Qed.

Lemma update_state_appends_one_snapshot_witness :
  let self :=
    @after_all left_to_right
      [ call_update_state (coherence_only 0.9) 10;
        call_update_state (coherence_only 0.8) 25 ]
      (new_LoopBreaker "session") in
  exists first,
    head (state_history self) = Some first /\
    session_duration first = 0 /\
    Forall (fun s => session_duration s = timestamp s - timestamp first)
           (state_history self).
Proof.
  cbv zeta. eexists. split; [reflexivity |].
  apply (proj1 (proj2 (@update_state_appends_one_snapshot left_to_right))).
  - unfold after_all. cbn [fold_left].
    apply (@reachable_after left_to_right); [exact I |].
    apply (@reachable_after left_to_right); [exact I |].
    apply reachable_new.
  - reflexivity.
Defined.

(** ** The containment flag *)

Lemma after_all_keeps_flag `{Builtins} (calls : list Call) (self : LoopBreaker) :
  active_containment self = true ->
  active_containment (after_all calls self) = true.
Proof.
  revert self. induction calls as [|c calls IH]; intros self Hflag.
  - exact Hflag.
  - apply IH, after_keeps_flag, Hflag.
Qed.

(** C6.  The containment flag of a new engine is false.  A cycle leaves the
    flag true if it was, and sets it exactly when the intervention it invokes
    is of the containment category.  No call clears it, so it stays true
    through every sequence of calls. *)
Theorem containment_flag_is_one_way `{Builtins} :
  (forall sid : string, active_containment (new_LoopBreaker sid) = false) /\
  (forall (kw : Updates) (t1 t2 t3 : Z) (self : LoopBreaker),
     active_containment (snd (process_cycle kw t1 t2 t3 self)) =
     active_containment self ||
     match cycle_selection kw t1 t2 self with
     | Some intervention =>
         bool_decide (intervention_type intervention = CONTAINMENT)
     | None => false
     end) /\
  (forall (c : Call) (self : LoopBreaker),
     active_containment self = true -> active_containment (after c self) = true) /\
  (forall (calls : list Call) (self : LoopBreaker),
     active_containment self = true ->
     active_containment (after_all calls self) = true).
Proof.
  split; [reflexivity | split; [| split]].
  - intros kw t1 t2 t3 self. rewrite process_cycle_engine. cbv zeta.
    destruct (cycle_selection kw t1 t2 self) as [iv|].
    + unfold flag_containment. rewrite execute_intervention_engine.
      destruct (decide (intervention_type iv = CONTAINMENT)) as [Hc | Hc].
      * rewrite (bool_decide_eq_true_2 _ Hc). cbn. rewrite orb_true_r. reflexivity.
      * rewrite (bool_decide_eq_false_2 _ Hc). cbn. rewrite orb_false_r. reflexivity.
    + cbn. rewrite orb_false_r. reflexivity.
  - exact after_keeps_flag.
  - exact after_all_keeps_flag.
Qed.

Lemma containment_flag_is_one_way_witness :
  let self :=
    @after_all left_to_right
      (scenario_A_calls (Build_Clock 0 0 0) (Build_Clock 1 1 1) (Build_Clock 2 2 2))
      (new_LoopBreaker "session") in
  active_containment self = true /\
  active_containment
    (@after_all left_to_right
       [ call_process_cycle (coherence_only 0.9) 3 3 3;
         call_get_session_summary;
         call_update_state (coherence_only 1.0) 4 ] self) = true.
Proof.
  cbv zeta. split; [vm_compute; reflexivity |].
  apply (proj2 (proj2 (proj2 (@containment_flag_is_one_way left_to_right)))).
  vm_compute. reflexivity.
Defined.

(** ** The summary *)

Lemma read_only_after `{Builtins} (c : Call) (self : LoopBreaker) :
  read_only c -> after c self = self.
Proof.
  destruct c; cbn [read_only after]; intros Hro; try contradiction.
  - reflexivity.
  - apply select_intervention_engine.
  - apply get_session_summary_engine.
Qed.

Lemma read_only_after_all `{Builtins} (calls : list Call) (self : LoopBreaker) :
  Forall read_only calls -> after_all calls self = self.
Proof.
  induction 1 as [|c calls Hc _ IH]; [reflexivity |].
  unfold after_all in *. cbn [fold_left]. rewrite (read_only_after c self Hc).
  exact IH.
Qed.

(** C7.  [get_session_summary] takes no clock reading and leaves the engine
    as it is, so a second call returns what the first returned; the same
    holds across any calls that assign nothing in between. *)
Theorem summary_is_idempotent `{Builtins} :
  (forall self : LoopBreaker,
     let first := get_session_summary self in
     let second := get_session_summary (snd first) in
     fst second = fst first /\ snd first = self /\ snd second = self) /\
  (forall (calls : list Call) (self : LoopBreaker),
     Forall read_only calls ->
     get_session_summary (after_all calls (snd (get_session_summary self))) =
     get_session_summary self).
Proof.
  split.
  - intros self first second. subst first second.
    rewrite !get_session_summary_engine. repeat split; trivial.
  - intros calls self Hro.
    rewrite get_session_summary_engine, (read_only_after_all calls self Hro).
    reflexivity.
Qed.

Lemma summary_is_idempotent_witness :
  let self :=
    @after_all left_to_right
      (scenario_A_calls (Build_Clock 0 0 0) (Build_Clock 1 1 1) (Build_Clock 2 2 2))
      (new_LoopBreaker "session") in
  @get_session_summary left_to_right
    (@after_all left_to_right
       [ call_detect_patterns (new_snapshot (coherence_only 0.05) 7 self);
         call_get_session_summary ]
       (snd (@get_session_summary left_to_right self))) =
  @get_session_summary left_to_right self.
Proof.
  cbv zeta.
  apply (proj2 (@summary_is_idempotent left_to_right)).
  repeat constructor.
Defined.

(** ** Invocation *)

Lemma touch_obj_id (oid now : Z) (x : Intervention) :
  obj_id (touch oid now x) = obj_id x.
Proof. unfold touch. destruct (decide _); reflexivity. Qed.

Lemma touch_same (oid now : Z) (x : Intervention) :
  obj_id x = oid -> last_executed (touch oid now x) = Some now.
Proof. intros Hid. unfold touch. destruct (decide _); [reflexivity | contradiction]. Qed.

Lemma touch_other (oid now : Z) (x : Intervention) :
  obj_id x <> oid -> touch oid now x = x.
Proof. intros Hid. unfold touch. destruct (decide _); [contradiction | reflexivity]. Qed.

(** C5.  [execute_intervention] returns a record, whatever the action does;
    after it every catalog entry that is the invoked object has
    [last_executed] set to the time read, and the other entries are as they
    were, also when the action raised.  When the action returns a dictionary,
    the record is that dictionary with ["intervention_id"], ["executed_at"]
    and ["session_id"] set; when it raises, the record holds exactly
    ["error"] (the message), ["intervention_type"] (the category) and
    ["fallback"]. *)
Theorem execute_intervention_never_raises (intervention : Intervention)
    (state : CognitiveState) (now : Z) (self : LoopBreaker) :
  let run := execute_intervention intervention state now self in
  (exists result, fst run = Ret result) /\
  interventions (snd run) =
    map (touch (obj_id intervention) now) <$> interventions self /\
  (forall ty entries x,
     interventions (snd run) !! ty = Some entries -> x ∈ entries ->
     obj_id x = obj_id intervention -> last_executed x = Some now) /\
  (forall ty entries,
     interventions self !! ty = Some entries ->
     exists entries',
       interventions (snd run) !! ty = Some entries' /\
       length entries' = length entries /\
       forall i x, entries !! i = Some x -> obj_id x <> obj_id intervention ->
                   entries' !! i = Some x) /\
  (forall d, execute intervention state = Returned d ->
     exists result,
       fst run = Ret result /\
       result !! "intervention_id" = Some (VInt (obj_id intervention)) /\
       result !! "executed_at" = Some (VTime now) /\
       result !! "session_id" = Some (VStr (session_id self)) /\
       forall k, k <> "intervention_id" -> k <> "executed_at" ->
                 k <> "session_id" -> result !! k = d !! k) /\
  (forall msg, execute intervention state = Raised msg ->
     fst run =
     Ret (list_to_map
            [ ("error", VStr ("Intervention execution failed: " +:+ msg));
              ("intervention_type",
               VStr (InterventionType_value (intervention_type intervention)));
              ("fallback", VStr "Initiate manual grounding protocol") ])).
Proof.
  intros run. subst run.
  split; [apply execute_intervention_returns |].
  rewrite execute_intervention_engine. cbn [snd set_interventions interventions].
  split; [reflexivity |]. split; [| split; [| split]].
  - intros ty entries x Hty Hx Hid.
    rewrite lookup_fmap in Hty.
    destruct (interventions self !! ty) as [l|]; [| discriminate].
    cbn in Hty. injection Hty as <-.
    apply list_elem_of_In, in_map_iff in Hx. destruct Hx as (y & <- & _).
    rewrite touch_obj_id in Hid. apply touch_same, Hid.
  - intros ty entries Hty. eexists. rewrite lookup_fmap, Hty. cbn.
    split; [reflexivity |]. split; [apply length_map |].
    intros i x Hi Hid.
    change (map (touch (obj_id intervention) now) entries)
      with (touch (obj_id intervention) now <$> entries).
    rewrite list_lookup_fmap, Hi. cbn. f_equal. apply touch_other, Hid.
  - intros d Hd. unfold execute_intervention. run_monad. rewrite Hd.
    eexists. split; [reflexivity |].
    split; [| split; [| split]].
    + rewrite lookup_insert_ne, lookup_insert_ne by discriminate.
      apply lookup_insert_eq.
    + rewrite lookup_insert_ne by discriminate. apply lookup_insert_eq.
    + apply lookup_insert_eq.
    + intros k H1 H2 H3. rewrite !lookup_insert_ne; congruence.
  - intros msg Hmsg. unfold execute_intervention. run_monad. rewrite Hmsg.
    reflexivity.
Qed.

Lemma execute_intervention_never_raises_witness :
  let self := new_LoopBreaker "session" in
  let state := new_snapshot (coherence_only 0.05) 0 self in
  fst (execute_intervention failing_intervention state 5 self) =
  Ret (list_to_map
         [ ("error", VStr "Intervention execution failed: out of breath");
           ("intervention_type", VStr "grounding");
           ("fallback", VStr "Initiate manual grounding protocol") ]).
Proof.
  cbv zeta.
  apply (proj2 (proj2 (proj2 (proj2 (proj2
           (execute_intervention_never_raises failing_intervention
              (new_snapshot (coherence_only 0.05) 0 (new_LoopBreaker "session"))
              5 (new_LoopBreaker "session"))))))).
  reflexivity.
Defined.

(** ** Counting the interventions executed *)

Lemma catalog_entries_stamped (f : Z -> option Z) :
  catalog_entries (stamped f) =
  map (restamp f) (catalog_entries initial_interventions).
Proof. vm_compute. reflexivity. Qed.

Lemma filter_map_length {A B} (p : B -> bool) (g : A -> B) (l : list A) :
  length (List.filter p (map g l)) = length (List.filter (fun x => p (g x)) l).
Proof.
  induction l as [|x l IH]; [reflexivity |].
  cbn. destruct (p (g x)); cbn; rewrite IH; reflexivity.
Qed.

Lemma executed_count_stamped (self : LoopBreaker) (f : Z -> option Z)
    (invoked : list Z) :
  interventions self = stamped f ->
  (forall i, is_Some (f i) <-> i ∈ invoked) ->
  executed_count self = distinct_invoked invoked.
Proof.
  intros Hcat Hf. unfold executed_count, distinct_invoked.
  rewrite Hcat, catalog_entries_stamped, filter_map_length.
  f_equal. apply filter_ext. intros x.
  unfold was_executed, restamp. cbn.
  destruct (f (obj_id x)) as [t|] eqn:Hx.
  - symmetry. apply bool_decide_eq_true_2, Hf. rewrite Hx. eauto.
  - symmetry. apply bool_decide_eq_false_2. intros Hin.
    apply Hf in Hin. rewrite Hx in Hin. destruct Hin. discriminate.
Qed.

Lemma after_stamps `{Builtins} (c : Call) (self : LoopBreaker)
    (f : Z -> option Z) :
  interventions self = stamped f ->
  exists f',
    interventions (after c self) = stamped f' /\
    forall i, is_Some (f' i) <-> is_Some (f i) \/ i ∈ invoked_by c self.
Proof.
  intros Hcat.
  assert (Hsame : forall self', interventions self' = interventions self ->
            invoked_by c self = [] ->
            exists f', interventions self' = stamped f' /\
              forall i, is_Some (f' i) <-> is_Some (f i) \/ i ∈ invoked_by c self).
  { intros self' Heq Hnone. exists f. rewrite Heq, Hnone. split; [exact Hcat |].
    intros i. rewrite elem_of_nil. tauto. }
  assert (Hexec : forall iv state now self1,
            interventions self1 = interventions self ->
            invoked_by c self = [obj_id iv] ->
            exists f',
              interventions (snd (execute_intervention iv state now self1)) =
                stamped f' /\
              forall i, is_Some (f' i) <-> is_Some (f i) \/ i ∈ invoked_by c self).
  { intros iv state now self1 Heq Hone.
    exists (stamp_at (obj_id iv) now f). rewrite execute_intervention_engine.
    cbn. rewrite Heq, Hcat, Hone. split; [apply touch_stamped |].
    intros i. unfold stamp_at. rewrite list_elem_of_singleton.
    destruct (decide (i = obj_id iv)); [| tauto].
    split; [tauto | eauto]. }
  destruct c as [kw now | state | patterns now | iv state now | kw t1 t2 t3 |];
    cbn [after].
  - apply Hsame; reflexivity.
  - apply Hsame; reflexivity.
  - rewrite select_intervention_engine. apply Hsame; reflexivity.
  - apply Hexec; reflexivity.
  - rewrite process_cycle_engine. cbv zeta.
    cbn [invoked_by] in *.
    destruct (cycle_selection kw t1 t2 self) as [iv|].
    + destruct (Hexec iv (new_snapshot kw t1 self) t3
                  (snd (update_state kw t1 self)) eq_refl eq_refl)
        as (f' & Hf' & Hiff).
      exists f'. rewrite flag_containment_interventions. split; assumption.
    + apply Hsame; reflexivity.
  - rewrite get_session_summary_engine. apply Hsame; reflexivity.
Qed.

Lemma after_all_stamps `{Builtins} (calls : list Call) (self : LoopBreaker)
    (f : Z -> option Z) :
  interventions self = stamped f ->
  exists f',
    interventions (after_all calls self) = stamped f' /\
    forall i, is_Some (f' i) <-> is_Some (f i) \/ i ∈ invocations calls self.
Proof.
  revert self f. induction calls as [|c calls IH]; intros self f Hcat.
  - exists f. split; [exact Hcat |]. intros i. cbn. rewrite elem_of_nil. tauto.
  - destruct (after_stamps c self f Hcat) as (f1 & Hcat1 & Hiff1).
    destruct (IH (after c self) f1 Hcat1) as (f2 & Hcat2 & Hiff2).
    exists f2. split; [exact Hcat2 |].
    intros i. cbn [invocations]. rewrite Hiff2, Hiff1, elem_of_app. tauto.
Qed.

Lemma invocations_app `{Builtins} (l1 l2 : list Call) (self : LoopBreaker) :
  invocations (l1 ++ l2) self =
  invocations l1 self ++ invocations l2 (after_all l1 self).
Proof.
  revert self. induction l1 as [|c l1 IH]; intros self; [reflexivity |].
  cbn [app invocations]. rewrite IH, app_assoc. reflexivity.
Qed.

Lemma distinct_invoked_ext (l1 l2 : list Z) :
  (forall i, i ∈ l1 <-> i ∈ l2) -> distinct_invoked l1 = distinct_invoked l2.
Proof.
  intros Hiff. unfold distinct_invoked. f_equal. apply filter_ext. intros x.
  apply bool_decide_ext, Hiff.
Qed.

Lemma session_executed_count `{Builtins} (sid : string) (calls : list Call) :
  executed_count (after_all calls (new_LoopBreaker sid)) =
  distinct_invoked (invocations calls (new_LoopBreaker sid)).
Proof.
  destruct (after_all_stamps calls (new_LoopBreaker sid) (fun _ => None)
              initial_interventions_stamped) as (f & Hcat & Hiff).
  apply (executed_count_stamped _ f); [exact Hcat |].
  intros i. rewrite Hiff. split; [intros [[t Ht] | Hin] | intros Hin].
  - discriminate.
  - exact Hin.
  - right. exact Hin.
Qed.

(** C8.  The entry [interventions_executed] of the summary is the number of
    catalog entries whose [last_executed] is set.  In a session that is the
    number of interventions of the catalog invoked at least once, however
    often each was invoked: invoking one again right after invoking it does
    not change the count. *)
Theorem interventions_executed_counts_distinct `{Builtins} :
  (forall (self : LoopBreaker) (s : SessionSummary),
     fst (get_session_summary self) = Ret (Summary s) ->
     interventions_executed s =
     length (List.filter (fun x => bool_decide (last_executed x <> None))
                         (catalog_entries (interventions self)))) /\
  (forall (sid : string) (calls : list Call) (s : SessionSummary),
     let self := after_all calls (new_LoopBreaker sid) in
     fst (get_session_summary self) = Ret (Summary s) ->
     interventions_executed s =
     distinct_invoked (invocations calls (new_LoopBreaker sid))) /\
  (forall (sid : string) (calls : list Call) (intervention : Intervention)
          (s1 s2 : CognitiveState) (t1 t2 : Z),
     let once := calls ++ [call_execute_intervention intervention s1 t1] in
     let twice := once ++ [call_execute_intervention intervention s2 t2] in
     executed_count (after_all twice (new_LoopBreaker sid)) =
     executed_count (after_all once (new_LoopBreaker sid)) /\
     length (invocations twice (new_LoopBreaker sid)) =
     S (length (invocations once (new_LoopBreaker sid)))).
Proof.
  assert (Hfield : forall self s,
            fst (get_session_summary self) = Ret (Summary s) ->
            interventions_executed s = executed_count self).
  { intros self s. unfold get_session_summary. run_monad.
    destruct (state_history self) as [|first rest]; [discriminate |].
    destruct (_generate_recommendations self) as [[recs | e] self'];
      cbn [fst]; [| discriminate].
    intros Hs. injection Hs as <-. reflexivity. }
  split; [| split].
  - intros self s Hs. rewrite (Hfield self s Hs). unfold executed_count.
    f_equal. apply filter_ext. intros x. unfold was_executed.
    destruct (last_executed x); [| reflexivity].
    symmetry. apply bool_decide_eq_true_2. discriminate.
  - intros sid calls s self Hs. rewrite (Hfield self s Hs).
    apply session_executed_count.
  - intros sid calls iv s1 s2 t1 t2 once twice. subst once twice. split.
    + rewrite !session_executed_count. apply distinct_invoked_ext. intros i.
      rewrite !invocations_app. cbn [invocations invoked_by].
      rewrite !elem_of_app, ?app_nil_r, ?elem_of_nil, !list_elem_of_singleton.
      tauto.
    + rewrite (invocations_app (calls ++ _)). cbn [invocations invoked_by].
      rewrite length_app. cbn. lia.
Qed.

Lemma interventions_executed_counts_distinct_witness :
  let calls :=
    scenario_A_calls (Build_Clock 0 0 0) (Build_Clock 1 1 1) (Build_Clock 2 2 2)
    ++ [ call_execute_intervention emergency_intervention
           (new_snapshot (coherence_only 0.3) 3 (new_LoopBreaker "session")) 3 ] in
  exists s,
    fst (@get_session_summary left_to_right
           (@after_all left_to_right calls (new_LoopBreaker "session")))
      = Ret (Summary s) /\
    interventions_executed s = 1%nat /\
    @invocations left_to_right calls (new_LoopBreaker "session") = [6; 6].
Proof.
  cbv zeta.
  set (calls := scenario_A_calls _ _ _ ++ _).
  assert (Hs : exists s,
            fst (@get_session_summary left_to_right
                   (@after_all left_to_right calls (new_LoopBreaker "session")))
              = Ret (Summary s))
    by (eexists; vm_compute; reflexivity).
  destruct Hs as [s Hs]. exists s. split; [exact Hs |]. split.
  - rewrite (proj1 (proj2 (@interventions_executed_counts_distinct left_to_right))
               "session" calls s Hs).
    vm_compute. reflexivity.
  - vm_compute. reflexivity.
Defined.

(** ** The order of floats *)

Lemma SFltb_irrefl (a : spec_float) : SFltb a a = false.
Proof.
  unfold SFltb, SFcompare.
  destruct a as [s | s | | s m e]; try destruct s; try reflexivity;
    compare_cases; cbn; try reflexivity; lia.
Qed.

Lemma SFltb_asym (a b : spec_float) : SFltb a b = true -> SFltb b a = false.
Proof.
  unfold SFltb, SFcompare.
  destruct a as [sa | sa | | sa ma ea], b as [sb | sb | | sb mb eb];
    try destruct sa; try destruct sb; cbn; try congruence;
    compare_cases; cbn; try congruence; try lia.
Qed.

Lemma SFltb_neg_trans (a b c : spec_float) :
  b <> S754_nan ->
  SFltb a b = false -> SFltb b c = false -> SFltb a c = false.
Proof.
  unfold SFltb, SFcompare. intros Hb.
  destruct a as [sa | sa | | sa ma ea], b as [sb | sb | | sb mb eb],
           c as [sc | sc | | sc mc ec];
    try congruence; try reflexivity;
    try destruct sa; try destruct sb; try destruct sc; cbn;
    try congruence; try reflexivity;
    compare_cases; cbn; try congruence; try lia.
Qed.

Lemma flt_irrefl (x : float) : flt x x = false.
Proof. unfold flt. rewrite ltb_spec. apply SFltb_irrefl. Qed.

Lemma flt_asym (x y : float) : flt x y = true -> flt y x = false.
Proof. unfold flt. rewrite !ltb_spec. apply SFltb_asym. Qed.

Lemma flt_neg_trans (x y z : float) :
  PrimFloat.is_nan y = false ->
  flt x y = false -> flt y z = false -> flt x z = false.
Proof.
  unfold flt, PrimFloat.is_nan. rewrite !ltb_spec, FloatAxioms.eqb_spec.
  intros Hy. apply SFltb_neg_trans. intros Hnan. rewrite Hnan in Hy.
  discriminate.
Qed.

(** ** The sort of the detected patterns *)

Lemma insert_by_confidence_perm (x : Detected) (l : list Detected) :
  insert_by_confidence x l ≡ₚ x :: l.
Proof.
  induction l as [|y l IH]; [reflexivity |].
  cbn [insert_by_confidence].
  destruct (flt (detected_confidence x) (detected_confidence y));
    [| reflexivity].
  rewrite IH. apply Permutation_swap.
Qed.

Lemma sort_by_confidence_perm (l : list Detected) :
  sort_by_confidence l ≡ₚ l.
Proof.
  induction l as [|x l IH]; [reflexivity |].
  cbn. rewrite insert_by_confidence_perm, IH. reflexivity.
Qed.

Lemma insert_by_confidence_sorted (x : Detected) (l : list Detected) :
  confidences_are_numbers l ->
  StronglySorted not_below l -> StronglySorted not_below (insert_by_confidence x l).
Proof.
  intros Hnum Hsorted. induction Hsorted as [|y l Hsorted IH Hy].
  - repeat constructor.
  - apply Forall_cons in Hnum. destruct Hnum as [Hynum Hnum].
    cbn [insert_by_confidence].
    destruct (flt (detected_confidence x) (detected_confidence y)) eqn:Hlt.
    + constructor; [apply IH, Hnum |].
      rewrite insert_by_confidence_perm. constructor; [| exact Hy].
      apply flt_asym, Hlt.
    + constructor; [constructor; assumption |].
      constructor; [exact Hlt |].
      rewrite Forall_forall in Hy |- *. intros z Hz.
      apply (flt_neg_trans _ (detected_confidence y)); auto.
      apply Hy, Hz.
Qed.

Lemma sort_by_confidence_sorted (l : list Detected) :
  confidences_are_numbers l -> StronglySorted not_below (sort_by_confidence l).
Proof.
  induction 1 as [|x l Hx Hl IH]; [constructor |].
  cbn. apply insert_by_confidence_sorted; [| exact IH].
  unfold confidences_are_numbers. rewrite sort_by_confidence_perm. exact Hl.
Qed.

Lemma insert_by_confidence_stable (k : float) (x : Detected) (l : list Detected) :
  PrimFloat.is_nan k = false ->
  List.filter (ties_with k) (insert_by_confidence x l) =
  List.filter (ties_with k) (x :: l).
Proof.
  intros Hk. induction l as [|y l IH]; [reflexivity |].
  cbn [insert_by_confidence].
  destruct (flt (detected_confidence x) (detected_confidence y)) eqn:Hlt;
    [| reflexivity].
  cbn [List.filter] in *. rewrite IH.
  destruct (ties_with k x) eqn:Hx, (ties_with k y) eqn:Hy; try reflexivity.
  exfalso. unfold ties_with in Hx, Hy.
  rewrite andb_true_iff, !negb_true_iff in Hx, Hy.
  destruct Hx as [_ Hxk], Hy as [Hky _].
  rewrite (flt_neg_trans _ k _ Hk Hxk Hky) in Hlt. discriminate.
Qed.

Lemma sort_by_confidence_stable (k : float) (l : list Detected) :
  PrimFloat.is_nan k = false ->
  List.filter (ties_with k) (sort_by_confidence l) = List.filter (ties_with k) l.
Proof.
  intros Hk. induction l as [|x l IH]; [reflexivity |].
  cbn [sort_by_confidence foldr].
  rewrite (insert_by_confidence_stable k _ _ Hk). cbn [List.filter].
  fold (sort_by_confidence l). rewrite IH. reflexivity.
Qed.

Lemma sort_by_confidence_nil (l : list Detected) :
  sort_by_confidence l = [] -> l = [].
Proof.
  intros Hnil. apply Permutation_nil. rewrite <- Hnil.
  apply sort_by_confidence_perm.
Qed.

Lemma sort_by_confidence_primary (l : list Detected) (p : Detected) :
  confidences_are_numbers l ->
  head (sort_by_confidence l) = Some p -> is_primary l p.
Proof.
  intros Hnum. revert p. induction Hnum as [|x l Hx Hl IH]; intros p Hp.
  - discriminate.
  - cbn [sort_by_confidence foldr] in Hp. fold (sort_by_confidence l) in Hp.
    destruct (sort_by_confidence l) as [|b s] eqn:Hsort.
    + apply sort_by_confidence_nil in Hsort. subst l.
      cbn in Hp. injection Hp as <-.
      exists [], []. split; [reflexivity |].
      split; intros q Hq; apply elem_of_nil in Hq; contradiction.
    + destruct (IH b eq_refl) as (before & rest & -> & Hbefore & Hrest).
      assert (Hb : PrimFloat.is_nan (detected_confidence b) = false).
      { rewrite Forall_forall in Hl. apply Hl. rewrite elem_of_app.
        right. left. }
      cbn [insert_by_confidence] in Hp.
      destruct (flt (detected_confidence x) (detected_confidence b)) eqn:Hlt.
      * cbn in Hp. injection Hp as <-.
        exists (x :: before), rest. split; [reflexivity |].
        split; [| exact Hrest].
        intros q Hq. apply elem_of_cons in Hq. destruct Hq as [-> | Hq]; auto.
      * cbn in Hp. injection Hp as <-.
        exists [], (before ++ b :: rest). split; [reflexivity |].
        split; [intros q Hq; apply elem_of_nil in Hq; contradiction |].
        intros q Hq. rewrite elem_of_app, elem_of_cons in Hq.
        apply (flt_neg_trans _ (detected_confidence b)); trivial.
        destruct Hq as [Hq | [-> | Hq]].
        -- apply flt_asym, Hbefore, Hq.
        -- apply flt_irrefl.
        -- apply Hrest, Hq.
Qed.

(** ** The choice among the eligible candidates *)

Lemma max_by_priority_first (best : Intervention) (rest : list Intervention) :
  exists before after,
    best :: rest = before ++ max_by_priority best rest :: after /\
    (forall y, y ∈ before -> priority y < priority (max_by_priority best rest)) /\
    (forall y, y ∈ after -> priority y <= priority (max_by_priority best rest)).
Proof.
  revert best. induction rest as [|x rest IH]; intros best.
  - exists [], []. split; [reflexivity |].
    split; intros y Hy; apply elem_of_nil in Hy; contradiction.
  - cbn [max_by_priority]. destruct (Z.ltb_spec (priority best) (priority x)) as [Hlt | Hge].
    + destruct (IH x) as (before & after & Heq & Hbefore & Hafter).
      exists (best :: before), after. split; [cbn; rewrite Heq; reflexivity |].
      split; [| exact Hafter].
      intros y Hy. apply elem_of_cons in Hy. destruct Hy as [-> | Hy]; auto.
      assert (Hx : x ∈ before ++ max_by_priority x rest :: after)
        by (rewrite <- Heq; left).
      rewrite elem_of_app, elem_of_cons in Hx.
      destruct Hx as [Hx | [Hx | Hx]].
      * specialize (Hbefore x Hx). lia.
      * rewrite <- Hx. exact Hlt.
      * specialize (Hafter x Hx). lia.
    + destruct (IH best) as (before & after & Heq & Hbefore & Hafter).
      destruct before as [|b before].
      * cbn in Heq. injection Heq as Hbest Hrest.
        exists [], (x :: after). split; [cbn; congruence |].
        split; [intros y Hy; apply elem_of_nil in Hy; contradiction |].
        intros y Hy. apply elem_of_cons in Hy. destruct Hy as [-> | Hy]; auto.
        rewrite <- Hbest. exact Hge.
      * cbn in Heq. injection Heq as <- Hrest.
        exists (best :: x :: before), after. split; [cbn; congruence |].
        split; [| exact Hafter].
        assert (Hbest : priority best < priority (max_by_priority best rest))
          by (apply Hbefore; left).
        intros y Hy. rewrite !elem_of_cons in Hy.
        destruct Hy as [-> | [-> | Hy]]; [exact Hbest | lia |].
        apply Hbefore. right. exact Hy.
Qed.

Lemma filter_split {A} (p : A -> bool) (l : list A) (before : list A) (x : A)
    (after : list A) :
  List.filter p l = before ++ x :: after ->
  exists before' after',
    l = before' ++ x :: after' /\ p x = true /\
    List.filter p before' = before /\ List.filter p after' = after.
Proof.
  revert before. induction l as [|y l IH]; intros before Hf.
  - destruct before; discriminate.
  - cbn [List.filter] in Hf. destruct (p y) eqn:Hy.
    + destruct before as [|b before].
      * cbn in Hf. injection Hf as -> Hl.
        exists [], l. cbn. auto.
      * cbn in Hf. injection Hf as -> Hl.
        destruct (IH before Hl) as (b' & a' & -> & Hx & Hb & Ha).
        exists (b :: b'), a'. cbn. rewrite Hy, Hb. auto.
    + destruct (IH before Hf) as (b' & a' & -> & Hx & Hb & Ha).
      exists (y :: b'), a'. cbn. rewrite Hy. auto.
Qed.

Lemma best_available_spec (now : Z) (candidates : list Intervention) :
  match best_available now candidates with
  | Some x => is_best_available now candidates x
  | None => forall y, y ∈ candidates -> cooled_down now y = false
  end.
Proof.
  unfold best_available.
  destruct (List.filter (cooled_down now) candidates) as [|first rest] eqn:Hf.
  - intros y Hy. destruct (cooled_down now y) eqn:Hc; [| reflexivity].
    assert (Hin : In y (List.filter (cooled_down now) candidates))
      by (apply filter_In; split; [apply list_elem_of_In, Hy | exact Hc]).
    rewrite Hf in Hin. contradiction.
  - destruct (max_by_priority_first first rest)
      as (before & after & Heq & Hbefore & Hafter).
    rewrite Heq in Hf.
    destruct (filter_split _ _ _ _ _ Hf) as (b' & a' & -> & Hx & Hb & Ha).
    exists b', a'. split; [reflexivity |]. split; [exact Hx |].
    split; intros y Hy Hc.
    + apply Hbefore. rewrite <- Hb. apply list_elem_of_In, filter_In.
      split; [apply list_elem_of_In, Hy | exact Hc].
    + apply Hafter. rewrite <- Ha. apply list_elem_of_In, filter_In.
      split; [apply list_elem_of_In, Hy | exact Hc].
Qed.

(** ** [select_intervention], in one equation *)

Lemma pattern_to_intervention_table (p : CollapsePattern) :
  pattern_to_intervention p = Some (category_of p).
Proof. destruct p; reflexivity. Qed.

Lemma insert_by_confidence_cons (x : Detected) (l : list Detected) :
  insert_by_confidence x l <> [].
Proof.
  destruct l as [|y l]; [discriminate |].
  cbn [insert_by_confidence].
  destruct (flt (detected_confidence x) (detected_confidence y)); discriminate.
Qed.

Lemma select_intervention_eq (patterns : list Detected) (now : Z)
    (self : LoopBreaker) :
  select_intervention patterns now self =
  match primary_category patterns with
  | None => (Ret None, self)
  | Some ty =>
      match interventions self !! ty with
      | None => (Exc (KeyError ty), self)
      | Some candidates => (Ret (best_available now candidates), self)
      end
  end.
Proof.
  unfold select_intervention, primary_category, best_available.
  destruct patterns as [|p ps]; [reflexivity |].
  destruct (sort_by_confidence (p :: ps)) as [|primary rest] eqn:Hsort.
  - exfalso. exact (insert_by_confidence_cons _ _ Hsort).
  - destruct (pattern_to_intervention (detected_pattern primary)) as [ty|];
      [| reflexivity].
    run_monad. destruct (interventions self !! ty) as [candidates|];
      [| reflexivity].
    destruct (List.filter (cooled_down now) candidates); reflexivity.
Qed.

Lemma primary_category_spec (patterns : list Detected) :
  match primary_category patterns with
  | None => patterns = []
  | Some ty =>
      exists primary,
        head (sort_by_confidence patterns) = Some primary /\
        ty = category_of (detected_pattern primary)
  end.
Proof.
  unfold primary_category.
  destruct (sort_by_confidence patterns) as [|primary rest] eqn:Hsort.
  - apply sort_by_confidence_nil, Hsort.
  - rewrite pattern_to_intervention_table. exists primary. split; reflexivity.
Qed.

Lemma eligible_spec (now : Z) (x : Intervention) :
  cooled_down now x = true <-> eligible now x.
Proof.
  unfold cooled_down, eligible, timedelta_minutes, usec_per_minute,
    usec_per_second.
  destruct (last_executed x) as [t|].
  - rewrite Z.ltb_lt. split.
    + intros Hlt. right. exists t. split; [reflexivity | lia].
    + intros [Hnone | (t' & Ht' & Hlt)]; [discriminate |].
      injection Ht' as <-. lia.
  - split; [intros _; left; reflexivity | reflexivity].
Qed.

Lemma best_available_eligible (now : Z) (candidates : list Intervention) :
  match best_available now candidates with
  | Some x => first_best_eligible now candidates x
  | None => forall y, y ∈ candidates -> ~ eligible now y
  end.
Proof.
  pose proof (best_available_spec now candidates) as Hspec.
  destruct (best_available now candidates) as [x|].
  - destruct Hspec as (before & rest & Heq & Hcool & Hbefore & Hrest).
    exists before, rest. split; [exact Heq |].
    split; [apply eligible_spec, Hcool |]. split.
    + intros y Hy Hel. apply Hbefore; [exact Hy | apply eligible_spec, Hel].
    + intros y Hy Hel. apply Hrest; [exact Hy | apply eligible_spec, Hel].
  - intros y Hy Hel. apply eligible_spec in Hel.
    rewrite (Hspec y Hy) in Hel. discriminate.
Qed.

Lemma well_formed_representable (self : LoopBreaker) :
  well_formed self -> representable_cooldowns self.
Proof.
  intros [_ [f Hcat]] ty candidates x Hlookup Hx. rewrite Hcat in Hlookup.
  destruct (stamped_lookup_entries f ty candidates x Hlookup Hx)
    as (x0 & Hx0 & ->).
  unfold initial_entries in Hx0. rewrite !elem_of_cons, elem_of_nil in Hx0.
  unfold timedelta_representable.
  repeat (destruct Hx0 as [-> | Hx0]); try contradiction;
    cbn [restamp cooldown_minutes]; vm_compute; split; congruence.
Qed.

(** C4.  For the empty list [select_intervention] returns none.  The sort
    gives a permutation of the list.  When the confidences are numbers it is
    the stable sort descending by confidence: patterns of tying confidence
    keep their order and no pattern comes after one of lower confidence.
    Then, for a non-empty list, the first entry of the sorted list, the
    primary pattern, is the first pattern of highest confidence; the fixed
    table gives its category; and, the cooldowns of the catalog being
    durations in range, the intervention returned is the first one of
    highest priority among those of the category's list that are eligible —
    never executed, or executed longer ago than their cooldown —; none is
    returned when none is eligible.  In the engine of a session the
    cooldowns are in range and every category of the table has a list. *)
Theorem select_intervention_picks_first_best (patterns : list Detected)
    (now : Z) (self : LoopBreaker) :
  (patterns = [] -> select_intervention patterns now self = (Ret None, self)) /\
  sort_by_confidence patterns ≡ₚ patterns /\
  (confidences_are_numbers patterns ->
     (forall k, PrimFloat.is_nan k = false ->
        List.filter (ties_with k) (sort_by_confidence patterns) =
        List.filter (ties_with k) patterns) /\
     StronglySorted not_below (sort_by_confidence patterns)) /\
  (patterns <> [] -> confidences_are_numbers patterns ->
     exists primary,
       head (sort_by_confidence patterns) = Some primary /\
       is_primary patterns primary /\
       pattern_to_intervention (detected_pattern primary) =
         Some (category_of (detected_pattern primary)) /\
       forall candidates,
         interventions self !! category_of (detected_pattern primary) =
           Some candidates ->
         representable_cooldowns self ->
         exists selected,
           select_intervention patterns now self = (Ret selected, self) /\
           match selected with
           | Some x => first_best_eligible now candidates x
           | None => forall y, y ∈ candidates -> ~ eligible now y
           end) /\
  (well_formed self ->
     representable_cooldowns self /\
     forall p : CollapsePattern,
     exists candidates, interventions self !! category_of p = Some candidates).
Proof.
  split; [intros ->; reflexivity |].
  split; [apply sort_by_confidence_perm |].
  split.
  { intros Hnum. split; [intros k; apply sort_by_confidence_stable |].
    apply sort_by_confidence_sorted, Hnum. }
  split.
  2:{ intros Hwf. split; [apply well_formed_representable, Hwf |].
      destruct Hwf as [_ [f Hcat]]. intros p. rewrite Hcat, stamped_lookup.
      destruct p; cbn [category_of]; eauto. }
  intros Hne Hnum. rewrite select_intervention_eq.
  pose proof (primary_category_spec patterns) as Hcat.
  destruct (primary_category patterns) as [ty|]; [| contradiction].
  destruct Hcat as (primary & Hhead & ->).
  exists primary. split; [exact Hhead |].
  split; [apply sort_by_confidence_primary; assumption |].
  split; [apply pattern_to_intervention_table |].
  intros candidates -> _. eexists. split; [reflexivity |].
  apply best_available_eligible.
Qed.

Lemma select_intervention_picks_first_best_witness :
  let patterns :=
    [ (SYMBOLIC_FLOODING, 0.8%float, "flooding");
      (IDENTITY_FRAGMENTATION, 0.7%float, "fragmentation");
      (MEANING_COLLAPSE, 0.8%float, "collapse") ] in
  exists primary selected,
    is_primary patterns primary /\
    detected_pattern primary = SYMBOLIC_FLOODING /\
    select_intervention patterns 3600000000 emergency_executed =
      (Ret selected, emergency_executed) /\
    obj_id <$> selected = Some 5.
Proof.
  cbv zeta.
  set (patterns := [ (SYMBOLIC_FLOODING, _, _); _; _ ]).
  assert (Hne : patterns <> []) by discriminate.
  assert (Hnum : confidences_are_numbers patterns)
    by (repeat constructor).
  assert (Hwf : well_formed emergency_executed)
    by apply execute_intervention_well_formed, new_LoopBreaker_well_formed.
  destruct (proj1 (proj2 (proj2 (proj2
              (select_intervention_picks_first_best patterns 3600000000
                 emergency_executed)))) Hne Hnum)
    as (primary & Hhead & Hprimary & _ & Hselect).
  vm_compute in Hhead. injection Hhead as <-.
  destruct (proj2 (proj2 (proj2 (proj2
              (select_intervention_picks_first_best patterns 3600000000
                 emergency_executed)))) Hwf) as [Hrange Hlists].
  destruct (Hlists SYMBOLIC_FLOODING) as [candidates Hlookup].
  destruct (Hselect candidates Hlookup Hrange) as (selected & Hsel & _).
  eexists. exists selected.
  split; [exact Hprimary |]. split; [reflexivity |]. split; [exact Hsel |].
  assert (Hid : selected_id
                  (select_intervention patterns 3600000000 emergency_executed)
                = Some 5) by (vm_compute; reflexivity).
  rewrite Hsel in Hid. unfold selected_id in Hid. cbn [fst] in Hid.
  destruct selected as [x|]; [| discriminate].
  injection Hid as Hid. cbn. rewrite Hid. reflexivity.
Defined.

(** ** The categories selection reaches *)

Lemma category_of_mapped (p : CollapsePattern) : mapped_category (category_of p).
Proof. unfold mapped_category. destruct p; cbn; auto. Qed.

Lemma select_intervention_from_mapped (patterns : list Detected) (now : Z)
    (self : LoopBreaker) (x : Intervention) :
  fst (select_intervention patterns now self) = Ret (Some x) ->
  exists ty candidates,
    mapped_category ty /\ interventions self !! ty = Some candidates /\
    is_best_available now candidates x.
Proof.
  rewrite select_intervention_eq.
  pose proof (primary_category_spec patterns) as Hcat.
  destruct (primary_category patterns) as [ty|]; [| discriminate].
  destruct Hcat as (primary & _ & ->).
  destruct (interventions self !! category_of (detected_pattern primary))
    as [candidates|] eqn:Hlookup; [| discriminate].
  cbn [fst]. intros Hsel. injection Hsel as Hsel.
  exists (category_of (detected_pattern primary)), candidates.
  split; [apply category_of_mapped |]. split; [exact Hlookup |].
  pose proof (best_available_spec now candidates) as Hbest.
  rewrite Hsel in Hbest. exact Hbest.
Qed.

Lemma is_best_available_elem (now : Z) (candidates : list Intervention)
    (x : Intervention) :
  is_best_available now candidates x -> x ∈ candidates.
Proof.
  intros (before & rest & -> & _). rewrite elem_of_app. right. left.
Qed.

(** The lists of a session's catalog under the mapped categories. *)
Lemma stamped_mapped (f : Z -> option Z) (ty : InterventionType) :
  mapped_category ty ->
  exists candidates,
    stamped f !! ty = Some candidates /\
    forall x, x ∈ candidates ->
      intervention_type x = ty /\ obj_id x <> obj_id redirect_intervention.
Proof.
  intros [-> | [-> | ->]]; eexists; (split; [reflexivity |]);
    intros x Hx; repeat (apply elem_of_cons in Hx; destruct Hx as [-> | Hx]);
    try (apply elem_of_nil in Hx; contradiction);
    split; (reflexivity || discriminate).
Qed.

Lemma select_intervention_well_formed (patterns : list Detected) (now : Z)
    (self : LoopBreaker) :
  well_formed self ->
  exists selected,
    select_intervention patterns now self = (Ret selected, self) /\
    forall x, selected = Some x ->
      mapped_category (intervention_type x) /\
      obj_id x <> obj_id redirect_intervention.
Proof.
  intros [_ [f Hcat]]. rewrite select_intervention_eq.
  pose proof (primary_category_spec patterns) as Hprim.
  destruct (primary_category patterns) as [ty|].
  - destruct Hprim as (primary & _ & ->).
    destruct (stamped_mapped f _ (category_of_mapped (detected_pattern primary)))
      as (candidates & Hlookup & Hall).
    rewrite Hcat, Hlookup. eexists. split; [reflexivity |].
    intros x Hx.
    pose proof (best_available_spec now candidates) as Hbest.
    rewrite Hx in Hbest. apply is_best_available_elem, Hall in Hbest.
    destruct Hbest as [-> Hid]. split; [apply category_of_mapped | exact Hid].
  - eexists. split; [reflexivity |]. discriminate.
Qed.

Lemma cycle_selection_well_formed (kw : Updates) (t1 t2 : Z)
    (self : LoopBreaker) (x : Intervention) :
  well_formed self ->
  cycle_selection kw t1 t2 self = Some x ->
  mapped_category (intervention_type x) /\
  obj_id x <> obj_id redirect_intervention.
Proof.
  intros Hwf. unfold cycle_selection.
  unfold mbind, M_bind. rewrite update_state_eq. cbn [fst snd].
  rewrite detect_patterns_eq.
  destruct (run_detectors _ _ _) as [|d ds]; [discriminate |].
  set (self1 := snd (set_state_history _ self)).
  assert (Hwf1 : well_formed self1) by exact Hwf.
  destruct (select_intervention_well_formed (d :: ds) t2 self1 Hwf1)
    as (selected & -> & Hsel).
  cbn [fst]. apply Hsel.
Qed.

Lemma pipeline_never_invokes_redirect `{Builtins} (calls : list Call)
    (self : LoopBreaker) :
  well_formed self -> Forall pipeline_call calls ->
  obj_id redirect_intervention ∉ invocations calls self.
Proof.
  intros Hwf Hcalls. revert self Hwf.
  induction Hcalls as [|c calls Hc _ IH]; intros self Hwf.
  - apply not_elem_of_nil.
  - cbn [invocations]. rewrite elem_of_app. intros [Hin | Hin].
    + destruct c as [| | | | kw t1 t2 t3 |]; cbn in Hc; try contradiction.
      * cbn [invoked_by] in Hin.
        destruct (cycle_selection kw t1 t2 self) as [x|] eqn:Hsel.
        -- apply list_elem_of_singleton in Hin.
           destruct (cycle_selection_well_formed _ _ _ _ _ Hwf Hsel) as [_ Hid].
           congruence.
        -- apply elem_of_nil in Hin. exact Hin.
      * apply elem_of_nil in Hin. exact Hin.
    + exact (IH (after c self) (after_well_formed c self Hwf) Hin).
Qed.

(** C10.  Whatever the catalog, the intervention [select_intervention]
    returns is taken from the list of a category the table leads to:
    containment, identity-anchor or grounding.  In a session it returns none
    or an intervention whose category is one of these three.  In a session
    driven through [process_cycle] the redirect intervention is never
    invoked: its catalog entry stays as it was created. *)
Theorem redirect_is_never_selected `{Builtins} :
  (forall (patterns : list Detected) (now : Z) (self : LoopBreaker)
          (x : Intervention),
     fst (select_intervention patterns now self) = Ret (Some x) ->
     exists ty candidates,
       mapped_category ty /\ interventions self !! ty = Some candidates /\
       x ∈ candidates) /\
  (forall self : LoopBreaker, reachable self ->
     forall (patterns : list Detected) (now : Z),
     exists selected,
       select_intervention patterns now self = (Ret selected, self) /\
       forall x, selected = Some x ->
         intervention_type x = CONTAINMENT \/
         intervention_type x = IDENTITY_ANCHOR \/
         intervention_type x = GROUNDING) /\
  (forall (sid : string) (calls : list Call),
     Forall pipeline_call calls ->
     (obj_id redirect_intervention ∉ invocations calls (new_LoopBreaker sid)) /\
     interventions (after_all calls (new_LoopBreaker sid)) !! REDIRECT =
       Some [redirect_intervention]).
Proof.
  split; [| split].
  - intros patterns now self x Hsel.
    destruct (select_intervention_from_mapped _ _ _ _ Hsel)
      as (ty & candidates & Hty & Hlookup & Hbest).
    exists ty, candidates. split; [exact Hty |]. split; [exact Hlookup |].
    apply (is_best_available_elem now), Hbest.
  - intros self Hreach patterns now.
    destruct (select_intervention_well_formed patterns now self
                (reachable_by_well_formed _ self Hreach))
      as (selected & Heq & Hsel).
    exists selected. split; [exact Heq |].
    intros x Hx. apply Hsel, Hx.
  - intros sid calls Hcalls.
    pose proof (pipeline_never_invokes_redirect calls (new_LoopBreaker sid)
                  (new_LoopBreaker_well_formed sid) Hcalls) as Hnot.
    split; [exact Hnot |].
    destruct (after_all_stamps calls (new_LoopBreaker sid) (fun _ => None)
                initial_interventions_stamped) as (f & -> & Hiff).
    assert (Hf : f (obj_id redirect_intervention) = None).
    { destruct (f (obj_id redirect_intervention)) as [t|] eqn:Ht; [| reflexivity].
      exfalso.
      assert (Hs : is_Some (f (obj_id redirect_intervention)))
        by (rewrite Ht; eauto).
      apply Hiff in Hs. destruct Hs as [[t' Hs] | Hs];
        [discriminate | exact (Hnot Hs)]. }
    change (stamped f !! REDIRECT) with (Some [restamp f redirect_intervention]).
    unfold restamp. rewrite Hf. reflexivity.
Qed.

Lemma redirect_is_never_selected_witness :
  interventions
    (@after_all left_to_right
       (scenario_A_calls (Build_Clock 0 0 0) (Build_Clock 1 1 1) (Build_Clock 2 2 2))
       (new_LoopBreaker "session")) !! REDIRECT = Some [redirect_intervention].
Proof.
  apply (proj2 (proj2 (@redirect_is_never_selected left_to_right)) "session").
  repeat constructor.
Defined.

(** ** Cooldowns *)

Lemma cooled_down_spec (now : Z) (x : Intervention) :
  cooled_down now x = true <->
  last_executed x = None \/
  exists t, last_executed x = Some t /\
            timedelta_minutes (cooldown_minutes x) < now - t.
Proof.
  unfold cooled_down. destruct (last_executed x) as [t|].
  - rewrite Z.ltb_lt. split.
    + intros Hlt. right. exists t. split; [reflexivity | exact Hlt].
    + intros [Hnone | (t' & Ht' & Hlt)]; [discriminate |].
      injection Ht' as <-. exact Hlt.
  - split; [intros _; left; reflexivity | reflexivity].
Qed.

Lemma cooled_down_just_executed (now t : Z) (x : Intervention) :
  now - t <= timedelta_minutes (cooldown_minutes x) ->
  cooled_down now (set_last_executed t x) = false.
Proof. intros Hsoon. unfold cooled_down. cbn. apply Z.ltb_ge, Hsoon. Qed.

Lemma touched_candidates (oid t now : Z) (candidates : list Intervention)
    (x : Intervention) (y : Intervention) :
  (forall z, z ∈ candidates -> obj_id z = oid -> z = x) ->
  oid = obj_id x ->
  now - t <= timedelta_minutes (cooldown_minutes x) ->
  y ∈ map (touch oid t) candidates -> cooled_down now y = true ->
  obj_id y <> oid /\ y ∈ candidates.
Proof.
  intros Hsame Hoid Hsoon Hy Hcool.
  apply list_elem_of_In, in_map_iff in Hy. destruct Hy as (z & <- & Hz).
  apply list_elem_of_In in Hz.
  destruct (decide (obj_id z = oid)) as [Hid | Hid].
  - rewrite (Hsame z Hz Hid) in Hcool. unfold touch in Hcool.
    destruct (decide (obj_id x = oid)); [| congruence].
    rewrite cooled_down_just_executed in Hcool by exact Hsoon. discriminate.
  - rewrite (touch_other _ _ _ Hid). split; assumption.
Qed.

(** C3.  For an intervention whose cooldown is a duration in range, the
    test of the selection loop holds exactly when the intervention was never
    executed or the time since its last execution exceeds its cooldown, in
    microseconds 60000000 times its number of minutes.  On patterns whose
    confidences are numbers and a catalog whose cooldowns are in range,
    selection returns eligible interventions only, and after an intervention
    returned by selection is executed, selection for the same patterns at a
    time within its cooldown does not return it: it returns an eligible
    intervention of the same category's list when another one is eligible
    there, and none when the list holds no other intervention.  Once the
    cooldown has elapsed the intervention is eligible again.  The engines of
    sessions satisfy the two conditions on the catalog. *)
Theorem cooldown_blocks_reselection :
  (forall (now : Z) (x : Intervention),
     timedelta_representable (cooldown_minutes x) ->
     cooled_down now x = true <->
     last_executed x = None \/
     exists t, last_executed x = Some t /\
               cooldown_minutes x * 60000000 < now - t) /\
  (forall (patterns : list Detected) (now : Z) (self : LoopBreaker)
          (x : Intervention),
     confidences_are_numbers patterns ->
     representable_cooldowns self ->
     fst (select_intervention patterns now self) = Ret (Some x) ->
     eligible now x) /\
  (forall (self : LoopBreaker) (patterns : list Detected) (t0 : Z)
          (x : Intervention) (state : CognitiveState) (t t' : Z),
     consistent_objects self ->
     representable_cooldowns self ->
     confidences_are_numbers patterns ->
     fst (select_intervention patterns t0 self) = Ret (Some x) ->
     t' - t <= cooldown_minutes x * 60000000 ->
     let self' := snd (execute_intervention x state t self) in
     exists ty candidates selected,
       interventions self !! ty = Some candidates /\ x ∈ candidates /\
       select_intervention patterns t' self' = (Ret selected, self') /\
       (forall y, selected = Some y ->
          obj_id y <> obj_id x /\ y ∈ candidates /\ eligible t' y) /\
       ((exists y, y ∈ candidates /\ obj_id y <> obj_id x /\ eligible t' y) ->
        exists y, selected = Some y) /\
       ((forall y, y ∈ candidates -> obj_id y = obj_id x) -> selected = None)) /\
  (forall (x : Intervention) (t t' : Z),
     timedelta_representable (cooldown_minutes x) ->
     cooldown_minutes x * 60000000 < t' - t ->
     cooled_down t' (touch (obj_id x) t x) = true) /\
  (forall self : LoopBreaker,
     well_formed self -> consistent_objects self /\ representable_cooldowns self).
Proof.
  split; [intros now x _; apply eligible_spec |]. split; [| split; [| split]].
  - intros patterns now self x _ _ Hsel.
    destruct (select_intervention_from_mapped _ _ _ _ Hsel)
      as (ty & candidates & _ & _ & (before & rest & _ & Hcool & _)).
    apply eligible_spec, Hcool.
  - intros self patterns t0 x state t t' Hobj _ _ Hsel Hsoon self'. subst self'.
    assert (Hwithin : t' - t <= timedelta_minutes (cooldown_minutes x))
      by (unfold timedelta_minutes, usec_per_minute, usec_per_second; lia).
    rewrite select_intervention_eq in Hsel.
    rewrite select_intervention_eq, execute_intervention_engine.
    cbn [snd set_interventions interventions].
    destruct (primary_category patterns) as [ty|]; [| discriminate].
    rewrite lookup_fmap.
    destruct (interventions self !! ty) as [candidates|] eqn:Hlookup;
      [| discriminate].
    cbn [fst] in Hsel. injection Hsel as Hsel.
    pose proof (best_available_spec t0 candidates) as Hx.
    rewrite Hsel in Hx. apply is_best_available_elem in Hx.
    assert (Hsame : forall z, z ∈ candidates -> obj_id z = obj_id x -> z = x).
    { intros z Hz Hid. exact (Hobj ty candidates z ty candidates x
                                Hlookup Hz Hlookup Hx Hid). }
    exists ty, candidates, (best_available t' (map (touch (obj_id x) t) candidates)).
    split; [exact Hlookup |]. split; [exact Hx |]. split; [reflexivity |].
    pose proof (best_available_spec t' (map (touch (obj_id x) t) candidates))
      as Hbest.
    assert (Hsome : forall y,
              best_available t' (map (touch (obj_id x) t) candidates) = Some y ->
              obj_id y <> obj_id x /\ y ∈ candidates /\ eligible t' y).
    { intros y Hy. rewrite Hy in Hbest.
      pose proof (is_best_available_elem _ _ _ Hbest) as Hin.
      destruct Hbest as (before & rest & _ & Hcool & _).
      destruct (touched_candidates _ t t' candidates x y Hsame eq_refl Hwithin
                  Hin Hcool) as [Hid Hcand].
      repeat split; try assumption. apply eligible_spec, Hcool. }
    split; [exact Hsome |]. split.
    + intros (y & Hy & Hid & Hcool). apply eligible_spec in Hcool.
      destruct (best_available t' (map (touch (obj_id x) t) candidates))
        as [z|]; [eauto |].
      exfalso. rewrite (Hbest y) in Hcool; [discriminate |].
      rewrite <- (touch_other (obj_id x) t y Hid).
      apply list_elem_of_In, in_map, list_elem_of_In, Hy.
    + intros Honly.
      destruct (best_available t' (map (touch (obj_id x) t) candidates))
        as [z|]; [| reflexivity].
      destruct (Hsome z eq_refl) as (Hid & Hz & _).
      exfalso. exact (Hid (Honly z Hz)).
  - intros x t t' _ Hlate. unfold touch.
    destruct (decide (obj_id x = obj_id x)); [| congruence].
    unfold cooled_down. cbn. apply Z.ltb_lt.
    unfold timedelta_minutes, usec_per_minute, usec_per_second. lia.
  - intros self Hwf.
    split; [apply well_formed_consistent | apply well_formed_representable];
      exact Hwf.
Qed.

Lemma cooldown_blocks_reselection_witness :
  let self := new_LoopBreaker "session" in
  let patterns := [ (CONTAINMENT_BREACH, 1.0%float, "breach") ] in
  let state := new_snapshot (coherence_only 0.05) 0 self in
  fst (select_intervention patterns 0 self) = Ret (Some emergency_intervention) /\
  3600000000 - 0 <= cooldown_minutes emergency_intervention * 60000000 /\
  exists y,
    fst (select_intervention patterns 3600000000
           (snd (execute_intervention emergency_intervention state 0 self)))
      = Ret (Some y) /\
    obj_id y <> obj_id emergency_intervention /\
    eligible 3600000000 y.
Proof.
  cbv zeta. split; [reflexivity |].
  split; [vm_compute; discriminate |].
  destruct (proj2 (proj2 (proj2 (proj2 cooldown_blocks_reselection)))
              (new_LoopBreaker "session") (new_LoopBreaker_well_formed "session"))
    as [Hobjects Hrange].
  destruct (proj1 (proj2 (proj2 cooldown_blocks_reselection))
              (new_LoopBreaker "session")
              [ (CONTAINMENT_BREACH, 1.0%float, "breach") ] 0
              emergency_intervention
              (new_snapshot (coherence_only 0.05) 0 (new_LoopBreaker "session"))
              0 3600000000
              Hobjects Hrange ltac:(repeat constructor)
              eq_refl ltac:(vm_compute; discriminate))
    as (ty & candidates & selected & Hlookup & Hx & Hsel & Hsome & Hother & _).
  rewrite Hsel. cbn [fst].
  destruct selected as [y|].
  - exists y. split; [reflexivity |]. destruct (Hsome y eq_refl) as (Hid & _ & Hel).
    split; assumption.
  - exfalso.
    assert (Hnone : selected_id (select_intervention
                           [ (CONTAINMENT_BREACH, 1.0%float, "breach") ] 3600000000
                           (snd (execute_intervention emergency_intervention
                                   (new_snapshot (coherence_only 0.05) 0
                                      (new_LoopBreaker "session")) 0
                                   (new_LoopBreaker "session"))))
                    = None)
      by (rewrite Hsel; reflexivity).
    vm_compute in Hnone. discriminate Hnone.
Defined.

(** The only intervention of a category, once executed at time 0, is not
    returned until its cooldown of 240 minutes, 14400000000 microseconds,
    has elapsed: not one hour later, not at the end of the cooldown, but one
    microsecond after it. *)
Example lone_intervention_cools_down :
  let patterns := [ (CONTAINMENT_BREACH, 1.0%float, "breach") ] in
  let state := new_snapshot (coherence_only 0.05) 0 lone_containment_engine in
  let executed :=
    snd (execute_intervention emergency_intervention state 0
           lone_containment_engine) in
  selected_id (select_intervention patterns 0 lone_containment_engine) = Some 6 /\
  selected_id (select_intervention patterns 0 executed) = None /\
  selected_id (select_intervention patterns 3600000000 executed) = None /\
  selected_id (select_intervention patterns 14400000000 executed) = None /\
  selected_id (select_intervention patterns 14400000001 executed) = Some 6.
Proof. cbv zeta. repeat split; vm_compute; reflexivity. Qed.

(** ** A cycle, in one equation *)

Lemma process_cycle_eq (kw : Updates) (t1 t2 t3 : Z) (self : LoopBreaker) :
  process_cycle kw t1 t2 t3 self =
  match run_detectors (pattern_detectors self)
          (state_history self ++ [new_snapshot kw t1 self])
          (new_snapshot kw t1 self)
  with
  | [] =>
      (Ret (cycle_record self (new_snapshot kw t1 self) []),
       snd (update_state kw t1 self))
  | d :: ds =>
      match fst (select_intervention (d :: ds) t2 (snd (update_state kw t1 self)))
      with
      | Exc e => (Exc e, snd (update_state kw t1 self))
      | Ret None =>
          (Ret (cycle_record self (new_snapshot kw t1 self) (d :: ds)),
           snd (update_state kw t1 self))
      | Ret (Some x) =>
          match fst (execute_intervention x (new_snapshot kw t1 self) t3
                       (snd (update_state kw t1 self)))
          with
          | Ret result =>
              (Ret (with_intervention
                      (cycle_record self (new_snapshot kw t1 self) (d :: ds))
                      result),
               flag_containment x
                 (snd (execute_intervention x (new_snapshot kw t1 self) t3
                         (snd (update_state kw t1 self)))))
          | Exc e =>
              (Exc e,
               snd (execute_intervention x (new_snapshot kw t1 self) t3
                      (snd (update_state kw t1 self))))
          end
      end
  end.
Proof.
  unfold process_cycle.
  unfold mbind, M_bind. rewrite update_state_eq. cbn [fst snd].
  rewrite detect_patterns_eq. unfold get_self. cbn [fst snd].
  set (self1 := snd (set_state_history _ self)).
  set (current := new_snapshot kw t1 self).
  change (pattern_detectors self1) with (pattern_detectors self).
  change (state_history self1) with (state_history self ++ [current]).
  destruct (run_detectors _ _ current) as [|d ds]; [reflexivity |].
  pose proof (select_intervention_engine (d :: ds) t2 self1) as Hsel.
  destruct (select_intervention (d :: ds) t2 self1) as [[[iv|]|e] self2];
    cbn [fst snd] in *; subst self2; try reflexivity.
  unfold flag_containment.
  destruct (execute_intervention iv current t3 self1) as [[res|e] self3];
    cbn [fst snd]; [| reflexivity].
  destruct (decide _); reflexivity.
Qed.

Lemma execute_intervention_result (intervention : Intervention)
    (state : CognitiveState) (now : Z) (self : LoopBreaker) :
  fst (execute_intervention intervention state now self) =
  Ret (match execute intervention state with
       | Returned result =>
           <["session_id" := VStr (session_id self)]>
             (<["executed_at" := VTime now]>
               (<["intervention_id" := VInt (obj_id intervention)]> result))
       | Raised e =>
           list_to_map
             [ ("error", VStr ("Intervention execution failed: " +:+ e));
               ("intervention_type",
                VStr (InterventionType_value (intervention_type intervention)));
               ("fallback", VStr "Initiate manual grounding protocol") ]
       end).
Proof.
  unfold execute_intervention. run_monad.
  destruct (execute intervention state); reflexivity.
Qed.

(** ** Scenario A *)

Lemma scenario_A_first_two (sid : string) (c1 c2 : Clock) :
  let k1 := metrics 2 0.3 0.9 0.8 0.2 0.2 in
  let k2 := metrics 6 0.7 0.6 0.5 0.6 0.6 in
  let e0 := new_LoopBreaker sid in
  let e1 := snd (update_state k1 (at_update c1) e0) in
  let e2 := snd (update_state k2 (at_update c2) e1) in
  cycle k1 c1 e0 =
    (Ret (cycle_record e0 (new_snapshot k1 (at_update c1) e0) []), e1) /\
  cycle k2 c2 e1 =
    (Ret (cycle_record e1 (new_snapshot k2 (at_update c2) e1) []), e2).
Proof.
  destruct c1 as [u1 s1 x1], c2 as [u2 s2 x2].
  cbv zeta. unfold cycle. cbn [at_update at_select at_execute].
  split; rewrite process_cycle_eq; no_pattern; reflexivity.
Qed.

Lemma scenario_A_third_detects (sid : string) (u1 u2 u3 : Z) :
  let k1 := metrics 2 0.3 0.9 0.8 0.2 0.2 in
  let k2 := metrics 6 0.7 0.6 0.5 0.6 0.6 in
  let k3 := metrics 12 0.9 0.3 0.2 0.9 0.8 in
  let e2 := snd (update_state k2 u2 (snd (update_state k1 u1 (new_LoopBreaker sid)))) in
  run_detectors (pattern_detectors e2)
    (state_history e2 ++ [new_snapshot k3 u3 e2]) (new_snapshot k3 u3 e2) =
  (SYMBOLIC_FLOODING, 0.8%float,
   "Overwhelming symbolic processing beyond integration capacity")
  :: (IDENTITY_FRAGMENTATION, 0.7%float,
      "Progressive loss of coherent self-concept")
  :: (if total_seconds_gt (u3 - u1) 1800
      then [ (RECURSIVE_SPIRAL, 0.9%float,
              "Runaway recursive processing without resolution") ]
      else []).
Proof.
  cbv zeta.
  set (e2 := snd (update_state _ u2 _)).
  set (s3 := new_snapshot _ u3 e2).
  set (h := state_history e2 ++ [s3]).
  change (pattern_detectors e2) with initial_detectors.
  unfold initial_detectors.
  cbn [run_detectors threshold_function pattern_type confidence_threshold
       detector_description].
  assert (H1 : detect_symbolic_flooding h s3 = true) by (vm_compute; reflexivity).
  assert (H2 : detect_identity_fragmentation h s3 = true)
    by (vm_compute; reflexivity).
  assert (H3 : detect_recursive_spiral h s3 = total_seconds_gt (u3 - u1) 1800)
    by (vm_compute; reflexivity).
  assert (H4 : detect_meaning_collapse h s3 = false) by (vm_compute; reflexivity).
  assert (H5 : detect_temporal_disconnection h s3 = false)
    by (vm_compute; reflexivity).
  assert (H6 : detect_containment_breach h s3 = false)
    by (vm_compute; reflexivity).
  rewrite H1, H2, H3, H4, H5, H6. reflexivity.
Qed.

Lemma scenario_A_third (sid : string) (u1 u2 : Z) (c3 : Clock) :
  let k1 := metrics 2 0.3 0.9 0.8 0.2 0.2 in
  let k2 := metrics 6 0.7 0.6 0.5 0.6 0.6 in
  let k3 := metrics 12 0.9 0.3 0.2 0.9 0.8 in
  let e2 := snd (update_state k2 u2 (snd (update_state k1 u1 (new_LoopBreaker sid)))) in
  let late := total_seconds_gt (at_update c3 - u1) 1800 in
  exists r3 e3,
    cycle k3 c3 e2 = (Ret r3, e3) /\
    reported (Ret r3) =
      [ "symbolic_flooding"; "identity_fragmentation" ] ++
      (if late then [ "recursive_spiral" ] else []) /\
    (exists d, intervention r3 = Some d /\
               d !! "type" =
                 Some (VStr (if late then "grounding" else "containment"))) /\
    active_containment e3 = negb late.
Proof.
  destruct c3 as [u3 s3 x3].
  cbv zeta. unfold cycle. cbn [at_update at_select at_execute].
  rewrite process_cycle_eq, scenario_A_third_detects.
  set (e2 := snd (update_state _ u2 _)).
  set (current := new_snapshot _ u3 e2).
  set (e2' := snd (update_state _ u3 e2)).
  destruct (total_seconds_gt (u3 - u1) 1800).
  - (* more than thirty minutes into the session *)
    cbn [app].
    match goal with
    | |- context [select_intervention ?p s3 e2'] =>
        assert (Hsel : fst (select_intervention p s3 e2')
                       = Ret (Some loop_breath_intervention))
    end.
    { rewrite select_intervention_eq.
      match goal with
      | |- context [primary_category ?p] =>
          assert (Hp : primary_category p = Some GROUNDING)
            by (vm_compute; reflexivity);
          rewrite Hp
      end.
      reflexivity. }
    rewrite Hsel, execute_intervention_result.
    eexists. eexists. split; [reflexivity |].
    split; [reflexivity |].
    split; [| reflexivity].
    eexists. split; [reflexivity |]. vm_compute. reflexivity.
  - (* within thirty minutes *)
    cbn [app].
    match goal with
    | |- context [select_intervention ?p s3 e2'] =>
        assert (Hsel : fst (select_intervention p s3 e2')
                       = Ret (Some emergency_intervention))
    end.
    { rewrite select_intervention_eq.
      match goal with
      | |- context [primary_category ?p] =>
          assert (Hp : primary_category p = Some CONTAINMENT)
            by (vm_compute; reflexivity);
          rewrite Hp
      end.
      reflexivity. }
    rewrite Hsel, execute_intervention_result.
    eexists. eexists. split; [reflexivity |].
    split; [reflexivity |].
    split; [| reflexivity].
    eexists. split; [reflexivity |]. vm_compute. reflexivity.
Qed.

(** C1 (amended).  On a new engine the three cycles of scenario A all
    return.  Cycles 1 and 2 detect no pattern and invoke nothing.  Cycle 3
    detects symbolic-flooding and identity-fragmentation, and also
    recursive-spiral when it starts more than thirty minutes after cycle 1;
    it never detects containment-breach.  When cycle 3 starts within thirty
    minutes of cycle 1, it invokes an intervention of the containment
    category and the containment flag is true afterwards; otherwise it
    invokes a grounding intervention and the flag stays false. *)
Theorem scenario_A_outcome (sid : string) (c1 c2 c3 : Clock) :
  let run := run_cycles (scenario_A c1 c2 c3) (new_LoopBreaker sid) in
  let late := total_seconds_gt (at_update c3 - at_update c1) 1800 in
  exists r1 r2 r3,
    fst run = [ Ret r1; Ret r2; Ret r3 ] /\
    patterns_detected r1 = [] /\ intervention r1 = None /\
    patterns_detected r2 = [] /\ intervention r2 = None /\
    reported (Ret r3) =
      [ "symbolic_flooding"; "identity_fragmentation" ] ++
      (if late then [ "recursive_spiral" ] else []) /\
    ~ In "containment_breach" (reported (Ret r3)) /\
    (exists d, intervention r3 = Some d /\
               d !! "type" =
                 Some (VStr (if late then "grounding" else "containment"))) /\
    active_containment (snd run) = negb late.
Proof.
  cbv zeta. unfold scenario_A. cbn [run_cycles].
  destruct (scenario_A_first_two sid c1 c2) as [Hfirst Hsecond].
  cbv zeta in Hfirst, Hsecond. rewrite Hfirst, Hsecond.
  destruct (scenario_A_third sid (at_update c1) (at_update c2) c3)
    as (r3 & e3 & Hthird & Hreported & Hinvoked & Hflag).
  rewrite Hthird. cbn [fst snd].
  do 3 eexists. split; [reflexivity |].
  repeat (split; [reflexivity |]).
  split; [exact Hreported |]. split; [| split; assumption].
  rewrite Hreported.
  destruct (total_seconds_gt (at_update c3 - at_update c1) 1800); cbn;
    intros H; decompose [or] H; discriminate || contradiction.
Qed.

(** C1, as stated, fails: on a new engine, with the clock at 0, 1 and 2,
    cycle 2 detects no pattern and cycle 3 does not detect
    containment-breach. *)
Lemma scenario_A_not_as_specified :
  ~ scenario_A_as_specified
      (run_cycles
         (scenario_A (Build_Clock 0 0 0) (Build_Clock 1 1 1) (Build_Clock 2 2 2))
         (new_LoopBreaker "session")).
Proof.
  intros (r1 & r2 & r3 & Hrun & _ & Hsecond & _ & Hthird & _).
  assert (Hreported :
            map reported
              (fst (run_cycles
                      (scenario_A (Build_Clock 0 0 0) (Build_Clock 1 1 1)
                                  (Build_Clock 2 2 2))
                      (new_LoopBreaker "session")))
            = [ []; []; [ "symbolic_flooding"; "identity_fragmentation" ] ])
    by (vm_compute; reflexivity).
  rewrite Hrun in Hreported. cbn [map] in Hreported.
  injection Hreported as _ H2 H3.
  unfold reported in Hthird. rewrite H3 in Hthird. cbn in Hthird.
  decompose [or] Hthird; discriminate || contradiction.
Qed.

(** * Further properties *)

(** ** What [detect_patterns] reports *)

Lemma run_detectors_sublist (detectors : list PatternDetector)
    (history : list CognitiveState) (state : CognitiveState) :
  sublist (map detected_pattern (run_detectors detectors history state))
          (map pattern_type detectors).
Proof.
  induction detectors as [|d ds IH]; [constructor |].
  cbn [run_detectors map].
  destruct (threshold_function d history state); cbn [map].
  - apply sublist_skip, IH.
  - apply sublist_cons, IH.
Qed.

Lemma run_detectors_elem (detectors : list PatternDetector)
    (history : list CognitiveState) (state : CognitiveState) (x : Detected) :
  x ∈ run_detectors detectors history state <->
  exists d, d ∈ detectors /\
            threshold_function d history state = true /\
            x = (pattern_type d, confidence_threshold d, detector_description d).
Proof.
  induction detectors as [|d ds IH].
  - cbn. split; [intros H; apply elem_of_nil in H; contradiction |].
    intros (d & Hd & _). apply elem_of_nil in Hd. contradiction.
  - cbn [run_detectors].
    destruct (threshold_function d history state) eqn:Hfire.
    + rewrite elem_of_cons, IH. split.
      * intros [-> | (d' & Hd' & Hf & ->)].
        -- exists d. split; [left | split; [exact Hfire | reflexivity]].
        -- exists d'. split; [right; exact Hd' | split; [exact Hf | reflexivity]].
      * intros (d' & Hd' & Hf & ->). apply elem_of_cons in Hd'.
        destruct Hd' as [-> | Hd']; [left; reflexivity |].
        right. exists d'. auto.
    + rewrite IH. split.
      * intros (d' & Hd' & Hf & ->). exists d'.
        split; [right; exact Hd' | split; [exact Hf | reflexivity]].
      * intros (d' & Hd' & Hf & ->). apply elem_of_cons in Hd'.
        destruct Hd' as [-> | Hd']; [congruence |].
        exists d'. auto.
Qed.

Lemma registered_detectors_fire (history : list CognitiveState)
    (state : CognitiveState) (p : CollapsePattern) :
  p ∈ map detected_pattern (run_detectors initial_detectors history state) <->
  predicate_of p history state = true.
Proof.
  rewrite list_elem_of_fmap. split.
  - intros (x & -> & Hx). apply run_detectors_elem in Hx.
    destruct Hx as (d & Hd & Hfire & ->). unfold initial_detectors in Hd.
    repeat (apply elem_of_cons in Hd; destruct Hd as [-> | Hd]);
      try exact Hfire.
    apply elem_of_nil in Hd. contradiction.
  - intros Hp.
    assert (Hex : exists d, d ∈ initial_detectors /\ pattern_type d = p /\
              threshold_function d = predicate_of p).
    { unfold initial_detectors.
      destruct p; eexists;
        [ split; [apply list_elem_of_here |]
        | split; [do 1 apply list_elem_of_further; apply list_elem_of_here |]
        | split; [do 2 apply list_elem_of_further; apply list_elem_of_here |]
        | split; [do 3 apply list_elem_of_further; apply list_elem_of_here |]
        | split; [do 4 apply list_elem_of_further; apply list_elem_of_here |]
        | split; [do 5 apply list_elem_of_further; apply list_elem_of_here |] ];
        split; reflexivity. }
    destruct Hex as (d & Hd & <- & Hth).
    exists (pattern_type d, confidence_threshold d, detector_description d).
    split; [reflexivity |].
    apply run_detectors_elem. exists d. rewrite Hth. auto.
Qed.

(** X1.  With the registered detectors, [detect_patterns] returns and leaves
    the engine as it is; a pattern is in its result exactly when the
    pattern's predicate holds of the snapshot and the history; the patterns
    of the result follow the order of registration, none twice; and every
    confidence in the result is a number. *)
Theorem detect_patterns_reports_what_fires (state : CognitiveState)
    (self : LoopBreaker) :
  pattern_detectors self = initial_detectors ->
  exists detected,
    detect_patterns state self = (Ret detected, self) /\
    (forall p, p ∈ map detected_pattern detected <->
               predicate_of p (state_history self) state = true) /\
    sublist (map detected_pattern detected) registration_order /\
    NoDup (map detected_pattern detected) /\
    confidences_are_numbers detected.
Proof.
  intros Hdet. rewrite detect_patterns_eq, Hdet.
  eexists. split; [reflexivity |].
  assert (Hsub : sublist
            (map detected_pattern
               (run_detectors initial_detectors (state_history self) state))
            registration_order)
    by apply (run_detectors_sublist initial_detectors).
  split; [| split; [exact Hsub | split]].
  - intros p. apply registered_detectors_fire.
  - apply (sublist_NoDup _ registration_order); [| exact Hsub].
    unfold registration_order. repeat constructor;
      rewrite ?elem_of_cons, ?elem_of_nil; intuition discriminate.
  - apply Forall_forall. intros x Hx. apply run_detectors_elem in Hx.
    destruct Hx as (d & Hd & _ & ->). unfold initial_detectors in Hd.
    repeat (apply elem_of_cons in Hd; destruct Hd as [-> | Hd]);
      try reflexivity.
    apply elem_of_nil in Hd. contradiction.
Qed.

Lemma detect_patterns_reports_what_fires_witness :
  exists detected,
    detect_patterns
      (new_snapshot (metrics 12 0.9 0.3 0.2 0.9 0.8) 2 (new_LoopBreaker "session"))
      (new_LoopBreaker "session")
    = (Ret detected, new_LoopBreaker "session") /\
    NoDup (map detected_pattern detected).
Proof.
  destruct (detect_patterns_reports_what_fires
              (new_snapshot (metrics 12 0.9 0.3 0.2 0.9 0.8) 2
                 (new_LoopBreaker "session"))
              (new_LoopBreaker "session") eq_refl)
    as (detected & Heq & _ & _ & Hnodup & _).
  exists detected. split; assumption.
Defined.

(** ** The primary pattern of a detection *)

Lemma primary_category_of_pattern (patterns : list Detected) :
  primary_category patterns = category_of <$> primary_pattern patterns.
Proof.
  unfold primary_category, primary_pattern.
  destruct (sort_by_confidence patterns) as [|primary rest]; [reflexivity |].
  apply pattern_to_intervention_table.
Qed.

Lemma primary_pattern_registered (history : list CognitiveState)
    (state : CognitiveState) :
  primary_pattern (run_detectors initial_detectors history state) =
  if detect_containment_breach history state then Some CONTAINMENT_BREACH
  else if detect_recursive_spiral history state then Some RECURSIVE_SPIRAL
  else if detect_symbolic_flooding history state then Some SYMBOLIC_FLOODING
  else if detect_meaning_collapse history state then Some MEANING_COLLAPSE
  else if detect_identity_fragmentation history state
       then Some IDENTITY_FRAGMENTATION
  else if detect_temporal_disconnection history state
       then Some TEMPORAL_DISCONNECTION
  else None.
Proof.
  unfold initial_detectors.
  cbn [run_detectors threshold_function pattern_type confidence_threshold
       detector_description].
  destruct (detect_symbolic_flooding history state),
           (detect_identity_fragmentation history state),
           (detect_recursive_spiral history state),
           (detect_meaning_collapse history state),
           (detect_temporal_disconnection history state),
           (detect_containment_breach history state);
    vm_compute; reflexivity.
Qed.

(** X2.  Which registered pattern is primary, and which category is
    selected from, as a function of the detectors that fire:
    containment-breach before recursive-spiral before symbolic-flooding
    before meaning-collapse before identity-fragmentation before
    temporal-disconnection; hence the category is containment when breach
    fires, else grounding when the spiral fires, else containment when
    flooding or collapse fires, else identity-anchor when fragmentation
    fires, else grounding when temporal-disconnection fires. *)
Theorem primary_pattern_by_confidence (history : list CognitiveState)
    (state : CognitiveState) :
  let detected := run_detectors initial_detectors history state in
  primary_pattern detected =
    (if detect_containment_breach history state then Some CONTAINMENT_BREACH
     else if detect_recursive_spiral history state then Some RECURSIVE_SPIRAL
     else if detect_symbolic_flooding history state then Some SYMBOLIC_FLOODING
     else if detect_meaning_collapse history state then Some MEANING_COLLAPSE
     else if detect_identity_fragmentation history state
          then Some IDENTITY_FRAGMENTATION
     else if detect_temporal_disconnection history state
          then Some TEMPORAL_DISCONNECTION
     else None) /\
  primary_category detected =
    (if detect_containment_breach history state then Some CONTAINMENT
     else if detect_recursive_spiral history state then Some GROUNDING
     else if detect_symbolic_flooding history state
             || detect_meaning_collapse history state then Some CONTAINMENT
     else if detect_identity_fragmentation history state
          then Some IDENTITY_ANCHOR
     else if detect_temporal_disconnection history state then Some GROUNDING
     else None) /\
  (detected = [] <-> primary_pattern detected = None).
Proof.
  cbv zeta. split; [apply primary_pattern_registered |]. split.
  - rewrite primary_category_of_pattern, primary_pattern_registered.
    destruct (detect_containment_breach history state),
             (detect_recursive_spiral history state),
             (detect_symbolic_flooding history state),
             (detect_meaning_collapse history state),
             (detect_identity_fragmentation history state),
             (detect_temporal_disconnection history state); reflexivity.
  - unfold primary_pattern. split.
    + intros ->. reflexivity.
    + destruct (sort_by_confidence _) as [|primary rest] eqn:Hsort;
        [| discriminate].
      intros _. apply sort_by_confidence_nil, Hsort.
Qed.

(** ** Thresholds that imply one another *)

Lemma flt_below_trans (a b x : float) :
  PrimFloat.is_nan b = false -> flt a b = false ->
  flt a x = true -> flt b x = true.
Proof.
  intros Hb Hab Hax. destruct (flt b x) eqn:Hbx; [reflexivity |].
  rewrite (flt_neg_trans a b x Hb Hab Hbx) in Hax. discriminate.
Qed.

(** X3.  Meaning-collapse asks more of density and saturation than
    symbolic-flooding does: when it fires on a snapshot of recursion depth
    above 5, symbolic-flooding fires too, and meaning-collapse is then not
    the primary pattern. *)
Theorem meaning_collapse_implies_flooding (history : list CognitiveState)
    (state : CognitiveState) :
  detect_meaning_collapse history state = true ->
  5 < recursion_depth state ->
  detect_symbolic_flooding history state = true /\
  primary_pattern (run_detectors initial_detectors history state)
    <> Some MEANING_COLLAPSE.
Proof.
  intros Hcollapse Hdepth.
  assert (Hflood : detect_symbolic_flooding history state = true).
  { unfold detect_meaning_collapse in Hcollapse.
    rewrite !andb_true_iff in Hcollapse.
    destruct Hcollapse as [[Hsat _] Hdens].
    unfold detect_symbolic_flooding. rewrite !andb_true_iff.
    unfold fgt in *. repeat split.
    - apply (flt_below_trans 0.9 0.8); [reflexivity | reflexivity | exact Hdens].
    - apply Z.ltb_lt, Hdepth.
    - apply (flt_below_trans 0.9 0.7); [reflexivity | reflexivity | exact Hsat]. }
  split; [exact Hflood |].
  rewrite primary_pattern_registered, Hflood.
  destruct (detect_containment_breach history state),
           (detect_recursive_spiral history state); discriminate.
Qed.

Lemma meaning_collapse_implies_flooding_witness :
  let state :=
    new_snapshot (metrics 6 0.95 0.2 0.8 0.5 0.92) 0 (new_LoopBreaker "session") in
  detect_symbolic_flooding [state] state = true.
Proof.
  cbv zeta.
  apply (meaning_collapse_implies_flooding
           [new_snapshot (metrics 6 0.95 0.2 0.8 0.5 0.92) 0
              (new_LoopBreaker "session")]);
    [vm_compute; reflexivity | vm_compute; reflexivity].
Defined.

(** ** Cycles in sessions *)

Lemma cycle_selection_select (kw : Updates) (t1 t2 : Z) (self : LoopBreaker) :
  cycle_selection kw t1 t2 self =
  match run_detectors (pattern_detectors self)
          (state_history self ++ [new_snapshot kw t1 self])
          (new_snapshot kw t1 self)
  with
  | [] => None
  | d :: ds =>
      match fst (select_intervention (d :: ds) t2 (snd (update_state kw t1 self)))
      with
      | Ret selected => selected
      | Exc _ => None
      end
  end.
Proof.
  unfold cycle_selection.
  unfold mbind, M_bind. rewrite update_state_eq. cbn [fst snd].
  rewrite detect_patterns_eq. reflexivity.
Qed.

Lemma cycle_selection_eq (kw : Updates) (t1 t2 : Z) (self : LoopBreaker) :
  cycle_selection kw t1 t2 self =
  match run_detectors (pattern_detectors self)
          (state_history self ++ [new_snapshot kw t1 self])
          (new_snapshot kw t1 self)
  with
  | [] => None
  | d :: ds =>
      match primary_category (d :: ds) with
      | None => None
      | Some ty =>
          match interventions self !! ty with
          | None => None
          | Some candidates => best_available t2 candidates
          end
      end
  end.
Proof.
  rewrite cycle_selection_select.
  destruct (run_detectors _ _ _) as [|d ds]; [reflexivity |].
  rewrite select_intervention_eq.
  destruct (primary_category (d :: ds)) as [ty|]; [| reflexivity].
  change (interventions (snd (update_state kw t1 self))) with (interventions self).
  destruct (interventions self !! ty); reflexivity.
Qed.

Lemma best_available_none (now : Z) (candidates : list Intervention) :
  best_available now candidates = None <->
  forall y, y ∈ candidates -> cooled_down now y = false.
Proof.
  pose proof (best_available_spec now candidates) as Hspec.
  destruct (best_available now candidates) as [x|].
  - split; [discriminate |]. intros Hall.
    destruct Hspec as (before & rest & -> & Hcool & _).
    rewrite Hall in Hcool; [discriminate |].
    rewrite elem_of_app. right. left.
  - split; [intros _; exact Hspec | reflexivity].
Qed.

Lemma execute_intervention_record (intervention : Intervention)
    (state : CognitiveState) (now : Z) (self : LoopBreaker) :
  fst (execute_intervention intervention state now self) =
  Ret (execution_record self intervention state now).
Proof. apply execute_intervention_result. Qed.

Lemma process_cycle_session (kw : Updates) (t1 t2 t3 : Z) (self : LoopBreaker) :
  well_formed self ->
  fst (process_cycle kw t1 t2 t3 self) =
  Ret (let current := new_snapshot kw t1 self in
       let record :=
         cycle_record self current
           (run_detectors initial_detectors
              (state_history self ++ [current]) current) in
       match cycle_selection kw t1 t2 self with
       | Some x => with_intervention record (execution_record self x current t3)
       | None => record
       end).
Proof.
  intros Hwf. cbv zeta.
  rewrite process_cycle_eq, cycle_selection_select.
  destruct Hwf as [Hdet Hcat]. rewrite Hdet.
  destruct (run_detectors _ _ _) as [|d ds]; [reflexivity |].
  assert (Hwf1 : well_formed (snd (update_state kw t1 self)))
    by (split; assumption).
  destruct (select_intervention_well_formed (d :: ds) t2 _ Hwf1)
    as (selected & -> & _).
  cbn [fst]. destruct selected as [x|]; [| reflexivity].
  rewrite execute_intervention_record. reflexivity.
Qed.

Lemma generate_recommendations_returns `{Builtins} (self : LoopBreaker) :
  returns (_generate_recommendations self).
Proof.
  unfold returns, _generate_recommendations. run_monad.
  destruct (state_history self); eexists; reflexivity.
Qed.

Lemma get_session_summary_returns `{Builtins} (self : LoopBreaker) :
  returns (get_session_summary self).
Proof.
  unfold returns, get_session_summary. run_monad.
  destruct (state_history self) as [|first rest]; [eexists; reflexivity |].
  destruct (generate_recommendations_returns self) as [recs Hrecs].
  destruct (_generate_recommendations self) as [o self'].
  cbn [fst] in Hrecs. subst o. eexists. reflexivity.
Qed.

(** X4.  In a session no call raises: the key and index errors of
    [select_intervention] cannot occur.  The record [process_cycle] returns
    carries the time read, the session's identifier, the new snapshot and
    the reports of the detectors that fire, in registration order.  Its
    intervention entry is the record of the selected intervention's
    execution; it is none exactly when no pattern is detected or every
    intervention of the primary pattern's category is cooling down. *)
Theorem sessions_never_raise `{Builtins} (self : LoopBreaker) :
  reachable self ->
  (forall c : Call, call_returns c self) /\
  (forall (kw : Updates) (t1 t2 t3 : Z),
     let current := new_snapshot kw t1 self in
     let detected :=
       run_detectors initial_detectors (state_history self ++ [current]) current in
     exists r,
       fst (process_cycle kw t1 t2 t3 self) = Ret r /\
       cycle_timestamp r = t1 /\
       cycle_session_id r = session_id self /\
       cycle_state r = current /\
       patterns_detected r = map report_pattern detected /\
       intervention r =
         (fun x => execution_record self x current t3)
           <$> cycle_selection kw t1 t2 self /\
       (intervention r = None <->
        detected = [] \/
        exists ty candidates,
          primary_category detected = Some ty /\
          interventions self !! ty = Some candidates /\
          forall y, y ∈ candidates -> cooled_down t2 y = false)).
Proof.
  intros Hreach.
  pose proof (reachable_by_well_formed _ self Hreach) as Hwf.
  split.
  - intros [kw now | state | patterns now | x state now | kw t1 t2 t3 |];
      cbn [call_returns]; unfold returns.
    + rewrite update_state_eq. eexists. reflexivity.
    + rewrite detect_patterns_eq. eexists. reflexivity.
    + destruct (select_intervention_well_formed patterns now self Hwf)
        as (selected & -> & _). eexists. reflexivity.
    + apply execute_intervention_returns.
    + rewrite (process_cycle_session kw t1 t2 t3 self Hwf). eexists. reflexivity.
    + apply get_session_summary_returns.
  - intros kw t1 t2 t3 current detected.
    rewrite (process_cycle_session kw t1 t2 t3 self Hwf). cbv zeta.
    fold current. fold detected.
    eexists. split; [reflexivity |].
    assert (Hsel : cycle_selection kw t1 t2 self =
              match detected with
              | [] => None
              | d :: ds =>
                  match primary_category (d :: ds) with
                  | None => None
                  | Some ty =>
                      match interventions self !! ty with
                      | None => None
                      | Some candidates => best_available t2 candidates
                      end
                  end
              end).
    { rewrite cycle_selection_eq. destruct Hwf as [-> _]. reflexivity. }
    destruct (cycle_selection kw t1 t2 self) as [x|] eqn:Hx.
    + repeat (split; [reflexivity |]). split; [discriminate |].
      intros [Hnone | (ty & candidates & Hty & Hlookup & Hall)].
      * rewrite Hnone in Hsel. discriminate.
      * destruct detected as [|d ds]; [discriminate |].
        rewrite Hty, Hlookup in Hsel.
        symmetry in Hsel. apply best_available_none in Hall. congruence.
    + repeat (split; [reflexivity |]). split; [| reflexivity].
      intros _. destruct detected as [|d ds]; [left; reflexivity |].
      right. pose proof (primary_category_spec (d :: ds)) as Hprim.
      destruct (primary_category (d :: ds)) as [ty|]; [| discriminate].
      destruct Hprim as (primary & _ & ->).
      destruct Hwf as [_ [f Hcat]].
      destruct (stamped_mapped f _ (category_of_mapped (detected_pattern primary)))
        as (candidates & Hlookup & _).
      rewrite Hcat, Hlookup in Hsel.
      exists (category_of (detected_pattern primary)), candidates.
      split; [reflexivity |]. split; [rewrite Hcat; exact Hlookup |].
      apply best_available_none. symmetry. exact Hsel.
Qed.

Lemma after_all_reachable `{Builtins} (calls : list Call) (self : LoopBreaker) :
  reachable self -> reachable (after_all calls self).
Proof.
  revert self. induction calls as [|c calls IH]; intros self Hreach.
  - exact Hreach.
  - apply IH. apply reachable_after; [exact I | exact Hreach].
Qed.

Lemma sessions_never_raise_witness :
  returns
    (process_cycle (metrics 12 0.9 0.3 0.2 0.9 0.8) 2 2 2
       (@after_all left_to_right
          [ call_process_cycle (metrics 2 0.3 0.9 0.8 0.2 0.2) 0 0 0;
            call_process_cycle (metrics 6 0.7 0.6 0.5 0.6 0.6) 1 1 1 ]
          (new_LoopBreaker "session"))).
Proof.
  apply (proj1 (@sessions_never_raise left_to_right _
                  (@after_all_reachable left_to_right _ _
                     (@reachable_new left_to_right _ "session")))
               (call_process_cycle (metrics 12 0.9 0.3 0.2 0.9 0.8) 2 2 2)).
Defined.

(** ** A category missing from the catalog *)

(** X5.  When the catalog holds no list for the category of the primary
    pattern, [select_intervention] raises a key error and leaves the engine
    as it is; [process_cycle] raises the same error after the snapshot has
    been appended to the history, with the catalog and the containment flag
    as they were. *)
Theorem missing_category_raises_key_error (kw : Updates) (t1 t2 t3 : Z)
    (self : LoopBreaker) (ty : InterventionType) :
  let current := new_snapshot kw t1 self in
  let detected :=
    run_detectors (pattern_detectors self) (state_history self ++ [current])
      current in
  primary_category detected = Some ty ->
  interventions self !! ty = None ->
  select_intervention detected t2 self = (Exc (KeyError ty), self) /\
  fst (process_cycle kw t1 t2 t3 self) = Exc (KeyError ty) /\
  state_history (snd (process_cycle kw t1 t2 t3 self)) =
    state_history self ++ [current] /\
  interventions (snd (process_cycle kw t1 t2 t3 self)) = interventions self /\
  active_containment (snd (process_cycle kw t1 t2 t3 self)) =
    active_containment self.
Proof.
  intros current detected Hprimary Hmissing.
  split; [rewrite select_intervention_eq, Hprimary, Hmissing; reflexivity |].
  rewrite process_cycle_eq. fold current. fold detected.
  destruct detected as [|d ds] eqn:Hdetected; [discriminate |].
  rewrite select_intervention_eq, Hprimary.
  change (interventions (snd (update_state kw t1 self))) with (interventions self).
  rewrite Hmissing. repeat split; reflexivity.
Qed.

Lemma missing_category_raises_key_error_witness :
  fst (process_cycle (metrics 20 0.5 0.5 0.5 0.5 0.5) 0 0 0
         engine_without_containment) = Exc (KeyError CONTAINMENT) /\
  length (state_history
            (snd (process_cycle (metrics 20 0.5 0.5 0.5 0.5 0.5) 0 0 0
                    engine_without_containment))) = 1%nat.
Proof.
  destruct (missing_category_raises_key_error
              (metrics 20 0.5 0.5 0.5 0.5 0.5) 0 0 0
              engine_without_containment CONTAINMENT)
    as (_ & Hraise & Hhistory & _).
  - vm_compute. reflexivity.
  - vm_compute. reflexivity.
  - split; [exact Hraise |]. rewrite Hhistory. reflexivity.
Defined.

(** ** A breach leads to containment *)

Lemma cycle_selection_cooled (kw : Updates) (t1 t2 : Z) (self : LoopBreaker)
    (f : Z -> option Z) (x : Intervention) :
  interventions self = stamped f ->
  cycle_selection kw t1 t2 self = Some x ->
  cooled_down t2 x = true /\
  exists x0, x0 ∈ initial_entries /\ x = restamp f x0.
Proof.
  intros Hcat. rewrite cycle_selection_eq.
  destruct (run_detectors _ _ _) as [|d ds]; [discriminate |].
  destruct (primary_category (d :: ds)) as [ty|]; [| discriminate].
  destruct (interventions self !! ty) as [candidates|] eqn:Hlookup;
    [| discriminate].
  intros Hbest. pose proof (best_available_spec t2 candidates) as Hspec.
  rewrite Hbest in Hspec.
  pose proof (is_best_available_elem _ _ _ Hspec) as Hin.
  destruct Hspec as (before & rest & _ & Hcool & _).
  split; [exact Hcool |].
  rewrite Hcat in Hlookup. exact (stamped_lookup_entries f ty candidates x Hlookup Hin).
Qed.

(** X6.  In a session, when the new snapshot meets the condition of
    containment-breach, the cycle selects among the containment interventions
    of the catalog: it invokes the eligible one of highest priority, which is
    of the containment category, and the containment flag is true afterwards;
    it invokes nothing only when every containment intervention is cooling
    down. *)
Theorem breach_selects_containment `{Builtins} (self : LoopBreaker)
    (kw : Updates) (t1 t2 t3 : Z) :
  reachable self ->
  detect_containment_breach
    (state_history self ++ [new_snapshot kw t1 self]) (new_snapshot kw t1 self)
    = true ->
  exists candidates,
    interventions self !! CONTAINMENT = Some candidates /\
    cycle_selection kw t1 t2 self = best_available t2 candidates /\
    (forall x, cycle_selection kw t1 t2 self = Some x ->
       intervention_type x = CONTAINMENT /\
       active_containment (snd (process_cycle kw t1 t2 t3 self)) = true) /\
    (cycle_selection kw t1 t2 self = None <->
     forall y, y ∈ candidates -> cooled_down t2 y = false).
Proof.
  intros Hreach Hbreach.
  destruct (reachable_by_well_formed _ self Hreach) as [Hdet [f Hcat]].
  destruct (stamped_mapped f CONTAINMENT) as (candidates & Hlookup & Hall);
    [left; reflexivity |].
  rewrite <- Hcat in Hlookup.
  assert (Hsel : cycle_selection kw t1 t2 self = best_available t2 candidates).
  { rewrite cycle_selection_eq, Hdet.
    pose proof (primary_pattern_registered
                  (state_history self ++ [new_snapshot kw t1 self])
                  (new_snapshot kw t1 self)) as Hprimary.
    rewrite Hbreach in Hprimary.
    pose proof (primary_category_of_pattern
                  (run_detectors initial_detectors
                     (state_history self ++ [new_snapshot kw t1 self])
                     (new_snapshot kw t1 self))) as Hcategory.
    rewrite Hprimary in Hcategory.
    change (category_of <$> Some CONTAINMENT_BREACH) with (Some CONTAINMENT)
      in Hcategory.
    destruct (run_detectors initial_detectors _ _) as [|d ds];
      [discriminate |].
    rewrite Hcategory, Hlookup. reflexivity. }
  exists candidates. split; [exact Hlookup |]. split; [exact Hsel |]. split.
  - intros x Hx.
    assert (Hty : intervention_type x = CONTAINMENT).
    { rewrite Hsel in Hx. pose proof (best_available_spec t2 candidates) as Hspec.
      rewrite Hx in Hspec. apply is_best_available_elem, Hall in Hspec.
      apply Hspec. }
    split; [exact Hty |].
    rewrite process_cycle_engine. cbv zeta. rewrite Hx.
    unfold flag_containment.
    destruct (decide (intervention_type x = CONTAINMENT)); [reflexivity |].
    contradiction.
  - rewrite Hsel. apply best_available_none.
Qed.

Lemma breach_selects_containment_witness :
  exists candidates,
    interventions (new_LoopBreaker "session") !! CONTAINMENT = Some candidates /\
    cycle_selection (metrics 20 0.5 0.5 0.5 0.5 0.5) 0 0 (new_LoopBreaker "session")
      = best_available 0 candidates.
Proof.
  destruct (@breach_selects_containment left_to_right
              (new_LoopBreaker "session") (metrics 20 0.5 0.5 0.5 0.5 0.5) 0 0 0
              (@reachable_new left_to_right _ "session"))
    as (candidates & Hlookup & Hsel & _).
  - vm_compute. reflexivity.
  - exists candidates. split; assumption.
Defined.

(** ** Cooldowns from one cycle to the next *)

Lemma process_cycle_stamps (kw : Updates) (t1 t2 t3 : Z) (self : LoopBreaker)
    (f : Z -> option Z) (x : Intervention) :
  interventions self = stamped f ->
  cycle_selection kw t1 t2 self = Some x ->
  interventions (snd (process_cycle kw t1 t2 t3 self)) =
  stamped (stamp_at (obj_id x) t3 f).
Proof.
  intros Hcat Hsel. rewrite process_cycle_engine. cbv zeta. rewrite Hsel.
  rewrite flag_containment_interventions, execute_intervention_engine.
  cbn [snd set_interventions interventions update_state].
  change (interventions (snd (update_state kw t1 self))) with (interventions self).
  rewrite Hcat. apply touch_stamped.
Qed.

(** X7.  In a session, a cycle does not invoke the intervention the
    previous cycle invoked when it selects within that intervention's
    cooldown, counted from the time the previous cycle executed it. *)
Theorem consecutive_cycles_respect_cooldown `{Builtins} (self : LoopBreaker)
    (kw : Updates) (t1 t2 t3 : Z) (kw' : Updates) (t1' t2' : Z)
    (x : Intervention) :
  reachable self ->
  cycle_selection kw t1 t2 self = Some x ->
  t2' - t3 <= timedelta_minutes (cooldown_minutes x) ->
  forall y,
    cycle_selection kw' t1' t2' (snd (process_cycle kw t1 t2 t3 self)) = Some y ->
    obj_id y <> obj_id x.
Proof.
  intros Hreach Hsel Hsoon y Hnext Hid.
  destruct (reachable_by_well_formed _ self Hreach) as [_ [f Hcat]].
  destruct (cycle_selection_cooled _ _ _ _ f x Hcat Hsel)
    as (_ & x0 & Hx0 & ->).
  pose proof (process_cycle_stamps kw t1 t2 t3 self f _ Hcat Hsel) as Hcat'.
  destruct (cycle_selection_cooled _ _ _ _ _ y Hcat' Hnext)
    as (Hcool & y0 & Hy0 & ->).
  cbn [obj_id restamp] in Hid, Hcool, Hcat', Hsoon.
  assert (Heq : y0 = x0) by (apply initial_entries_distinct; assumption).
  subst y0. unfold cooled_down, restamp, stamp_at in Hcool.
  cbn [last_executed cooldown_minutes obj_id] in Hcool.
  destruct (decide (obj_id x0 = obj_id x0)); [| congruence].
  apply Z.ltb_lt in Hcool. cbn [cooldown_minutes restamp] in Hsoon. lia.
Qed.

Lemma consecutive_cycles_respect_cooldown_witness :
  cycle_selection (metrics 20 0.5 0.5 0.5 0.5 0.5) 0 0 (new_LoopBreaker "session")
    = Some emergency_intervention /\
  cycle_selection (metrics 20 0.5 0.5 0.5 0.5 0.5) 1 1
    (snd (process_cycle (metrics 20 0.5 0.5 0.5 0.5 0.5) 0 0 0
            (new_LoopBreaker "session"))) <> Some emergency_intervention.
Proof.
  split; [reflexivity |]. intros Hnext.
  apply (@consecutive_cycles_respect_cooldown left_to_right
           (new_LoopBreaker "session") (metrics 20 0.5 0.5 0.5 0.5 0.5) 0 0 0
           (metrics 20 0.5 0.5 0.5 0.5 0.5) 1 1 emergency_intervention
           (@reachable_new left_to_right _ "session") eq_refl
           ltac:(vm_compute; discriminate) emergency_intervention Hnext).
  reflexivity.
Defined.

(** ** A cycle without metrics *)

(** X8.  With the registered detectors, a cycle called with no metric
    records the snapshot of the defaults and nothing else: whatever the
    history and the time, no detector fires on the defaults, so nothing is
    selected or executed and the catalog and the flag stay as they are. *)
Theorem cycle_without_metrics_is_inert (t1 t2 t3 : Z) (self : LoopBreaker) :
  pattern_detectors self = initial_detectors ->
  exists r,
    fst (process_cycle no_metrics t1 t2 t3 self) = Ret r /\
    patterns_detected r = [] /\ intervention r = None /\
    state_history (snd (process_cycle no_metrics t1 t2 t3 self)) =
      state_history self ++ [cycle_state r] /\
    interventions (snd (process_cycle no_metrics t1 t2 t3 self)) =
      interventions self /\
    active_containment (snd (process_cycle no_metrics t1 t2 t3 self)) =
      active_containment self.
Proof.
  intros Hdet. rewrite process_cycle_eq, Hdet.
  set (current := new_snapshot no_metrics t1 self).
  set (h := state_history self ++ [current]).
  assert (Hnone : run_detectors initial_detectors h current = []).
  { unfold initial_detectors.
    cbn [run_detectors threshold_function pattern_type confidence_threshold
         detector_description].
    assert (H2 : detect_identity_fragmentation h current = false).
    { unfold detect_identity_fragmentation.
      destruct (length h <? 3)%nat; reflexivity. }
    rewrite H2. reflexivity. }
  rewrite Hnone. eexists. repeat split; reflexivity.
Qed.

Lemma cycle_without_metrics_is_inert_witness :
  exists r,
    fst (process_cycle no_metrics 5 5 5 (new_LoopBreaker "session")) = Ret r /\
    patterns_detected r = [].
Proof.
  destruct (cycle_without_metrics_is_inert 5 5 5 (new_LoopBreaker "session")
              eq_refl) as (r & Hr & Hnone & _).
  exists r. split; assumption.
Defined.

(** ** The records of the catalog's actions *)

Lemma catalog_actions_return (x0 : Intervention) (state : CognitiveState) :
  x0 ∈ initial_entries ->
  exists d0,
    execute x0 state = Returned d0 /\
    d0 !! "type" = Some (VStr (InterventionType_value (intervention_type x0))) /\
    d0 !! "error" = None /\ d0 !! "fallback" = None.
Proof.
  unfold initial_entries. rewrite !elem_of_cons, elem_of_nil.
  intros Hx0.
  repeat (destruct Hx0 as [-> | Hx0]); try contradiction;
    (eexists; split; [reflexivity |]; repeat split; vm_compute; reflexivity).
Qed.

(** X9.  In a session the intervention entry of a cycle's record is never
    the degraded record: the actions of the catalog return, and the entry
    holds under ["type"] the name of the invoked intervention's category —
    containment, identity_anchor or grounding —, no ["error"] and no
    ["fallback"], and the identity, the execution time and the session's
    identifier set by [execute_intervention]. *)
Theorem session_interventions_succeed `{Builtins} (self : LoopBreaker)
    (kw : Updates) (t1 t2 t3 : Z) (r : CycleResult) (d : gmap string Value) :
  reachable self ->
  fst (process_cycle kw t1 t2 t3 self) = Ret r ->
  intervention r = Some d ->
  exists x,
    cycle_selection kw t1 t2 self = Some x /\
    mapped_category (intervention_type x) /\
    d !! "type" = Some (VStr (InterventionType_value (intervention_type x))) /\
    d !! "error" = None /\ d !! "fallback" = None /\
    d !! "intervention_id" = Some (VInt (obj_id x)) /\
    d !! "executed_at" = Some (VTime t3) /\
    d !! "session_id" = Some (VStr (session_id self)).
Proof.
  intros Hreach Hr Hd.
  pose proof (reachable_by_well_formed _ self Hreach) as Hwf.
  rewrite (process_cycle_session kw t1 t2 t3 self Hwf) in Hr.
  cbv zeta in Hr. injection Hr as <-.
  destruct (cycle_selection kw t1 t2 self) as [x|] eqn:Hsel;
    [| discriminate].
  cbn [intervention with_intervention] in Hd. injection Hd as <-.
  exists x. split; [reflexivity |].
  destruct (cycle_selection_well_formed _ _ _ _ _ Hwf Hsel) as [Hmapped _].
  split; [exact Hmapped |].
  destruct Hwf as [_ [f Hcat]].
  destruct (cycle_selection_cooled _ _ _ _ f x Hcat Hsel)
    as (_ & x0 & Hx0 & ->).
  destruct (catalog_actions_return x0 (new_snapshot kw t1 self) Hx0)
    as (d0 & Hexec & Htype & Herror & Hfallback).
  unfold execution_record. cbn [execute restamp intervention_type obj_id].
  rewrite Hexec.
  repeat split;
    repeat (rewrite lookup_insert_ne by discriminate);
    try rewrite lookup_insert_eq; assumption || reflexivity.
Qed.

Lemma session_interventions_succeed_witness :
  exists r d x,
    fst (process_cycle (metrics 20 0.5 0.5 0.5 0.5 0.5) 0 0 0
           (new_LoopBreaker "session")) = Ret r /\
    intervention r = Some d /\
    cycle_selection (metrics 20 0.5 0.5 0.5 0.5 0.5) 0 0
      (new_LoopBreaker "session") = Some x /\
    d !! "error" = None.
Proof.
  assert (Hrun : exists r d,
            fst (process_cycle (metrics 20 0.5 0.5 0.5 0.5 0.5) 0 0 0
                   (new_LoopBreaker "session")) = Ret r /\
            intervention r = Some d).
  { rewrite process_cycle_session by apply new_LoopBreaker_well_formed.
    cbv zeta.
    assert (Hsel : cycle_selection (metrics 20 0.5 0.5 0.5 0.5 0.5) 0 0
                     (new_LoopBreaker "session") = Some emergency_intervention)
      by reflexivity.
    rewrite Hsel. eexists. eexists. split; reflexivity. }
  destruct Hrun as (r & d & Hr & Hd).
  destruct (@session_interventions_succeed left_to_right
              (new_LoopBreaker "session") (metrics 20 0.5 0.5 0.5 0.5 0.5) 0 0 0
              r d (@reachable_new left_to_right _ "session") Hr Hd)
    as (x & Hx & _ & _ & Herror & _).
  exists r, d, x. auto.
Defined.

(** ** The times of the history *)

Lemma after_recorded `{Builtins} (c : Call) (self : LoopBreaker) :
  exists snapshots,
    state_history (after c self) = state_history self ++ snapshots /\
    map timestamp snapshots = recorded_at c.
Proof.
  assert (Hnone : forall self', state_history self' = state_history self ->
            exists snapshots,
              state_history self' = state_history self ++ snapshots /\
              map timestamp snapshots = []).
  { intros self' ->. exists []. rewrite app_nil_r. split; reflexivity. }
  destruct c as [kw now | state | patterns now | iv state now | kw t1 t2 t3 |];
    cbn [after recorded_at].
  - exists [new_snapshot kw now self]. split; [reflexivity |].
    reflexivity.
  - apply Hnone. reflexivity.
  - apply Hnone. rewrite select_intervention_engine. reflexivity.
  - apply Hnone. rewrite execute_intervention_engine. reflexivity.
  - exists [new_snapshot kw t1 self]. split.
    + rewrite process_cycle_engine. cbv zeta.
      destruct (cycle_selection kw t1 t2 self) as [iv|]; [| reflexivity].
      rewrite flag_containment_history, execute_intervention_engine. reflexivity.
    + reflexivity.
  - apply Hnone. rewrite get_session_summary_engine. reflexivity.
Qed.

Lemma after_all_recorded `{Builtins} (calls : list Call) (self : LoopBreaker) :
  exists snapshots,
    state_history (after_all calls self) = state_history self ++ snapshots /\
    map timestamp snapshots = recorded_times calls.
Proof.
  revert self. induction calls as [|c calls IH]; intros self.
  - exists []. rewrite app_nil_r. split; reflexivity.
  - destruct (after_recorded c self) as (s1 & Hh1 & Ht1).
    destruct (IH (after c self)) as (s2 & Hh2 & Ht2).
    exists (s1 ++ s2).
    change (after_all (c :: calls) self) with (after_all calls (after c self)).
    split.
    + rewrite Hh2, Hh1, app_assoc. reflexivity.
    + unfold recorded_times in *. cbn [map concat].
      rewrite map_app, Ht1, Ht2. reflexivity.
Qed.

Lemma get_session_summary_empty `{Builtins} (self : LoopBreaker) :
  fst (get_session_summary self) = Ret NoSessionData <-> state_history self = [].
Proof.
  unfold get_session_summary. run_monad.
  destruct (state_history self) as [|first rest].
  - split; reflexivity.
  - destruct (generate_recommendations_returns self) as [recs Hrecs].
    destruct (_generate_recommendations self) as [o self'].
    cbn [fst] in Hrecs. subst o. cbn [fst]. split; discriminate.
Qed.

Lemma get_session_summary_eq `{Builtins} (self : LoopBreaker)
    (s : SessionSummary) :
  fst (get_session_summary self) = Ret (Summary s) ->
  exists first rest,
    state_history self = first :: rest /\
    fst (_generate_recommendations self) = Ret (recommendations s) /\
    s = {| summary_session_id := session_id self;
           summary_duration := session_duration (List.last (first :: rest) first);
           total_states_recorded := length (first :: rest);
           interventions_executed := executed_count self;
           average_coherence := round2 (mean_coherence (first :: rest));
           maximum_recursion_depth :=
             max_of (recursion_depth first) (map recursion_depth rest);
           containment_activated := active_containment self;
           recommendations := recommendations s |}.
Proof.
  unfold get_session_summary. run_monad.
  destruct (state_history self) as [|first rest] eqn:Hh; [discriminate |].
  destruct (generate_recommendations_returns self) as [recs Hrecs].
  destruct (_generate_recommendations self) as [o self'].
  cbn [fst] in Hrecs. subst o. cbn [fst].
  intros Hs. injection Hs as <-. exists first, rest.
  split; [reflexivity |]. split; reflexivity.
Qed.

(** X10.  The history only grows.  After any sequence of calls the history
    of the engine extends the history before it, and the timestamps added
    are, in order, the clock readings of the [update_state] calls and of the
    cycles of the sequence; no other call records a snapshot.  Hence the
    summary of a session reports that there is no session data exactly when
    the session made no such call, and otherwise [total_states_recorded] is
    the number of these calls. *)
Theorem history_is_append_only `{Builtins} (calls : list Call)
    (self : LoopBreaker) :
  state_history self `prefix_of` state_history (after_all calls self) /\
  map timestamp (state_history (after_all calls self)) =
    map timestamp (state_history self) ++ recorded_times calls /\
  (forall sid,
     fst (get_session_summary (after_all calls (new_LoopBreaker sid)))
       = Ret NoSessionData <-> recorded_times calls = []) /\
  (forall sid s,
     fst (get_session_summary (after_all calls (new_LoopBreaker sid)))
       = Ret (Summary s) ->
     total_states_recorded s = length (recorded_times calls)).
Proof.
  destruct (after_all_recorded calls self) as (snapshots & Hh & Ht).
  split; [exists snapshots; exact Hh |].
  split; [rewrite Hh, map_app, Ht; reflexivity |].
  split.
  - intros sid. rewrite get_session_summary_empty.
    destruct (after_all_recorded calls (new_LoopBreaker sid)) as (l & Hl & Hlt).
    rewrite Hl, <- Hlt. cbn [state_history new_LoopBreaker app].
    destruct l; cbn; split; congruence.
  - intros sid s Hs.
    destruct (get_session_summary_eq _ s Hs) as (first & rest & Hfr & _ & ->).
    cbn [total_states_recorded]. rewrite <- Hfr.
    destruct (after_all_recorded calls (new_LoopBreaker sid)) as (l & Hl & Hlt).
    rewrite Hl, <- Hlt. cbn [state_history new_LoopBreaker app].
    rewrite length_map. reflexivity.
Qed.

Lemma history_is_append_only_witness :
  exists s,
    fst (@get_session_summary left_to_right
           (@after_all left_to_right
              [ call_update_state (coherence_only 0.9) 10;
                call_get_session_summary;
                call_process_cycle no_metrics 20 21 22 ]
              (new_LoopBreaker "session"))) = Ret (Summary s) /\
    total_states_recorded s = 2%nat.
Proof.
  pose proof (@history_is_append_only left_to_right
                [ call_update_state (coherence_only 0.9) 10;
                  call_get_session_summary;
                  call_process_cycle no_metrics 20 21 22 ]
                (new_LoopBreaker "session")) as (_ & _ & Hnone & Hcount).
  destruct (@get_session_summary_returns left_to_right
              (@after_all left_to_right
                 [ call_update_state (coherence_only 0.9) 10;
                   call_get_session_summary;
                   call_process_cycle no_metrics 20 21 22 ]
                 (new_LoopBreaker "session"))) as [[|s] Hs].
  - apply (Hnone "session") in Hs. discriminate Hs.
  - exists s. split; [exact Hs |]. apply (Hcount "session" s Hs).
Defined.

(** ** The aggregates of the summary *)

Lemma max_of_spec (first : Z) (rest : list Z) :
  max_of first rest ∈ first :: rest /\
  forall z, z ∈ first :: rest -> z <= max_of first rest.
Proof.
  unfold max_of. revert first.
  induction rest as [|a rest IH]; intros first; cbn [fold_left].
  - split; [left |]. intros z Hz. apply list_elem_of_singleton in Hz. lia.
  - destruct (IH (Z.max first a)) as [Hin Hle]. split.
    + apply elem_of_cons in Hin. destruct Hin as [Hin | Hin].
      * rewrite Hin. destruct (Z.max_spec first a) as [[_ ->] | [_ ->]].
        -- right. left.
        -- left.
      * right. right. exact Hin.
    + intros z Hz.
      assert (Hmax : Z.max first a <= fold_left Z.max rest (Z.max first a))
        by (apply Hle; left).
      rewrite !elem_of_cons in Hz. destruct Hz as [-> | [-> | Hz]]; [lia | lia |].
      apply Hle. right. exact Hz.
Qed.

Lemma last_of_history {A} (l : list A) (d : A) :
  l <> [] -> last l = Some (List.last l d).
Proof.
  induction l as [|a l IH]; [congruence |]. intros _.
  destruct l as [|b l]; [reflexivity |].
  change (last (a :: b :: l)) with (last (b :: l)).
  change (List.last (a :: b :: l) d) with (List.last (b :: l) d).
  apply IH. discriminate.
Qed.

(** X11.  [get_session_summary] reports that there is no session data
    exactly when the history is empty.  Otherwise the summary carries the
    session's identifier and the number of snapshots;
    [maximum_recursion_depth] is the depth of some snapshot and no snapshot
    is deeper; the duration is the [session_duration] of the last snapshot,
    which in a session is the time from the first snapshot to the last; the
    average is the rounded mean of the coherence scores; the flag and the
    recommendations are those of the engine. *)
Theorem summary_aggregates `{Builtins} (self : LoopBreaker) :
  (fst (get_session_summary self) = Ret NoSessionData <->
   state_history self = []) /\
  (forall s, fst (get_session_summary self) = Ret (Summary s) ->
     summary_session_id s = session_id self /\
     total_states_recorded s = length (state_history self) /\
     (exists snapshot, snapshot ∈ state_history self /\
        maximum_recursion_depth s = recursion_depth snapshot) /\
     (forall snapshot, snapshot ∈ state_history self ->
        recursion_depth snapshot <= maximum_recursion_depth s) /\
     (exists latest, last (state_history self) = Some latest /\
        summary_duration s = session_duration latest /\
        (reachable self ->
         exists first, head (state_history self) = Some first /\
           summary_duration s = timestamp latest - timestamp first)) /\
     average_coherence s = round2 (mean_coherence (state_history self)) /\
     containment_activated s = active_containment self /\
     fst (_generate_recommendations self) = Ret (recommendations s)).
Proof.
  split; [apply get_session_summary_empty |].
  intros s Hs.
  destruct (get_session_summary_eq self s Hs) as (first & rest & Hh & Hrecs & ->).
  cbn [summary_session_id total_states_recorded maximum_recursion_depth
       summary_duration average_coherence containment_activated
       recommendations] in *.
  rewrite Hh.
  destruct (max_of_spec (recursion_depth first) (map recursion_depth rest))
    as [Hin Hle].
  change (recursion_depth first :: map recursion_depth rest)
    with (recursion_depth <$> first :: rest) in Hin, Hle.
  split; [reflexivity |]. split; [reflexivity |]. split.
  { apply list_elem_of_fmap in Hin. destruct Hin as (snapshot & Heq & Hsnap).
    exists snapshot. split; assumption. }
  split.
  { intros snapshot Hsnap. apply Hle, list_elem_of_fmap.
    exists snapshot. split; [reflexivity | exact Hsnap]. }
  split.
  { exists (List.last (first :: rest) first).
    split; [apply last_of_history; discriminate |].
    split; [reflexivity |].
    intros Hreach. exists first. split; [reflexivity |].
    pose proof (reachable_durations _ self Hreach first) as Hall.
    rewrite Hh in Hall. specialize (Hall eq_refl).
    rewrite Forall_forall in Hall. apply Hall.
    apply (last_Some_elem_of (first :: rest)).
    apply last_of_history. discriminate. }
  split; [reflexivity |]. split; [reflexivity | exact Hrecs].
Qed.

Lemma summary_aggregates_witness :
  exists s,
    fst (@get_session_summary left_to_right
           (snd (update_state (metrics 9 0.5 0.5 0.5 0.5 0.5) 0
                   (new_LoopBreaker "session")))) = Ret (Summary s) /\
    summary_session_id s = "session" /\
    maximum_recursion_depth s = 9.
Proof.
  pose proof (@summary_aggregates left_to_right
                (snd (update_state (metrics 9 0.5 0.5 0.5 0.5 0.5) 0
                        (new_LoopBreaker "session")))) as [Hnone Hsome].
  destruct (@get_session_summary_returns left_to_right
              (snd (update_state (metrics 9 0.5 0.5 0.5 0.5 0.5) 0
                      (new_LoopBreaker "session")))) as [[|s] Hs].
  - apply Hnone in Hs. discriminate Hs.
  - exists s. split; [exact Hs |].
    destruct (Hsome s Hs) as (Hsid & _ & (snapshot & Hin & Hmax) & _).
    split; [exact Hsid |]. rewrite Hmax.
    apply list_elem_of_singleton in Hin. rewrite Hin. reflexivity.
Defined.

(** ** The recommendations *)

Lemma generate_recommendations_empty `{Builtins} (self : LoopBreaker) :
  state_history self = [] ->
  fst (_generate_recommendations self) = Ret [monitoring_recommendation].
Proof.
  intros Hh. unfold _generate_recommendations. run_monad. rewrite Hh. reflexivity.
Qed.

Lemma generate_recommendations_eq `{Builtins} (self : LoopBreaker)
    (first : CognitiveState) (rest : list CognitiveState) :
  state_history self = first :: rest ->
  fst (_generate_recommendations self) =
  Ret (recommendations_for
         (flt (mean_coherence (first :: rest)) 0.6)
         (8 <? max_of (recursion_depth first) (map recursion_depth rest))
         (active_containment self)
         (total_minutes_gt
            (session_duration (List.last (first :: rest) first)) 90)).
Proof.
  intros Hh. unfold _generate_recommendations. run_monad. rewrite Hh. reflexivity.
Qed.

Lemma recommendations_for_spec (low_coherence deep contained long : bool) :
  let recs := recommendations_for low_coherence deep contained long in
  (coherence_recommendation ∈ recs <-> low_coherence = true) /\
  (depth_recommendation ∈ recs <-> deep = true) /\
  (containment_recommendation ∈ recs <-> contained = true) /\
  (duration_recommendation ∈ recs <-> long = true) /\
  (monitoring_recommendation ∉ recs) /\
  sublist recs [ coherence_recommendation; depth_recommendation;
                 containment_recommendation; duration_recommendation ].
Proof.
  destruct low_coherence, deep, contained, long; cbv zeta;
    refine (conj _ (conj _ (conj _ (conj _ (conj _ _)))));
    first
      [ match goal with
        | |- ?P => apply (@bool_decide_unpack P _); vm_compute; exact I
        end
      | unfold recommendations_for; cbn [app];
        repeat first [apply sublist_nil | apply sublist_skip | apply sublist_cons] ].
Qed.

Lemma max_of_exceeds (k first : Z) (rest : list Z) :
  (k <? max_of first rest) = true <-> exists z, z ∈ first :: rest /\ k < z.
Proof.
  destruct (max_of_spec first rest) as [Hin Hle].
  rewrite Z.ltb_lt. split.
  - intros Hlt. exists (max_of first rest). split; assumption.
  - intros (z & Hz & Hlt). apply Hle in Hz. lia.
Qed.

Lemma deep_history (first : CognitiveState) (rest : list CognitiveState) :
  (8 <? max_of (recursion_depth first) (map recursion_depth rest)) = true <->
  exists s, s ∈ first :: rest /\ 8 < recursion_depth s.
Proof.
  rewrite max_of_exceeds.
  change (recursion_depth first :: map recursion_depth rest)
    with (recursion_depth <$> first :: rest).
  split.
  - intros (z & Hz & Hlt). apply list_elem_of_fmap in Hz.
    destruct Hz as (s & -> & Hs). exists s. split; assumption.
  - intros (s & Hs & Hlt). exists (recursion_depth s).
    split; [| exact Hlt]. apply list_elem_of_fmap. exists s. split; trivial.
Qed.

(** X12.  On an empty history [_generate_recommendations] returns the one
    message to continue monitoring.  On a non-empty history it never returns
    that message: it returns, in this order, the messages whose test holds —
    identity anchoring when the mean coherence is below 0.6, depth limits
    when some snapshot is deeper than 8, an extended integration period when
    the containment flag is set, shorter sessions when the last snapshot's
    duration exceeds 90 minutes — and nothing else, so possibly the empty
    list. *)
Theorem recommendations_follow_thresholds `{Builtins} (self : LoopBreaker) :
  (state_history self = [] ->
   fst (_generate_recommendations self) = Ret [monitoring_recommendation]) /\
  (state_history self <> [] ->
   exists recs,
     fst (_generate_recommendations self) = Ret recs /\
     (coherence_recommendation ∈ recs <->
      flt (mean_coherence (state_history self)) 0.6 = true) /\
     (depth_recommendation ∈ recs <->
      exists s, s ∈ state_history self /\ 8 < recursion_depth s) /\
     (containment_recommendation ∈ recs <-> active_containment self = true) /\
     (duration_recommendation ∈ recs <->
      exists latest, last (state_history self) = Some latest /\
                     90 * usec_per_minute < session_duration latest) /\
     (monitoring_recommendation ∉ recs) /\
     sublist recs [ coherence_recommendation; depth_recommendation;
                    containment_recommendation; duration_recommendation ]).
Proof.
  split; [apply generate_recommendations_empty |].
  destruct (state_history self) as [|first rest] eqn:Hh; [congruence |].
  intros _. eexists. split; [apply (generate_recommendations_eq _ _ _ Hh) |].
  destruct (recommendations_for_spec
              (flt (mean_coherence (first :: rest)) 0.6)
              (8 <? max_of (recursion_depth first) (map recursion_depth rest))
              (active_containment self)
              (total_minutes_gt
                 (session_duration (List.last (first :: rest) first)) 90))
    as (Hc & Hd & Hk & Hl & Hm & Hsub).
  cbv zeta in *.
  split; [exact Hc |].
  split; [rewrite Hd; apply deep_history |].
  split; [exact Hk |].
  split; [| split; assumption].
  rewrite Hl. unfold total_minutes_gt. rewrite Z.ltb_lt.
  rewrite (last_of_history (first :: rest) first) by discriminate.
  split.
  - intros Hlt. eexists. split; [reflexivity | exact Hlt].
  - intros (latest & Heq & Hlt). injection Heq as <-. exact Hlt.
Qed.

Lemma recommendations_follow_thresholds_witness :
  exists recs,
    fst (@_generate_recommendations left_to_right
           (snd (update_state (metrics 9 0.5 0.5 0.5 0.5 0.5) 0
                   (new_LoopBreaker "session")))) = Ret recs /\
    depth_recommendation ∈ recs /\ (containment_recommendation ∉ recs).
Proof.
  destruct (proj2 (@recommendations_follow_thresholds left_to_right
                     (snd (update_state (metrics 9 0.5 0.5 0.5 0.5 0.5) 0
                             (new_LoopBreaker "session")))))
    as (recs & Hrecs & _ & Hdepth & Hcontainment & _).
  - discriminate.
  - exists recs. split; [exact Hrecs |]. split.
    + apply Hdepth. eexists. split; [left |]. reflexivity.
    + rewrite Hcontainment. discriminate.
Defined.

(** X13.  Two recommendations last: whatever calls follow, once the
    recommendations hold the message on depth limits, or the one on an
    extended integration period, every later list of recommendations holds
    it too.  The message to continue monitoring never comes back: it is
    returned after a sequence of calls only if it was returned before and
    the sequence recorded no snapshot. *)
Theorem lasting_recommendations `{Builtins} (calls : list Call)
    (self : LoopBreaker) (recs recs' : list string) :
  fst (_generate_recommendations self) = Ret recs ->
  fst (_generate_recommendations (after_all calls self)) = Ret recs' ->
  (depth_recommendation ∈ recs -> depth_recommendation ∈ recs') /\
  (containment_recommendation ∈ recs -> containment_recommendation ∈ recs') /\
  (monitoring_recommendation ∈ recs' ->
   monitoring_recommendation ∈ recs /\ recorded_times calls = []).
Proof.
  intros Hrecs Hrecs'.
  destruct (after_all_recorded calls self) as (snapshots & Hh' & Ht).
  destruct (state_history self) as [|first rest] eqn:Hh.
  - rewrite (generate_recommendations_empty self Hh) in Hrecs.
    injection Hrecs as <-.
    split; [intros Hin; apply list_elem_of_singleton in Hin; discriminate |].
    split; [intros Hin; apply list_elem_of_singleton in Hin; discriminate |].
    intros Hin. split; [left |].
    destruct snapshots as [|s l]; [rewrite <- Ht; reflexivity |].
    rewrite (generate_recommendations_eq _ s l Hh') in Hrecs'.
    injection Hrecs' as <-.
    apply recommendations_for_spec in Hin. contradiction.
  - rewrite (generate_recommendations_eq _ _ _ Hh) in Hrecs.
    injection Hrecs as <-.
    change ((first :: rest) ++ snapshots) with (first :: (rest ++ snapshots))
      in Hh'.
    rewrite (generate_recommendations_eq _ _ _ Hh') in Hrecs'.
    injection Hrecs' as <-.
    split; [| split].
    + intros Hin. apply recommendations_for_spec in Hin.
      apply recommendations_for_spec. apply deep_history in Hin.
      apply deep_history. destruct Hin as (s & Hs & Hlt). exists s.
      split; [| exact Hlt].
      change (first :: rest ++ snapshots) with ((first :: rest) ++ snapshots).
      apply elem_of_app. left. exact Hs.
    + intros Hin. apply recommendations_for_spec in Hin.
      apply recommendations_for_spec. apply after_all_keeps_flag, Hin.
    + intros Hin. apply recommendations_for_spec in Hin. contradiction.
Qed.

Lemma lasting_recommendations_witness :
  exists recs',
    fst (@_generate_recommendations left_to_right
           (@after_all left_to_right [ call_update_state no_metrics 5 ]
              (snd (update_state (metrics 9 0.5 0.5 0.5 0.5 0.5) 0
                      (new_LoopBreaker "session"))))) = Ret recs' /\
    depth_recommendation ∈ recs'.
Proof.
  destruct (@generate_recommendations_returns left_to_right
              (@after_all left_to_right [ call_update_state no_metrics 5 ]
                 (snd (update_state (metrics 9 0.5 0.5 0.5 0.5 0.5) 0
                         (new_LoopBreaker "session"))))) as [recs' Hrecs'].
  exists recs'. split; [exact Hrecs' |].
  apply (proj1 (@lasting_recommendations left_to_right
                  [ call_update_state no_metrics 5 ]
                  (snd (update_state (metrics 9 0.5 0.5 0.5 0.5 0.5) 0
                          (new_LoopBreaker "session")))
                  [coherence_recommendation; depth_recommendation] recs'
                  ltac:(vm_compute; reflexivity) Hrecs')).
  right. left.
Defined.

(** ** The containment flag and the containment interventions *)

Lemma process_cycle_flag (kw : Updates) (t1 t2 t3 : Z) (self : LoopBreaker) :
  active_containment (snd (process_cycle kw t1 t2 t3 self)) =
  active_containment self ||
  match cycle_selection kw t1 t2 self with
  | Some x => bool_decide (intervention_type x = CONTAINMENT)
  | None => false
  end.
Proof.
  rewrite process_cycle_engine. cbv zeta.
  destruct (cycle_selection kw t1 t2 self) as [x|].
  - unfold flag_containment.
    destruct (decide (intervention_type x = CONTAINMENT)) as [Hty | Hty].
    + rewrite (bool_decide_eq_true_2 _ Hty), orb_true_r. reflexivity.
    + rewrite (bool_decide_eq_false_2 _ Hty), orb_false_r.
      rewrite execute_intervention_engine. reflexivity.
  - rewrite orb_false_r. reflexivity.
Qed.

Lemma containment_entries (x0 : Intervention) :
  x0 ∈ initial_entries ->
  intervention_type x0 = CONTAINMENT <->
  obj_id x0 = obj_id quarantine_intervention \/
  obj_id x0 = obj_id emergency_intervention.
Proof.
  unfold initial_entries. rewrite !elem_of_cons, elem_of_nil.
  intros Hx0.
  repeat (destruct Hx0 as [-> | Hx0]); try contradiction;
    (split; [intros Hty; (discriminate Hty || (left; reflexivity)
                           || (right; reflexivity))
            | intros [Hid | Hid]; (discriminate Hid || reflexivity)]).
Qed.

Lemma after_flag `{Builtins} (c : Call) (self : LoopBreaker) :
  well_formed self -> pipeline_call c ->
  active_containment (after c self) = true <->
  active_containment self = true \/ invokes_containment (invoked_by c self).
Proof.
  intros [_ [f Hcat]] Hc. unfold invokes_containment.
  destruct c as [| | | | kw t1 t2 t3 |]; cbn in Hc; try contradiction;
    cbn [after invoked_by].
  - rewrite process_cycle_flag, orb_true_iff.
    destruct (cycle_selection kw t1 t2 self) as [x|] eqn:Hsel.
    + destruct (cycle_selection_cooled _ _ _ _ f x Hcat Hsel)
        as (_ & x0 & Hx0 & ->).
      rewrite bool_decide_eq_true, !list_elem_of_singleton.
      cbn [restamp intervention_type obj_id].
      rewrite (containment_entries x0 Hx0).
      split; (intros [Hflag | [Hid | Hid]]; [left; exact Hflag | right ..]);
        [left | right | left | right]; congruence.
    + rewrite !elem_of_nil. split; [intros [? | ?]; [tauto | discriminate] | tauto].
  - rewrite get_session_summary_engine, !elem_of_nil. tauto.
Qed.

Lemma after_all_flag `{Builtins} (calls : list Call) (self : LoopBreaker) :
  well_formed self -> Forall pipeline_call calls ->
  active_containment (after_all calls self) = true <->
  active_containment self = true \/ invokes_containment (invocations calls self).
Proof.
  intros Hwf Hcalls. revert self Hwf.
  induction Hcalls as [|c calls Hc _ IH]; intros self Hwf.
  - unfold invokes_containment. cbn. rewrite !elem_of_nil. tauto.
  - change (after_all (c :: calls) self) with (after_all calls (after c self)).
    rewrite (IH (after c self) (after_well_formed c self Hwf)).
    rewrite (after_flag c self Hwf Hc).
    unfold invokes_containment. cbn [invocations]. rewrite !elem_of_app. tauto.
Qed.

Lemma stamped_containment_executed (self : LoopBreaker) (f : Z -> option Z) :
  interventions self = stamped f ->
  containment_executed self <->
  is_Some (f (obj_id quarantine_intervention)) \/
  is_Some (f (obj_id emergency_intervention)).
Proof.
  intros Hcat. unfold containment_executed. rewrite Hcat, stamped_lookup. split.
  - intros (candidates & x & Hl & Hx & Hexec). injection Hl as <-.
    unfold was_executed in Hexec.
    rewrite !elem_of_cons, elem_of_nil in Hx.
    destruct Hx as [-> | [-> | []]]; cbn [restamp last_executed] in Hexec;
      [left | right];
      (destruct (f _) as [t|]; [eauto | discriminate]).
  - intros [[t Ht] | [t Ht]]; eexists; eexists;
      (split; [reflexivity |]).
    + split; [left |]. unfold was_executed. cbn [restamp last_executed].
      rewrite Ht. reflexivity.
    + split; [right; left |]. unfold was_executed. cbn [restamp last_executed].
      rewrite Ht. reflexivity.
Qed.

(** X14.  Only a cycle sets the containment flag.  [execute_intervention]
    called directly on a containment intervention of the catalog marks it
    executed and leaves the flag as it was.  In a session driven through
    [process_cycle] and the summary, the flag is true exactly when a
    containment intervention of the catalog has been executed, that is,
    exactly when the quarantine or the emergency intervention was invoked. *)
Theorem containment_flag_tracks_execution `{Builtins} :
  (forall (self : LoopBreaker) (candidates : list Intervention)
          (x : Intervention) (state : CognitiveState) (now : Z),
     interventions self !! CONTAINMENT = Some candidates -> x ∈ candidates ->
     containment_executed (snd (execute_intervention x state now self)) /\
     active_containment (snd (execute_intervention x state now self)) =
       active_containment self) /\
  (forall (sid : string) (calls : list Call),
     Forall pipeline_call calls ->
     (active_containment (after_all calls (new_LoopBreaker sid)) = true <->
      containment_executed (after_all calls (new_LoopBreaker sid))) /\
     (active_containment (after_all calls (new_LoopBreaker sid)) = true <->
      invokes_containment (invocations calls (new_LoopBreaker sid)))).
Proof.
  split.
  - intros self candidates x state now Hl Hx.
    rewrite execute_intervention_engine. split; [| reflexivity].
    exists (map (touch (obj_id x) now) candidates), (touch (obj_id x) now x).
    cbn [snd set_interventions interventions].
    rewrite lookup_fmap, Hl. split; [reflexivity |].
    split; [apply list_elem_of_fmap; exists x; split; trivial |].
    unfold was_executed, touch.
    destruct (decide (obj_id x = obj_id x)); [reflexivity | congruence].
  - intros sid calls Hcalls.
    assert (Hflag :
      active_containment (after_all calls (new_LoopBreaker sid)) = true <->
      invokes_containment (invocations calls (new_LoopBreaker sid))).
    { rewrite (after_all_flag calls _ (new_LoopBreaker_well_formed sid) Hcalls).
      cbn [active_containment new_LoopBreaker].
      split; [intros [? | ?]; [discriminate | assumption] | tauto]. }
    split; [| exact Hflag].
    rewrite Hflag.
    destruct (after_all_stamps calls (new_LoopBreaker sid) (fun _ => None)
                initial_interventions_stamped) as (f & Hcat & Hiff).
    rewrite (stamped_containment_executed _ f Hcat), !Hiff.
    unfold invokes_containment.
    split; [tauto |]. intros [[[t Ht] | Hin] | [[t Ht] | Hin]];
      try discriminate; tauto.
Qed.

Lemma containment_flag_tracks_execution_witness :
  active_containment
    (@after_all left_to_right
       [ call_process_cycle (metrics 20 0.5 0.5 0.5 0.5 0.5) 0 0 0 ]
       (new_LoopBreaker "session")) = true.
Proof.
  apply (proj2 (@containment_flag_tracks_execution left_to_right) "session"
           [ call_process_cycle (metrics 20 0.5 0.5 0.5 0.5 0.5) 0 0 0 ]).
  - repeat constructor.
  - right. cbn [invocations invoked_by].
    assert (Hsel : cycle_selection (metrics 20 0.5 0.5 0.5 0.5 0.5) 0 0
                     (new_LoopBreaker "session") = Some emergency_intervention)
      by reflexivity.
    rewrite Hsel. left.
Defined.

(** ** Bounds on the count of interventions executed *)

Lemma catalog_identities :
  map obj_id (catalog_entries initial_interventions) = [5; 6; 7; 3; 4; 1; 2].
Proof. vm_compute. reflexivity. Qed.

Lemma distinct_invoked_identities (invoked : list Z) :
  distinct_invoked invoked =
  length (List.filter (fun i => bool_decide (i ∈ invoked))
                      (map obj_id (catalog_entries initial_interventions))).
Proof. unfold distinct_invoked. rewrite filter_map_length. reflexivity. Qed.

Lemma distinct_invoked_bounds (invoked : list Z) :
  (distinct_invoked invoked <= 7)%nat /\
  (distinct_invoked invoked <= length invoked)%nat /\
  (obj_id redirect_intervention ∉ invoked -> (distinct_invoked invoked <= 6)%nat).
Proof.
  rewrite distinct_invoked_identities, catalog_identities.
  split; [| split].
  - etransitivity; [apply List.filter_length_le | reflexivity].
  - apply NoDup_incl_length.
    + apply List.NoDup_filter.
      repeat (constructor; [cbn [In]; lia |]). constructor.
    + intros i Hi. apply filter_In in Hi. destruct Hi as [_ Hi].
      apply bool_decide_eq_true in Hi. apply list_elem_of_In, Hi.
  - intros Hredirect. cbn [List.filter].
    change (obj_id redirect_intervention) with 7 in Hredirect.
    rewrite (bool_decide_eq_false_2 _ Hredirect).
    repeat destruct (bool_decide _); cbn [length]; lia.
Qed.

Lemma invocations_length `{Builtins} (calls : list Call) (self : LoopBreaker) :
  (length (invocations calls self) <= length calls)%nat.
Proof.
  revert self. induction calls as [|c calls IH]; intros self; [reflexivity |].
  cbn [invocations]. rewrite length_app. specialize (IH (after c self)).
  assert (Hone : (length (invoked_by c self) <= 1)%nat).
  { destruct c as [| | | | kw t1 t2 t3 |]; cbn [invoked_by length]; try lia.
    destruct (cycle_selection kw t1 t2 self); cbn [length]; lia. }
  cbn [length]. lia.
Qed.

(** X15.  In the summary of a session, [interventions_executed] is at most
    7, the size of the catalog, at most the number of invocations made, which
    is itself at most the number of calls; in a session driven through
    [process_cycle] and the summary it is at most 6, since the redirect
    intervention is never invoked. *)
Theorem interventions_executed_is_bounded `{Builtins} (sid : string)
    (calls : list Call) (s : SessionSummary) :
  fst (get_session_summary (after_all calls (new_LoopBreaker sid)))
    = Ret (Summary s) ->
  (interventions_executed s <= 7)%nat /\
  (interventions_executed s <= length (invocations calls (new_LoopBreaker sid)))%nat /\
  (length (invocations calls (new_LoopBreaker sid)) <= length calls)%nat /\
  (Forall pipeline_call calls -> (interventions_executed s <= 6)%nat).
Proof.
  intros Hs.
  destruct (get_session_summary_eq _ s Hs) as (first & rest & _ & _ & ->).
  cbn [interventions_executed]. rewrite session_executed_count.
  destruct (distinct_invoked_bounds (invocations calls (new_LoopBreaker sid)))
    as (H7 & Hlen & H6).
  split; [exact H7 |]. split; [exact Hlen |].
  split; [apply invocations_length |].
  intros Hcalls. apply H6.
  apply pipeline_never_invokes_redirect;
    [apply new_LoopBreaker_well_formed | exact Hcalls].
Qed.

Lemma interventions_executed_is_bounded_witness :
  exists s,
    fst (@get_session_summary left_to_right
           (@after_all left_to_right
              [ call_process_cycle (metrics 20 0.5 0.5 0.5 0.5 0.5) 0 0 0;
                call_get_session_summary ]
              (new_LoopBreaker "session"))) = Ret (Summary s) /\
    (interventions_executed s <= 2)%nat.
Proof.
  destruct (@get_session_summary_returns left_to_right
              (@after_all left_to_right
                 [ call_process_cycle (metrics 20 0.5 0.5 0.5 0.5 0.5) 0 0 0;
                   call_get_session_summary ]
                 (new_LoopBreaker "session"))) as [[|s] Hs].
  - apply get_session_summary_empty in Hs.
    destruct (@after_all_recorded left_to_right
                [ call_process_cycle (metrics 20 0.5 0.5 0.5 0.5 0.5) 0 0 0;
                  call_get_session_summary ]
                (new_LoopBreaker "session")) as (l & Hl & Ht).
    rewrite Hs in Hl. destruct l; discriminate.
  - exists s. split; [exact Hs |].
    destruct (@interventions_executed_is_bounded left_to_right "session" _ s Hs)
      as (_ & Hle & Hlen & _).
    cbn [length] in Hlen. lia.
Defined.

(** ** Patterns that need time or history *)

Lemma process_cycle_patterns (kw : Updates) (t1 t2 t3 : Z) (self : LoopBreaker)
    (r : CycleResult) :
  fst (process_cycle kw t1 t2 t3 self) = Ret r ->
  patterns_detected r =
  map report_pattern
    (run_detectors (pattern_detectors self)
       (state_history self ++ [new_snapshot kw t1 self])
       (new_snapshot kw t1 self)).
Proof.
  rewrite process_cycle_eq.
  destruct (run_detectors _ _ _) as [|d ds].
  - cbn [fst]. intros Hr. injection Hr as <-. reflexivity.
  - destruct (fst (select_intervention _ _ _)) as [[x|]|e]; cbn [fst].
    + destruct (fst (execute_intervention _ _ _ _)) as [result|e]; cbn [fst];
        [| discriminate].
      intros Hr. injection Hr as <-. reflexivity.
    + intros Hr. injection Hr as <-. reflexivity.
    + discriminate.
Qed.

Lemma CollapsePattern_value_inj (p q : CollapsePattern) :
  CollapsePattern_value p = CollapsePattern_value q -> p = q.
Proof. destruct p, q; (reflexivity || discriminate). Qed.

Lemma reported_fires (kw : Updates) (t1 t2 t3 : Z) (self : LoopBreaker)
    (r : CycleResult) (p : CollapsePattern) :
  pattern_detectors self = initial_detectors ->
  fst (process_cycle kw t1 t2 t3 self) = Ret r ->
  CollapsePattern_value p ∈ reported (Ret r) <->
  predicate_of p (state_history self ++ [new_snapshot kw t1 self])
    (new_snapshot kw t1 self) = true.
Proof.
  intros Hdet Hr. cbn [reported].
  rewrite (process_cycle_patterns _ _ _ _ _ _ Hr), Hdet.
  rewrite <- registered_detectors_fire, map_map.
  change (fun x : Detected => (report_pattern x).1.1)
    with (fun x : Detected => CollapsePattern_value (detected_pattern x)).
  rewrite <- (map_map detected_pattern CollapsePattern_value).
  rewrite (list_elem_of_fmap CollapsePattern_value). split.
  - intros (q & Heq & Hq). apply CollapsePattern_value_inj in Heq.
    subst q. exact Hq.
  - intros Hp. exists p. split; trivial.
Qed.

(** X16.  With the registered detectors, the record of a cycle that
    returns does not report recursive-spiral unless more than 30 minutes
    separate the cycle's clock reading from the first snapshot, nor
    temporal-disconnection unless more than 60 minutes do, nor
    identity-fragmentation unless the history held at least two snapshots
    before the cycle.  The first cycle of an engine can only report
    symbolic-flooding, meaning-collapse and containment-breach. *)
Theorem time_patterns_need_elapsed_time (kw : Updates) (t1 t2 t3 : Z)
    (self : LoopBreaker) (r : CycleResult) :
  pattern_detectors self = initial_detectors ->
  fst (process_cycle kw t1 t2 t3 self) = Ret r ->
  (elapsed self t1 <= 30 * usec_per_minute ->
   CollapsePattern_value RECURSIVE_SPIRAL ∉ reported (Ret r)) /\
  (elapsed self t1 <= 60 * usec_per_minute ->
   CollapsePattern_value TEMPORAL_DISCONNECTION ∉ reported (Ret r)) /\
  ((length (state_history self) < 2)%nat ->
   CollapsePattern_value IDENTITY_FRAGMENTATION ∉ reported (Ret r)) /\
  (state_history self = [] ->
   forall p, CollapsePattern_value p ∈ reported (Ret r) ->
     p = SYMBOLIC_FLOODING \/ p = MEANING_COLLAPSE \/ p = CONTAINMENT_BREACH).
Proof.
  intros Hdet Hr.
  assert (Hduration : session_duration (new_snapshot kw t1 self) = elapsed self t1)
    by apply new_snapshot_duration.
  assert (Hspiral : elapsed self t1 <= 30 * usec_per_minute ->
            detect_recursive_spiral
              (state_history self ++ [new_snapshot kw t1 self])
              (new_snapshot kw t1 self) = false).
  { intros Hle. unfold detect_recursive_spiral. rewrite Hduration.
    replace (total_seconds_gt (elapsed self t1) 1800) with false;
      [apply andb_false_r |].
    symmetry. apply Z.ltb_ge. unfold usec_per_minute in Hle. lia. }
  assert (Htemporal : elapsed self t1 <= 60 * usec_per_minute ->
            detect_temporal_disconnection
              (state_history self ++ [new_snapshot kw t1 self])
              (new_snapshot kw t1 self) = false).
  { intros Hle. unfold detect_temporal_disconnection. rewrite Hduration.
    replace (total_seconds_gt (elapsed self t1) 3600) with false;
      [apply andb_false_r |].
    symmetry. apply Z.ltb_ge. unfold usec_per_minute in Hle. lia. }
  assert (Hfragment : (length (state_history self) < 2)%nat ->
            detect_identity_fragmentation
              (state_history self ++ [new_snapshot kw t1 self])
              (new_snapshot kw t1 self) = false).
  { intros Hlt. unfold detect_identity_fragmentation.
    replace (length (state_history self ++ [new_snapshot kw t1 self]) <? 3)%nat
      with true; [reflexivity |].
    symmetry. apply Nat.ltb_lt. rewrite length_app. cbn [length]. lia. }
  split; [| split; [| split]].
  - intros Hle Hin. apply (reported_fires _ _ _ _ _ _ _ Hdet Hr) in Hin.
    cbn [predicate_of] in Hin. rewrite (Hspiral Hle) in Hin. discriminate.
  - intros Hle Hin. apply (reported_fires _ _ _ _ _ _ _ Hdet Hr) in Hin.
    cbn [predicate_of] in Hin. rewrite (Htemporal Hle) in Hin. discriminate.
  - intros Hlt Hin. apply (reported_fires _ _ _ _ _ _ _ Hdet Hr) in Hin.
    cbn [predicate_of] in Hin. rewrite (Hfragment Hlt) in Hin. discriminate.
  - intros Hempty p Hin. apply (reported_fires _ _ _ _ _ _ _ Hdet Hr) in Hin.
    assert (Hzero : elapsed self t1 = 0) by (unfold elapsed; rewrite Hempty; reflexivity).
    assert (Hshort : (length (state_history self) < 2)%nat)
      by (rewrite Hempty; cbn; lia).
    destruct p; cbn [predicate_of] in Hin; auto.
    + rewrite (Hfragment Hshort) in Hin. discriminate.
    + rewrite Hspiral in Hin; [discriminate |]. rewrite Hzero. vm_compute. discriminate.
    + rewrite Htemporal in Hin; [discriminate |]. rewrite Hzero. vm_compute. discriminate.
Qed.

Lemma time_patterns_need_elapsed_time_witness :
  exists r,
    fst (process_cycle (metrics 12 0.5 0.5 0.1 0.9 0.5) 0 0 0
           (new_LoopBreaker "session")) = Ret r /\
    (CollapsePattern_value RECURSIVE_SPIRAL ∉ reported (Ret r)) /\
    (CollapsePattern_value TEMPORAL_DISCONNECTION ∉ reported (Ret r)).
Proof.
  assert (Hrun : returns (process_cycle (metrics 12 0.5 0.5 0.1 0.9 0.5) 0 0 0
                            (new_LoopBreaker "session"))).
  { unfold returns.
    rewrite process_cycle_session by apply new_LoopBreaker_well_formed.
    eexists. reflexivity. }
  destruct Hrun as [r Hr]. exists r. split; [exact Hr |].
  destruct (time_patterns_need_elapsed_time
              (metrics 12 0.5 0.5 0.1 0.9 0.5) 0 0 0 (new_LoopBreaker "session") r
              eq_refl Hr) as (Hspiral & Htemporal & _).
  split; [apply Hspiral | apply Htemporal]; vm_compute; discriminate.
Defined.

(** ** The order of escalation *)

Lemma best_of_two (now : Z) (a b : Intervention) :
  best_available now [a; b] =
  if priority a <? priority b
  then List.find (cooled_down now) [b; a]
  else List.find (cooled_down now) [a; b].
Proof.
  unfold best_available. cbn [List.filter List.find].
  destruct (cooled_down now a), (cooled_down now b),
    (priority a <? priority b) eqn:Hlt;
    cbn [max_by_priority]; rewrite ?Hlt; reflexivity.
Qed.

(** X17.  In a session, a cycle whose primary pattern leads to a category
    chooses within the catalog's list of that category by priority alone: it
    invokes the first intervention that is not cooling down in the order
    emergency containment, then symbolic quarantine, for containment; core
    identity recall, then values compass, for identity anchoring; loop
    breath, then physical anchor, for grounding — and none when both are
    cooling down. *)
Theorem selection_escalates `{Builtins} (self : LoopBreaker) (kw : Updates)
    (t1 t2 : Z) (ty : InterventionType) :
  reachable self ->
  primary_category
    (run_detectors initial_detectors
       (state_history self ++ [new_snapshot kw t1 self])
       (new_snapshot kw t1 self)) = Some ty ->
  exists candidates ranked,
    interventions self !! ty = Some candidates /\
    ranked ≡ₚ candidates /\
    map obj_id ranked = map obj_id (preferred ty) /\
    map priority ranked = map priority (preferred ty) /\
    cycle_selection kw t1 t2 self = List.find (cooled_down t2) ranked.
Proof.
  intros Hreach Hprimary.
  destruct (reachable_by_well_formed _ self Hreach) as [Hdet [f Hcat]].
  assert (Hmapped : mapped_category ty).
  { pose proof (primary_category_spec
                  (run_detectors initial_detectors
                     (state_history self ++ [new_snapshot kw t1 self])
                     (new_snapshot kw t1 self))) as Hspec.
    rewrite Hprimary in Hspec. destruct Hspec as (primary & _ & ->).
    apply category_of_mapped. }
  assert (Hsel : cycle_selection kw t1 t2 self =
                 match stamped f !! ty with
                 | Some candidates => best_available t2 candidates
                 | None => None
                 end).
  { rewrite cycle_selection_eq, Hdet, <- Hcat.
    destruct (run_detectors initial_detectors _ _) as [|d ds];
      [discriminate |].
    rewrite Hprimary. reflexivity. }
  rewrite Hsel, Hcat, stamped_lookup.
  destruct Hmapped as [-> | [-> | ->]];
    eexists;
    match goal with
    | |- context [preferred ?ty] => exists (map (restamp f) (preferred ty))
    end;
    (split; [reflexivity |]);
    (split; [first [reflexivity | apply perm_swap] |]);
    (split; [reflexivity |]); (split; [reflexivity |]);
    cbn [preferred map]; rewrite best_of_two; reflexivity.
Qed.

Lemma selection_escalates_witness :
  exists candidates ranked,
    interventions (new_LoopBreaker "session") !! CONTAINMENT = Some candidates /\
    map obj_id ranked = map obj_id (preferred CONTAINMENT) /\
    cycle_selection (metrics 20 0.5 0.5 0.5 0.5 0.5) 0 0 (new_LoopBreaker "session")
      = List.find (cooled_down 0) ranked.
Proof.
  destruct (@selection_escalates left_to_right (new_LoopBreaker "session")
              (metrics 20 0.5 0.5 0.5 0.5 0.5) 0 0 CONTAINMENT
              (@reachable_new left_to_right _ "session"))
    as (candidates & ranked & Hlookup & _ & Hids & _ & Hsel).
  - vm_compute. reflexivity.
  - exists candidates, ranked. repeat split; assumption.
Defined.

(** ** Metrics that a cycle is not given *)

(** X18.  A metric that a cycle is not given takes the default of
    [CognitiveState], not the value of the previous snapshot.  So, with the
    registered detectors and whatever the history holds, a cycle that
    returns reports no pattern whose condition needs the omitted metric to
    leave its default: without [recursion_depth] neither symbolic-flooding
    nor recursive-spiral, without [symbolic_density] or [meaning_saturation]
    neither symbolic-flooding nor meaning-collapse, without [coherence_score]
    neither identity-fragmentation nor meaning-collapse, without
    [emotional_intensity] no recursive-spiral, without [temporal_anchor] no
    temporal-disconnection, and without depth, saturation and coherence no
    containment-breach. *)
Theorem omitted_metrics_take_defaults (kw : Updates) (t1 t2 t3 : Z)
    (self : LoopBreaker) (r : CycleResult) :
  pattern_detectors self = initial_detectors ->
  fst (process_cycle kw t1 t2 t3 self) = Ret r ->
  let names := reported (Ret r) in
  (u_recursion_depth kw = None ->
   (CollapsePattern_value SYMBOLIC_FLOODING ∉ names) /\
   (CollapsePattern_value RECURSIVE_SPIRAL ∉ names)) /\
  (u_symbolic_density kw = None ->
   (CollapsePattern_value SYMBOLIC_FLOODING ∉ names) /\
   (CollapsePattern_value MEANING_COLLAPSE ∉ names)) /\
  (u_meaning_saturation kw = None ->
   (CollapsePattern_value SYMBOLIC_FLOODING ∉ names) /\
   (CollapsePattern_value MEANING_COLLAPSE ∉ names)) /\
  (u_coherence_score kw = None ->
   (CollapsePattern_value IDENTITY_FRAGMENTATION ∉ names) /\
   (CollapsePattern_value MEANING_COLLAPSE ∉ names)) /\
  (u_emotional_intensity kw = None ->
   (CollapsePattern_value RECURSIVE_SPIRAL ∉ names)) /\
  (u_temporal_anchor kw = None ->
   (CollapsePattern_value TEMPORAL_DISCONNECTION ∉ names)) /\
  (u_recursion_depth kw = None -> u_meaning_saturation kw = None ->
   u_coherence_score kw = None ->
   (CollapsePattern_value CONTAINMENT_BREACH ∉ names)).
Proof.
  intros Hdet Hr names. subst names.
  set (current := new_snapshot kw t1 self).
  set (h := state_history self ++ [current]).
  assert (Hfires : forall p, predicate_of p h current = false ->
            CollapsePattern_value p ∉ reported (Ret r)).
  { intros p Hp Hin. apply (reported_fires _ _ _ _ _ _ _ Hdet Hr) in Hin.
    fold current in Hin. fold h in Hin. congruence. }
  assert (Hdepth : recursion_depth current = default 0 (u_recursion_depth kw))
    by reflexivity.
  assert (Hdensity :
    symbolic_density current = default 0.0%float (u_symbolic_density kw))
    by reflexivity.
  assert (Hcoherence :
    coherence_score current = default 1.0%float (u_coherence_score kw))
    by reflexivity.
  assert (Hanchor :
    temporal_anchor current = default 1.0%float (u_temporal_anchor kw))
    by reflexivity.
  assert (Hintensity :
    emotional_intensity current = default 0.0%float (u_emotional_intensity kw))
    by reflexivity.
  assert (Hsaturation :
    meaning_saturation current = default 0.0%float (u_meaning_saturation kw))
    by reflexivity.
  clearbody current h.
  repeat split; intros;
    apply Hfires; cbn [predicate_of];
    unfold detect_symbolic_flooding, detect_recursive_spiral,
      detect_meaning_collapse, detect_identity_fragmentation,
      detect_temporal_disconnection, detect_containment_breach;
    rewrite ?Hdepth, ?Hdensity, ?Hcoherence, ?Hanchor, ?Hintensity, ?Hsaturation;
    repeat match goal with
           | Hnone : _ kw = None |- _ => rewrite Hnone; clear Hnone
           end;
    cbn [default];
    try (destruct (length h <? 3)%nat; [reflexivity |]);
    repeat match goal with
           | |- context [fgt ?a ?b] =>
               first [ change (fgt a b) with false
                     | generalize (fgt a b); intros ? ]
           | |- context [flt ?a ?b] =>
               first [ change (flt a b) with false
                     | generalize (flt a b); intros ? ]
           | |- context [?a <? ?b] =>
               first [ change (a <? b) with false
                     | generalize (a <? b); intros ? ]
           | |- context [total_seconds_gt ?a ?b] =>
               generalize (total_seconds_gt a b); intros ?
           | |- context [forallb ?a ?b] =>
               generalize (forallb a b); intros ?
           end;
    repeat match goal with b : bool |- _ => destruct b end; reflexivity.
Qed.

Lemma omitted_metrics_take_defaults_witness :
  exists r,
    fst (process_cycle (coherence_only 0.05) 0 0 0 (new_LoopBreaker "session"))
      = Ret r /\
    (CollapsePattern_value SYMBOLIC_FLOODING ∉ reported (Ret r)).
Proof.
  assert (Hrun : returns (process_cycle (coherence_only 0.05) 0 0 0
                            (new_LoopBreaker "session"))).
  { unfold returns.
    rewrite process_cycle_session by apply new_LoopBreaker_well_formed.
    eexists. reflexivity. }
  destruct Hrun as [r Hr]. exists r. split; [exact Hr |].
  destruct (omitted_metrics_take_defaults
              (coherence_only 0.05) 0 0 0 (new_LoopBreaker "session") r
              eq_refl Hr) as (Hdepth & _).
  apply Hdepth. reflexivity.
Defined.
